(** * soundctld: the daemon supervisor of [daemon.py]

    A shallow embedding of the [Daemon] class (pidfile handling, double-fork
    detachment, the SIGTERM retry loop of [stop]) as state-passing programs
    over an explicit model of the operating system, together with the
    properties of start / stop that the specification states. *)

From Stdlib Require Import ZArith QArith Ascii String List Lia.
From Stdlib Require Import DecimalString DecimalPos DecimalZ.
From stdpp Require Import base option gmap strings list fin_maps.

Local Open Scope string_scope.
Local Open Scope Z_scope.

(* ===================================================================== *)
(** ** Python string primitives used by the daemon                        *)
(* ===================================================================== *)

(** The builtins [str.strip], [int], [str] and [str.find], restricted to
    ASCII text (pidfiles hold ASCII).  [int] is the unbounded conversion:
    the optional cap on the number of digits of recent interpreters is not
    modelled.  [str.strip] and [int] do not skip the same white space:
    each has its own class. *)
Module Py.

(** [str.isspace] on ASCII: TAB..CR, FS..US and the blank. *)
Definition isspace (c : ascii) : bool :=
  let n := N_of_ascii c in
  ((9 <=? n) && (n <=? 13) || (28 <=? n) && (n <=? 32))%N.

Fixpoint lstrip (s : string) : string :=
  match s with
  | String c r => if isspace c then lstrip r else s
  | EmptyString => EmptyString
  end.

Fixpoint rstrip (s : string) : string :=
  match s with
  | String c r =>
      match rstrip r with
      | EmptyString => if isspace c then EmptyString else String c EmptyString
      | r' => String c r'
      end
  | EmptyString => EmptyString
  end.

(** [s.strip()] *)
Definition strip (s : string) : string := rstrip (lstrip s).

(** The white space that the parser of [int] skips at both ends of an
    ASCII text: that of the C library, TAB..CR and the blank.  The
    separators FS..US, which [str.strip] removes, are not part of it. *)
Definition isspace_c (c : ascii) : bool :=
  let n := N_of_ascii c in
  ((9 <=? n) && (n <=? 13) || (n =? 32))%N.

Fixpoint lskip (s : string) : string :=
  match s with
  | String c r => if isspace_c c then lskip r else s
  | EmptyString => EmptyString
  end.

Fixpoint rskip (s : string) : string :=
  match s with
  | String c r =>
      match rskip r with
      | EmptyString => if isspace_c c then EmptyString else String c EmptyString
      | r' => String c r'
      end
  | EmptyString => EmptyString
  end.

Definition digit_of (c : ascii) : option Z :=
  let n := N_of_ascii c in
  if ((48 <=? n) && (n <=? 57))%N then Some (Z.of_N n - 48) else None.

(** Digits after the first one; a single underscore may separate two
    digits.  [us] tells that the previous character was an underscore. *)
Fixpoint scan_digits (acc : Z) (us : bool) (s : string) : option Z :=
  match s with
  | EmptyString => if us then None else Some acc
  | String c r =>
      match digit_of c with
      | Some d => scan_digits (10 * acc + d) false r
      | None =>
          if Ascii.eqb c "_" && negb us then scan_digits acc true r else None
      end
  end.

Definition digits (s : string) : option Z :=
  match s with
  | String c r =>
      match digit_of c with
      | Some d => scan_digits d false r
      | None => None
      end
  | EmptyString => None
  end.

(** [int(s)] in base ten; [None] stands for [ValueError]. *)
Definition int (s : string) : option Z :=
  match rskip (lskip s) with
  | String "+" r => digits r
  | String "-" r => Z.opp <$> digits r
  | t => digits t
  end.

(** [str(n)] for an integer. *)
Definition str (n : Z) : string := NilZero.string_of_int (Z.to_int n).

Fixpoint find_from (i : Z) (s sub : string) : Z :=
  if String.prefix sub s then i
  else match s with
       | String _ r => find_from (i + 1) r sub
       | EmptyString => -1
       end.

(** [s.find(sub)]: the lowest index of [sub] in [s], or -1. *)
Definition find (s sub : string) : Z := find_from 0 s sub.

End Py.

Definition newline : string := String "010" EmptyString.

(* ===================================================================== *)
(** ** The operating-system model                                         *)
(* ===================================================================== *)

(** Error numbers of the system calls the daemon makes (Linux values) and
    their C-library messages: an [OSError] carries
    [args = (errno, strerror)]. *)
Inductive errno : Set :=
  EPERM | ENOENT | ESRCH | EAGAIN | ENOMEM | EACCES | EINVAL | ENOSYS.

Definition errno_code (e : errno) : Z :=
  match e with
  | EPERM => 1 | ENOENT => 2 | ESRCH => 3 | EAGAIN => 11
  | ENOMEM => 12 | EACCES => 13 | EINVAL => 22 | ENOSYS => 38
  end.

Definition strerror (e : errno) : string :=
  match e with
  | EPERM => "Operation not permitted"
  | ENOENT => "No such file or directory"
  | ESRCH => "No such process"
  | EAGAIN => "Resource temporarily unavailable"
  | ENOMEM => "Cannot allocate memory"
  | EACCES => "Permission denied"
  | EINVAL => "Invalid argument"
  | ENOSYS => "Function not implemented"
  end.

(** [str(err.args)]: the text of the pair [(errno, strerror)]. *)
Definition str_args (e : errno) : string :=
  "(" +:+ Py.str (errno_code e) +:+ ", '" +:+ strerror e +:+ "')".

(** [str(err)], as substituted by ['{0}'.format(err)]. *)
Definition str_oserror (e : errno) : string :=
  "[Errno " +:+ Py.str (errno_code e) +:+ "] " +:+ strerror e.

(** Python exceptions that reach the daemon code.  [sys.exit(n)] raises
    [SystemExit n]; [IOError] is an alias of [OSError]. *)
Inductive exn : Set :=
| ValueError
| OverflowError
| OSError (e : errno)
| SystemExit (code : Z).

(** The daemon object: its only attribute is the pidfile path. *)
Record Daemon : Set := { pidfile : string }.

(** What [os.fork()] yields in the process that is followed: the parent
    side with the child's identifier, the child side (a new process,
    whose identifier the system chose), or a failure. *)
Inductive fork_result : Set :=
| ForkParent (child : positive)
| ForkChild (self : positive)
| ForkFail (e : errno).

Inductive kill_result : Set :=
| KillOk
| KillFail (e : errno).

(** The environment: outcome of the n-th [fork] and of the n-th [kill]
    system call, as decided by the operating system, and what the other
    processes do to the file system while this one is in its n-th sleep
    (the only point where the supervisor suspends). *)
Record env : Type := {
  fork_oracle : nat -> fork_result;
  kill_oracle : nat -> kill_result;
  others : nat -> gmap string string -> gmap string string
}.

Inductive file_ref : Set :=
| Inherited (fd : nat)
| NullDevice (mode : string).

(** Functions registered with [atexit.register]. *)
Inductive handler : Set :=
| Delpid (self : Daemon).

Inductive event : Set :=
| EvRead (path : string)
| EvStderr (text : string)
| EvStdout (text : string)
| EvFork (r : fork_result)
| EvChdir (path : string)
| EvSetsid
| EvUmask (mask : Z)
| EvFlush (fd : nat)
| EvOpen (path mode : string)
| EvDup2 (src : file_ref) (dst : nat)
| EvAtexit (h : handler)
| EvGetpid (pid : Z)
| EvWrite (path text : string)
| EvKill (pid sig : Z) (r : kill_result)
| EvSleep (seconds : Q)
| EvExists (path : string) (found : bool)
| EvRemove (path : string).

(** State of the process that is followed and of the file system it sees.
    [fs] maps the absolute paths of the regular files that the process
    can open to their content; [fdtab] tells what the standard
    descriptors refer to; [lineage] counts the forks this process is on
    the child side of (0 for the invoking process); [nforks], [nkills]
    and [nsleeps] count the calls made so far and index the environment;
    [trace] lists the system-level actions taken so far, oldest first.

    [denied] holds the other files that are there, with their content:
    those to which the system refuses this process access (the pidfile
    of a daemon of another user, in a directory that this user may not
    search).  Opening and removing such a file fails with EACCES, and
    [os.path.exists] does not see it.  A path is looked up in [fs]
    first.  What the system refuses on a write is a failure that the
    daemon does not handle and is not modelled: a write succeeds, and
    the file it leaves can be opened. *)
Record world : Type := mkWorld {
  fs : gmap string string;
  cwd : string;
  fdtab : gmap nat file_ref;
  atexit : list handler;
  self_pid : Z;
  lineage : nat;
  nforks : nat;
  nkills : nat;
  nsleeps : nat;
  trace : list event;
  denied : gmap string string
}.

Definition log (e : event) (w : world) : world :=
  mkWorld (fs w) (cwd w) (fdtab w) (atexit w) (self_pid w) (lineage w)
          (nforks w) (nkills w) (nsleeps w) (trace w ++ [e]) (denied w).

Definition set_fs (f : gmap string string) (w : world) : world :=
  mkWorld f (cwd w) (fdtab w) (atexit w) (self_pid w) (lineage w)
          (nforks w) (nkills w) (nsleeps w) (trace w) (denied w).

Definition set_cwd (d : string) (w : world) : world :=
  mkWorld (fs w) d (fdtab w) (atexit w) (self_pid w) (lineage w)
          (nforks w) (nkills w) (nsleeps w) (trace w) (denied w).

Definition set_fdtab (t : gmap nat file_ref) (w : world) : world :=
  mkWorld (fs w) (cwd w) t (atexit w) (self_pid w) (lineage w)
          (nforks w) (nkills w) (nsleeps w) (trace w) (denied w).

Definition set_atexit (hs : list handler) (w : world) : world :=
  mkWorld (fs w) (cwd w) (fdtab w) hs (self_pid w) (lineage w)
          (nforks w) (nkills w) (nsleeps w) (trace w) (denied w).

Definition forked (r : fork_result) (w : world) : world :=
  match r with
  | ForkChild p =>
      mkWorld (fs w) (cwd w) (fdtab w) (atexit w) (Z.pos p) (S (lineage w))
              (S (nforks w)) (nkills w) (nsleeps w) (trace w) (denied w)
  | _ =>
      mkWorld (fs w) (cwd w) (fdtab w) (atexit w) (self_pid w) (lineage w)
              (S (nforks w)) (nkills w) (nsleeps w) (trace w) (denied w)
  end.

Definition killed (w : world) : world :=
  mkWorld (fs w) (cwd w) (fdtab w) (atexit w) (self_pid w) (lineage w)
          (nforks w) (S (nkills w)) (nsleeps w) (trace w) (denied w).

Definition slept (f : gmap string string) (w : world) : world :=
  mkWorld f (cwd w) (fdtab w) (atexit w) (self_pid w) (lineage w)
          (nforks w) (nkills w) (S (nsleeps w)) (trace w) (denied w).

(** The components of a path: the texts between its slashes. *)
Fixpoint components (p : string) : list string :=
  match p with
  | EmptyString => [EmptyString]
  | String c r =>
      if Ascii.eqb c "/" then EmptyString :: components r
      else match components r with
           | part :: parts => String c part :: parts
           | [] => [String c EmptyString]
           end
  end.

(** One step of the walk from the root: the directories entered so far,
    innermost first.  An empty component and [.] stay where they are,
    [..] goes up one directory (the root is its own parent). *)
Definition walk (entered : list string) (part : string) : list string :=
  if String.eqb part "" || String.eqb part "." then entered
  else if String.eqb part ".." then tail entered
  else part :: entered.

Fixpoint join_path (parts : list string) : string :=
  match parts with
  | [] => EmptyString
  | part :: rest => String "/" (part +:+ join_path rest)
  end.

(** The canonical text of an absolute path: no empty component, no [.]
    and no [..].  Directories are not modelled; every directory that a
    path names is taken to be there and to be no symbolic link. *)
Definition normalise (p : string) : string :=
  match rev (fold_left walk (components p) []) with
  | [] => "/"
  | parts => join_path parts
  end.

(** The file that a path names for a process whose current directory is
    [dir]: a relative path starts from [dir].  Two texts that name the
    same file resolve to the same key of [fs]. *)
Definition resolve (dir p : string) : string :=
  normalise
    match p with
    | String "/" _ => p
    | _ => dir +:+ "/" +:+ p
    end.

(* ===================================================================== *)
(** ** Programs: state, exceptions, and fuel for the unbounded loop       *)
(* ===================================================================== *)

Inductive result (A : Type) : Type :=
| Ok (a : A) (w : world)
| Raise (e : exn) (w : world)
| OutOfFuel (w : world).
Arguments Ok {A} a w.
Arguments Raise {A} e w.
Arguments OutOfFuel {A} w.

Definition M (A : Type) : Type := world -> result A.

Definition ret {A} (a : A) : M A := fun w => Ok a w.

Definition bind {A B} (m : M A) (k : A -> M B) : M B :=
  fun w =>
    match m w with
    | Ok a w' => k a w'
    | Raise e w' => Raise e w'
    | OutOfFuel w' => OutOfFuel w'
    end.

Definition raise {A} (e : exn) : M A := fun w => Raise e w.

(** [try: body except ...: handler]; the handler is [None] on the
    exceptions that the except clause does not match. *)
Definition try_except {A} (body : M A) (h : exn -> option (M A)) : M A :=
  fun w =>
    match body w with
    | Raise e w' =>
        match h e with
        | Some k => k w'
        | None => Raise e w'
        end
    | r => r
    end.

Declare Scope prog_scope.
Delimit Scope prog_scope with prog.
Notation "x <- m ;; k" := (bind m (fun x => k))
  (at level 100, m at next level, right associativity) : prog_scope.
Notation "m ;; k" := (bind m (fun _ => k))
  (at level 100, right associativity) : prog_scope.
Local Open Scope prog_scope.

Definition world_of {A} (r : result A) : world :=
  match r with
  | Ok _ w => w
  | Raise _ w => w
  | OutOfFuel w => w
  end.

Definition emit (e : event) : M unit := fun w => Ok tt (log e w).

Definition SIGTERM : Z := 15.

(** Range of the C type [pid_t]: [os.kill] raises [OverflowError] on an
    integer outside it, before any system call. *)
Definition pid_t_ok (pid : Z) : bool :=
  (- 2 ^ 31 <=? pid) && (pid <? 2 ^ 31).

Section Supervisor.

Variable E : env.

(** *** System and library calls *)

(** The error of a system call that names a file which the process
    cannot open: the file is there but access is refused, or it is not
    there. *)
Definition no_access (w : world) (k : string) : errno :=
  match denied w !! k with
  | Some _ => EACCES
  | None => ENOENT
  end.

(** [with open(path, 'r') as pf: ... pf.read()]: [open] fails with
    [IOError] when the file is not there and also when it is there but
    the process may not open it. *)
Definition open_read (path : string) : M string :=
  fun w =>
    let w' := log (EvRead path) w in
    match fs w !! resolve (cwd w) path with
    | Some text => Ok text w'
    | None => Raise (OSError (no_access w (resolve (cwd w) path))) w'
    end.

(** [with open(path, 'w+') as f: f.write(text)]; a refusal of the
    system is not modelled. *)
Definition open_write (path text : string) : M unit :=
  fun w =>
    Ok tt (log (EvWrite path text)
             (set_fs (<[resolve (cwd w) path := text]> (fs w)) w)).

Definition stderr_write (text : string) : M unit := emit (EvStderr text).

Definition print (text : string) : M unit :=
  emit (EvStdout (text +:+ newline)).

Definition sys_exit {A} (code : Z) : M A := raise (SystemExit code).

Definition os_fork : M Z :=
  fun w =>
    let r := fork_oracle E (nforks w) in
    let w' := log (EvFork r) (forked r w) in
    match r with
    | ForkParent child => Ok (Z.pos child) w'
    | ForkChild _ => Ok 0 w'
    | ForkFail e => Raise (OSError e) w'
    end.

Definition os_chdir (path : string) : M unit :=
  fun w => Ok tt (log (EvChdir path) (set_cwd (resolve (cwd w) path) w)).

Definition os_setsid : M unit := emit EvSetsid.

Definition os_umask (mask : Z) : M unit := emit (EvUmask mask).

Definition flush (fd : nat) : M unit := emit (EvFlush fd).

(** [open(os.devnull, mode)]: the file object is represented by what it
    refers to; its own descriptor number is left out. *)
Definition open_devnull (mode : string) : M file_ref :=
  fun w => Ok (NullDevice mode) (log (EvOpen "/dev/null" mode) w).

Definition os_dup2 (src : file_ref) (dst : nat) : M unit :=
  fun w =>
    Ok tt (log (EvDup2 src dst) (set_fdtab (<[dst := src]> (fdtab w)) w)).

Definition atexit_register (h : handler) : M unit :=
  fun w => Ok tt (log (EvAtexit h) (set_atexit (h :: atexit w) w)).

Definition os_getpid : M Z :=
  fun w => Ok (self_pid w) (log (EvGetpid (self_pid w)) w).

Definition os_kill (pid sig : Z) : M unit :=
  fun w =>
    if pid_t_ok pid then
      let r := kill_oracle E (nkills w) in
      let w' := log (EvKill pid sig r) (killed w) in
      match r with
      | KillOk => Ok tt w'
      | KillFail e => Raise (OSError e) w'
      end
    else Raise OverflowError w.

Definition time_sleep (seconds : Q) : M unit :=
  fun w =>
    Ok tt (log (EvSleep seconds) (slept (others E (nsleeps w) (fs w)) w)).

(** [os.path.exists(path)]: false also when the system refuses to look
    at the path. *)
Definition os_path_exists (path : string) : M bool :=
  fun w =>
    let found := bool_decide (is_Some (fs w !! resolve (cwd w) path)) in
    Ok found (log (EvExists path found) w).

Definition os_remove (path : string) : M unit :=
  fun w =>
    let w' := log (EvRemove path) w in
    match fs w !! resolve (cwd w) path with
    | Some _ => Ok tt (set_fs (delete (resolve (cwd w) path) (fs w)) w')
    | None => Raise (OSError (no_access w (resolve (cwd w) path))) w'
    end.

(** [if pid: yes else: no], for [pid] an integer or [None]: zero and
    [None] are the false values. *)
Definition if_truthy {A} (pid : option Z) (yes : Z -> M A) (no : M A) : M A :=
  match pid with
  | Some n => if n =? 0 then no else yes n
  | None => no
  end.

(** *** class Daemon *)

Context {Args : Type}.

(** The [run] method of the subclass. *)
Variable run : Args -> M unit.

(** The two fork blocks of [daemonize], which differ in the number
    [which] of the message: exit 0 on the parent side, report and exit 1
    when the fork fails, go on when on the child side. *)
Definition fork_or_exit (which : string) : M unit :=
  try_except
    (pid <- os_fork ;;
     if pid >? 0 then sys_exit 0 else ret tt)
    (fun e =>
       match e with
       | OSError err =>
           Some (stderr_write
                   ("fork #" +:+ which +:+ " failed: " +:+ str_oserror err
                      +:+ newline) ;;
                 sys_exit 1)
       | _ => None
       end).

Definition daemonize (self : Daemon) : M unit :=
  fork_or_exit "1" ;;
  os_chdir "/" ;;
  os_setsid ;;
  os_umask 0 ;;
  fork_or_exit "2" ;;
  flush 1%nat ;;
  flush 2%nat ;;
  si <- open_devnull "r" ;;
  so <- open_devnull "a+" ;;
  se <- open_devnull "a+" ;;
  os_dup2 si 0%nat ;;
  os_dup2 so 1%nat ;;
  os_dup2 se 2%nat ;;
  atexit_register (Delpid self) ;;
  pid <- os_getpid ;;
  open_write (pidfile self) (Py.str pid +:+ newline).

Definition delpid (self : Daemon) : M unit := os_remove (pidfile self).

(** The prologue shared by [start] and [stop]: the pid recorded in the
    pidfile, [None] when the file cannot be opened. *)
Definition read_pid (self : Daemon) : M (option Z) :=
  try_except
    (text <- open_read (pidfile self) ;;
     match Py.int (Py.strip text) with
     | Some n => ret (Some n)
     | None => raise ValueError
     end)
    (fun e =>
       match e with
       | OSError _ => Some (ret None)
       | _ => None
       end).

Definition already_running (self : Daemon) : string :=
  "pidfile " +:+ pidfile self +:+ " already exist. Daemon already running?"
    +:+ newline.

Definition not_running (self : Daemon) : string :=
  "pidfile " +:+ pidfile self +:+ " does not exist. Daemon not running?"
    +:+ newline.

Definition start (self : Daemon) (args : Args) : M unit :=
  pid <- read_pid self ;;
  if_truthy pid
    (fun _ => stderr_write (already_running self) ;; sys_exit 1)
    (ret tt) ;;
  daemonize self ;;
  run args.

(** [while 1: os.kill(pid, signal.SIGTERM); time.sleep(0.1)] *)
Fixpoint kill_loop (fuel : nat) (pid : Z) : M unit :=
  match fuel with
  | O => fun w => OutOfFuel w
  | S n =>
      os_kill pid SIGTERM ;;
      time_sleep (1 # 10)%Q ;;
      kill_loop n pid
  end.

Definition stop (fuel : nat) (self : Daemon) : M unit :=
  pid <- read_pid self ;;
  if_truthy pid
    (fun pid =>
       try_except (kill_loop fuel pid)
         (fun e =>
            match e with
            | OSError err =>
                Some (let e := str_args err in
                      if Py.find e "No such process" >? 0 then
                        found <- os_path_exists (pidfile self) ;;
                        if found : bool then os_remove (pidfile self)
                        else ret tt
                      else
                        print e ;;
                        sys_exit 1)
            | _ => None
            end))
    (stderr_write (not_running self)).

Definition restart (fuel : nat) (self : Daemon) (args : Args) : M unit :=
  stop fuel self ;;
  start self args.

(** *** Process termination *)

Definition call_handler (h : handler) : M unit :=
  match h with
  | Delpid self => delpid self
  end.

(** The interpreter runs the registered handlers, latest first; an
    exception in a handler does not stop the others. *)
Fixpoint run_atexit (hs : list handler) (w : world) : world :=
  match hs with
  | [] => w
  | h :: hs' => run_atexit hs' (world_of (call_handler h w))
  end.

Definition at_exit (w : world) : world := run_atexit (atexit w) w.

End Supervisor.

(** Exit status of the process when its entry point ends with [r]: 0 on a
    normal return, the code of [sys.exit], 1 on an uncaught exception;
    [None] while the process is still running. *)
Definition exit_status {A} (r : result A) : option Z :=
  match r with
  | Ok _ _ => Some 0
  | Raise (SystemExit code) _ => Some code
  | Raise _ _ => Some 1
  | OutOfFuel _ => None
  end.


(* ===================================================================== *)
(** ** Vocabulary of the statements                                       *)
(* ===================================================================== *)

(** The file that the pidfile path names for the process in state [w]. *)
Definition pidfile_at (d : Daemon) (w : world) : string :=
  resolve (cwd w) (pidfile d).

(** The pidfile cannot be opened (it is absent, or access to it is
    refused), or it records the integer zero: the cases in which the pid
    read by [start] and [stop] is false. *)
Definition nothing_recorded (d : Daemon) (w : world) : Prop :=
  match fs w !! pidfile_at d w with
  | Some text => Py.int (Py.strip text) = Some 0
  | None => True
  end.

Definition is_absolute (p : string) : bool :=
  match p with
  | String "/" _ => true
  | _ => false
  end.

(** The same world with the file [k] removed. *)
Definition without (k : string) (w : world) : world :=
  set_fs (delete k (fs w)) w.

(** A non-empty string of decimal digits. *)
Definition is_decimal (s : string) : bool :=
  match s with
  | EmptyString => false
  | _ => forallb (fun c => bool_decide (is_Some (Py.digit_of c)))
                 (list_ascii_of_string s)
  end.

(** Value of a digit sequence read from the most significant end,
    starting from [acc]. *)
Fixpoint uint_value (acc : Z) (u : Decimal.uint) : Z :=
  match u with
  | Decimal.Nil => acc
  | Decimal.D0 r => uint_value (10 * acc) r
  | Decimal.D1 r => uint_value (10 * acc + 1) r
  | Decimal.D2 r => uint_value (10 * acc + 2) r
  | Decimal.D3 r => uint_value (10 * acc + 3) r
  | Decimal.D4 r => uint_value (10 * acc + 4) r
  | Decimal.D5 r => uint_value (10 * acc + 5) r
  | Decimal.D6 r => uint_value (10 * acc + 6) r
  | Decimal.D7 r => uint_value (10 * acc + 7) r
  | Decimal.D8 r => uint_value (10 * acc + 8) r
  | Decimal.D9 r => uint_value (10 * acc + 9) r
  end.

Definition is_atexit (e : event) : bool :=
  match e with EvAtexit _ => true | _ => false end.

Definition is_write (e : event) : bool :=
  match e with EvWrite _ _ => true | _ => false end.

Definition is_kill (e : event) : bool :=
  match e with EvKill _ _ _ => true | _ => false end.

(** Some event satisfying [a] occurs in [t] strictly before one
    satisfying [b]. *)
Fixpoint precedes (a b : event -> bool) (t : list event) : bool :=
  match t with
  | [] => false
  | e :: r => a e && existsb b r || precedes a b r
  end.

(** What the first child logs when it decouples from its parent's
    environment, what the final child logs when it redirects the standard
    streams, and what it logs when it records its pid. *)
Definition decouple_events : list event :=
  [EvChdir "/"; EvSetsid; EvUmask 0].

Definition redirect_events : list event :=
  [EvFlush 1; EvFlush 2;
   EvOpen "/dev/null" "r"; EvOpen "/dev/null" "a+"; EvOpen "/dev/null" "a+";
   EvDup2 (NullDevice "r") 0; EvDup2 (NullDevice "a+") 1;
   EvDup2 (NullDevice "a+") 2].

Definition record_events (d : Daemon) (pid : Z) : list event :=
  [EvAtexit (Delpid d); EvGetpid pid;
   EvWrite (pidfile d) (Py.str pid +:+ newline)].

Definition fork_failed (which : string) (e : errno) : string :=
  "fork #" +:+ which +:+ " failed: " +:+ str_oserror e +:+ newline.

(** The program has not ended within the fuel it was given. *)
Definition running {A} (r : result A) : bool :=
  match r with
  | OutOfFuel _ => true
  | _ => false
  end.

(** The order of the final child's last steps as the specification words
    it: the pid is written before the cleanup is registered. *)
Definition pid_written_before_cleanup (t : list event) : Prop :=
  precedes is_write is_atexit t = true.

(** The frame property of [start] as the specification words it: whatever
    an existing pidfile holds, [start] ends with a non-zero status and the
    pidfile holds what it held. *)
Definition start_never_touches_pidfile : Prop :=
  forall (E : env) (run : unit -> M unit) (d : Daemon) (w : world)
         (text : string),
    fs w !! pidfile_at d w = Some text ->
    (exists c, exit_status (start E run d tt w) = Some c /\ c <> 0) /\
    fs (world_of (start E run d tt w)) !! pidfile_at d w = Some text.

(** The file [k] is there and holds [text], whether or not the process
    may open it. *)
Definition holds (w : world) (k text : string) : Prop :=
  fs w !! k = Some text \/ (fs w !! k = None /\ denied w !! k = Some text).

(** The refusal of [start] as the specification words it: whenever the
    pidfile is there and its content parses to a non-zero integer,
    [start] writes the "already running" message, ends with a non-zero
    status and has not forked. *)
Definition start_refuses_recorded_pid : Prop :=
  forall (E : env) (run : unit -> M unit) (d : Daemon) (w : world)
         (text : string) (n : Z),
    holds w (pidfile_at d w) text ->
    Py.int (Py.strip text) = Some n ->
    n <> 0 ->
    (exists c, exit_status (start E run d tt w) = Some c /\ c <> 0) /\
    In (EvStderr (already_running d))
       (trace (world_of (start E run d tt w))) /\
    nforks (world_of (start E run d tt w)) = nforks w.

(** The overwrite as the specification words it: when [start] detaches
    on a pidfile that holds 0, that pidfile holds the pid of the final
    child afterwards. *)
Definition zero_pidfile_is_replaced : Prop :=
  forall (E : env) (run : unit -> M unit) (d : Daemon) (w : world)
         (text : string) (p1 p2 : positive),
    fs w !! pidfile_at d w = Some text ->
    Py.int (Py.strip text) = Some 0 ->
    fork_oracle E (nforks w) = ForkChild p1 ->
    fork_oracle E (S (nforks w)) = ForkChild p2 ->
    fs (world_of (start E run d tt w)) !! pidfile_at d w
    = Some (Py.str (Z.pos p2) +:+ newline).

(** The events that [stop] logs for [n] delivered signals. *)
Definition delivered (pid : Z) (n : nat) : list event :=
  mjoin (replicate n [EvKill pid SIGTERM KillOk; EvSleep (1 # 10)%Q]).

(** The file system after the other processes have acted during the [n]
    sleeps that follow sleep number [i]. *)
Fixpoint others_during (E : env) (i n : nat) (f : gmap string string)
  : gmap string string :=
  match n with
  | O => f
  | S m => others_during E (S i) m (others E i f)
  end.

(* ===================================================================== *)
(** ** Concrete scenarios                                                 *)
(* ===================================================================== *)

Module Scenario.

(** The daemon as [soundctld] constructs it. *)
Definition soundctld : Daemon := {| pidfile := "/tmp/soundctld.pid" |}.

Definition key : string := "/tmp/soundctld.pid".

(** A shell-started process 1000 in a home directory, with the three
    standard descriptors inherited, on a file system [f]. *)
Definition shell (f : gmap string string) : world :=
  mkWorld f "/home/user"
          {[ 0%nat := Inherited 0; 1%nat := Inherited 1;
             2%nat := Inherited 2 ]}
          [] 1000 0 0 0 0 [] ∅.

(** Both forks succeed and the process followed is the child each time;
    the signalled process survives two SIGTERMs and is gone at the
    third; nobody else touches the file system. *)
Definition detach : env :=
  {| fork_oracle := fun n =>
       match n with O => ForkChild 1001 | _ => ForkChild 1002 end;
     kill_oracle := fun n =>
       match n with
       | O | S O => KillOk
       | _ => KillFail ESRCH
       end;
     others := fun _ f => f |}.

(** As [detach], seen from the invoking process: the parent side of the
    first fork. *)
Definition invoker : env :=
  {| fork_oracle := fun _ => ForkParent 1001;
     kill_oracle := kill_oracle detach;
     others := others detach |}.

(** The signalled process belongs to somebody else. *)
Definition foreign : env :=
  {| fork_oracle := fork_oracle detach;
     kill_oracle := fun _ => KillFail EPERM;
     others := others detach |}.

(** The signalled process ignores SIGTERM for ever. *)
Definition stubborn : env :=
  {| fork_oracle := fork_oracle detach;
     kill_oracle := fun _ => KillOk;
     others := others detach |}.

(** A pidfile that records the integer zero. *)
Definition zeroed : world := shell {[ key := "0" +:+ newline ]}.

(** A stale pidfile: the daemon 4242 it names is long gone. *)
Definition stale : world := shell {[ key := "4242" +:+ newline ]}.

(** A pidfile that holds no number. *)
Definition garbled : world := shell {[ key := "soundctld" +:+ newline ]}.

(** No pidfile. *)
Definition clean : world := shell ∅.

(** The pidfile of a running daemon 4242 of another user: it is there,
    but this process is refused access to it. *)
Definition locked : world :=
  mkWorld ∅ "/home/user"
          {[ 0%nat := Inherited 0; 1%nat := Inherited 1;
             2%nat := Inherited 2 ]}
          [] 1000 0 0 0 0 [] {[ key := "4242" +:+ newline ]}.

(** The worker of the scenarios returns at once. *)
Definition worker (_ : unit) : M unit := ret tt.

End Scenario.


(* ===================================================================== *)
(** ** The command-line entry point                                       *)
(* ===================================================================== *)

Section EntryPoint.

Variable E : env.

(** The namespace that [parser.parse_args()] returns: its [pidfile] and
    [command] attributes, [None] when the option or the command was not
    given; the rest of it is the configuration of the worker. *)
Context {Args : Type}.
Variable args_pidfile : Args -> option string.
Variable args_command : Args -> option string.

(** [daemon.run(args)] and [daemon.run()] of the subclass, and the text
    of [parser.format_help()]. *)
Variable run : Args -> M unit.
Variable run_noargs : M unit.
Variable format_help : string.

(** [main], from the parsed namespace on: the pidfile given on the
    command line replaces the daemon's unless it is empty, then the
    command is dispatched. *)
Definition main (fuel : nat) (daemon : Daemon) (args : Args) : M unit :=
  let daemon :=
    match args_pidfile args with
    | Some p => if String.eqb p "" then daemon else {| pidfile := p |}
    | None => daemon
    end in
  match args_command args with
  | Some command =>
      if String.eqb "start" command then start E run daemon args
      else if String.eqb "stop" command then stop E fuel daemon
      else if String.eqb "restart" command then restart E run fuel daemon args
      else if String.eqb "test" command then run_noargs
      else print format_help
  | None => print format_help
  end.

End EntryPoint.

(** World after the cleanup handlers: which pidfiles are registered. *)
Definition registered (w : world) (k : string) : Prop :=
  exists d, In (Delpid d) (atexit w) /\ pidfile_at d w = k.

(* ===================================================================== *)
(** ** Further scenarios                                                  *)
(* ===================================================================== *)

Module Cases.

Import Scenario.

(** The daemon started with [-p soundctld.pid]. *)
Definition relative : Daemon := {| pidfile := "soundctld.pid" |}.

(** The recorded process is gone at the first signal; both forks succeed
    on the child side. *)
Definition gone : env :=
  {| fork_oracle := fork_oracle detach;
     kill_oracle := fun _ => KillFail ESRCH;
     others := others detach |}.

(** A pidfile that records the integer zero, under the relative path and
    in the directory of the shell. *)
Definition zeroed_here : world :=
  shell {[ "/home/user/soundctld.pid" := "0" +:+ newline ]}.

(** A pidfile that holds a number no process identifier can be. *)
Definition huge : world := shell {[ key := "99999999999" +:+ newline ]}.

(** The state in which the worker of [soundctld] starts from [clean]. *)
Definition started : world :=
  world_of (daemonize detach soundctld (log (EvRead key) clean)).

(** A later invocation from the shell, on the file system [f]. *)
Definition later (f : gmap string string) : world := shell f.

(** A parsed command line: pidfile option and command. *)
Definition cli : Type := (option string * option string)%type.

Definition cli_pidfile (args : cli) : option string := fst args.

Definition cli_command (args : cli) : option string := snd args.

Definition served (_ : cli) : M unit := ret tt.

(** [soundctld -p /tmp/soundctld.pid stop] *)
Definition stop_line : cli := (Some "/tmp/soundctld.pid", Some "stop").

End Cases.

(* ===================================================================== *)
(** ** Further Python string primitives                                   *)
(* ===================================================================== *)

(** [str.lower], [str.split] on a one-character separator, [str.join]
    and [str.format] with the keyword [value], on ASCII text. *)
Module PyText.

Definition lower_char (c : ascii) : ascii :=
  let n := N_of_ascii c in
  if ((65 <=? n) && (n <=? 90))%N then ascii_of_N (n + 32) else c.

Fixpoint lower (s : string) : string :=
  match s with
  | String c r => String (lower_char c) (lower r)
  | EmptyString => EmptyString
  end.

(** [s.split(sep)]: the pieces between the occurrences of [sep], empty
    pieces included; never the empty list. *)
Fixpoint split (sep : ascii) (s : string) : list string :=
  match s with
  | EmptyString => [EmptyString]
  | String c r =>
      if Ascii.eqb c sep then EmptyString :: split sep r
      else match split sep r with
           | piece :: pieces => String c piece :: pieces
           | [] => [String c EmptyString]
           end
  end.

(** [sep.join(pieces)] *)
Fixpoint join (sep : string) (pieces : list string) : string :=
  match pieces with
  | [] => EmptyString
  | [piece] => piece
  | piece :: rest => piece +:+ sep +:+ join sep rest
  end.

(** [template.format(value=v)], [v] being the text of the value.  Doubled
    braces stand for a brace and [{value}] for the value; [None] on any
    other use of a brace (another field, a conversion or a format
    specification, a single closing brace), which either raises or is not
    modelled.  [skip] characters are passed over first. *)
Fixpoint format_from (skip : nat) (template v : string) : option string :=
  match template with
  | EmptyString => Some EmptyString
  | String c r =>
      match skip with
      | S k => format_from k r v
      | O =>
          if Ascii.eqb c "{" then
            if String.prefix "{" r then String c <$> format_from 1 r v
            else if String.prefix "value}" r
                 then String.append v <$> format_from 6 r v
                 else None
          else if Ascii.eqb c "}" then
            if String.prefix "}" r then String c <$> format_from 1 r v
            else None
          else String c <$> format_from 0 r v
      end
  end.

Definition format (template v : string) : option string :=
  format_from 0 template v.

End PyText.

(* ===================================================================== *)
(** ** dbusclient: checked conversions of command-line arguments          *)
(* ===================================================================== *)

(** No brace occurs in the text. *)
Definition brace_free (s : string) : bool :=
  forallb (fun c => negb (Ascii.eqb c "{" || Ascii.eqb c "}"))
    (list_ascii_of_string s).

(** The exception classes that [verifying] can be told to raise. *)
Inductive exc_class : Set :=
| ValueErrorClass
| ArgumentTypeErrorClass.

(** Outcome of a checked conversion: the converted value, the exception
    that the conversion itself raised, the exception
    [exception_type(msg)] of a failed condition, or a failure of
    [str.format] on the message template. *)
Inductive checked (X A : Type) : Type :=
| Converted (a : A)
| CastRaised (x : X)
| Rejected (cls : exc_class) (msg : string)
| FormatRaised.
Arguments Converted {X A} a.
Arguments CastRaised {X A} x.
Arguments Rejected {X A} cls msg.
Arguments FormatRaised {X A}.

(** [message or default]: [None] and the empty string are false. *)
Definition or_message (message : option string) (default : string) : string :=
  match message with
  | Some m => if String.eqb m "" then default else m
  | None => default
  end.

Definition reject {X A} (cls : exc_class) (template v : string) : checked X A :=
  match PyText.format template v with
  | Some msg => Rejected cls msg
  | None => FormatRaised
  end.

(** [condition and not condition(value)] *)
Definition violates {A} (condition : option (A -> bool)) (a : A) : bool :=
  match condition with
  | Some c => negb (c a)
  | None => false
  end.

Section Verifying.

(** Values before and after the conversion, with their [str], and what
    the conversion raises. *)
Context {V C X : Type}.
Variables (str_v : V -> string) (str_c : C -> string).

Definition verifying (cast : V -> X + C)
    (pre_condition : option (V -> bool)) (pre_message : option string)
    (post_condition : option (C -> bool)) (post_message : option string)
    (exception_type : option exc_class) : V -> checked X C :=
  let exception_type := default ValueErrorClass exception_type in
  let pre_message :=
    or_message pre_message
      "value {value} did not satisfy constraints for being converted." in
  let post_message :=
    or_message post_message
      "value {value} did not satisfy constraints after conversion." in
  fun value =>
    if violates pre_condition value then
      reject exception_type pre_message (str_v value)
    else
      match cast value with
      | inl x => CastRaised x
      | inr converted =>
          if violates post_condition converted then
            reject exception_type post_message (str_c converted)
          else Converted converted
      end.

(** [DBusMethod.validating(type, is_valid, invalid_msg)] *)
Definition validating (type : V -> X + C) (is_valid : C -> bool)
    (invalid_msg : string) : V -> checked X C :=
  fun value =>
    match type value with
    | inl x => CastRaised x
    | inr value =>
        if negb (is_valid value) then
          reject ArgumentTypeErrorClass invalid_msg (str_c value)
        else Converted value
    end.

End Verifying.

(** [bounded(cast, min, max, exception_type)] for an integer-valued
    conversion. *)
Definition bounded {V X : Type} (str_v : V -> string) (cast : V -> X + Z)
    (min max : Z) (exception_type : option exc_class) : V -> checked X Z :=
  verifying str_v Py.str cast None None
    (Some (fun x => (min <=? x) && (x <=? max)))
    (Some ("Value {value} out of bounds [" +:+ Py.str min +:+ ", "
             +:+ Py.str max +:+ "]"))
    exception_type.

(** The message of [bounded] for a converted value out of the bounds. *)
Definition out_of_bounds (min max n : Z) : string :=
  "Value " +:+ Py.str n +:+ " out of bounds [" +:+ Py.str min +:+ ", "
    +:+ Py.str max +:+ "]".

(** The builtin [int] as a conversion of text: it raises [ValueError]
    about the text it was given. *)
Inductive int_error : Set :=
| InvalidLiteral (text : string).

Definition int_cast (text : string) : int_error + Z :=
  match Py.int text with
  | Some n => inr n
  | None => inl (InvalidLiteral text)
  end.

(** [str(s)] of a string. *)
Definition str_of_str (s : string) : string := s.

(** The rows of [DBUS_TYPES]: [TInt min max] stands for
    [bounded(int, min, max)]. *)
Inductive dbus_type : Set :=
| TBool
| TInt (min max : Z)
| TFloat
| TStr.

Definition DBUS_TYPES : list (string * dbus_type) :=
  [ ("b", TBool);
    ("y", TInt (- 2 ^ 7) (2 ^ 7 - 1));
    ("n", TInt (- 2 ^ 15) (2 ^ 15 - 1));
    ("i", TInt (- 2 ^ 31) (2 ^ 31 - 1));
    ("x", TInt (- 2 ^ 63) (2 ^ 63 - 1));
    ("q", TInt 0 (2 ^ 16 - 1));
    ("u", TInt 0 (2 ^ 32 - 1));
    ("t", TInt 0 (2 ^ 64 - 1));
    ("d", TFloat);
    ("s", TStr) ].

(** [DBUS_TYPES[code]]; [None] stands for [KeyError]. *)
Fixpoint lookup_type (code : string) (table : list (string * dbus_type))
  : option dbus_type :=
  match table with
  | [] => None
  | (c, t) :: rest =>
      if String.eqb c code then Some t else lookup_type code rest
  end.

(** The integer conversion that a code of [DBUS_TYPES] stands for. *)
Definition dbus_int (code : string) : option (string -> checked int_error Z) :=
  match lookup_type code DBUS_TYPES with
  | Some (TInt min max) => Some (bounded str_of_str int_cast min max None)
  | _ => None
  end.

(** soundctl: [percentage = bounded(int, 0, 100,
    exception_type=ArgumentTypeError)]. *)
Definition percentage : string -> checked int_error Z :=
  bounded str_of_str int_cast 0 100 (Some ArgumentTypeErrorClass).

(** What [str_bool] raises: [NameError] for a global that is not bound,
    or [ArgumentTypeError]. *)
Inductive bool_error : Set :=
| NameError (name : string)
| NotBoolean (msg : string).

(** [str_bool(string)], in a module namespace [globals] that binds names
    to strings. *)
Definition str_bool (globals : gmap string string) (string : string)
  : bool_error + bool :=
  let lowstring := PyText.lower string in
  match globals !! "truestr" with
  | None => inl (NameError "truestr")
  | Some truestr =>
      if String.eqb truestr lowstring then inr true
      else
        match globals !! "falsestr" with
        | None => inl (NameError "falsestr")
        | Some falsestr =>
            if String.eqb falsestr lowstring then inr false
            else inl (NotBoolean
                        ("'" +:+ string +:+ "' is neither '" +:+ truestr
                           +:+ "' nor '" +:+ falsestr +:+ "'."))
        end
  end.

(** [DBusClient.add_method]: the keyword arguments handed on to
    [add_parser]. *)
Definition add_method_kwargs (kwargs : gmap string string)
  : gmap string string :=
  let kwargs :=
    match kwargs !! "help" with
    | None => <["help" := ""]> kwargs
    | Some _ => kwargs
    end in
  match kwargs !! "description" with
  | None => <["description" := default "" (kwargs !! "help")]> kwargs
  | Some _ => kwargs
  end.

(** Values of the keyword arguments of [DBusMethod.add_argument]: a
    string, a row of [DBUS_TYPES], the class [ArgAction], or some other
    object. *)
Inductive kwarg : Set :=
| KStr (s : string)
| KType (t : dbus_type)
| KArgAction
| KOther (name : string).

(** [DBusMethod.add_argument]: the keyword arguments handed on to
    [arg_parser.add_argument], or the code that is not a key of
    [DBUS_TYPES]. *)
Definition add_argument_kwargs (kwargs : gmap string kwarg)
  : string + gmap string kwarg :=
  match kwargs !! "type" with
  | Some (KStr code) =>
      match lookup_type code DBUS_TYPES with
      | Some t =>
          inr (<["action" := KArgAction]> (<["type" := KType t]> kwargs))
      | None => inl code
      end
  | _ => inr (<["action" := KArgAction]> kwargs)
  end.

(** Value of an attribute of a namespace: one converted argument, or a
    list of them.  An argument is a single value (none of the arguments
    has [nargs]), so it is not a list itself. *)
Inductive attr (A : Type) : Type :=
| Item (a : A)
| Items (l : list A).
Arguments Item {A} a.
Arguments Items {A} l.

(** [AttributeError]: the namespace has no attribute [method_args], or
    what [method_args] holds is no list and has no [append]. *)
Inductive attribute_error : Set :=
| NoMethodArgs
| NoAppend.

(** [ArgAction.__call__] for the argument [dest] with the converted
    [values], on the namespace [ns] given by its attributes:
    [namespace.method_args.append(values)], then
    [setattr(namespace, self.dest, values)]. *)
Definition arg_action {A} (dest : string) (values : A)
    (ns : gmap string (attr A)) : attribute_error + gmap string (attr A) :=
  match ns !! "method_args" with
  | None => inl NoMethodArgs
  | Some (Item _) => inl NoAppend
  | Some (Items l) =>
      inr (<[dest := Item values]>
             (<["method_args" := Items (l ++ [values])]> ns))
  end.

(** The actions of a command line, called one after the other on the
    same namespace. *)
Fixpoint run_actions {A} (fired : list (string * A))
    (ns : gmap string (attr A)) : attribute_error + gmap string (attr A) :=
  match fired with
  | [] => inr ns
  | (dest, values) :: rest =>
      match arg_action dest values ns with
      | inl e => inl e
      | inr ns' => run_actions rest ns'
      end
  end.

(* ===================================================================== *)
(** ** soundctld: the output mixers                                       *)
(* ===================================================================== *)

(** [mixer_list(argument)]: the type of the option [--outputs]. *)
Definition mixer_list (argument : string) : list string :=
  PyText.split ":" argument.

(** Exceptions of the sound service: no such mixer, and a failed call
    on the session bus. *)
Inductive sound_exn : Set :=
| ALSAAudioError (mixer : string)
| DBusException.

(** State of the sound service and of what it drives: [mixers] gives the
    mute flags of the channels of each ALSA mixer that exists;
    [output_notif_id] is the attribute of the service; [sent] lists the
    notifications issued, each with the id it replaces and its summary;
    [logged] lists the exceptions passed to [logging.exception];
    [nnotify] counts the calls of [Notify]. *)
Record sound : Type := mkSound {
  mixers : gmap string (list Z);
  output_notif_id : Z;
  sent : list (Z * string);
  logged : list sound_exn;
  nnotify : nat
}.

Definition SM (A : Type) : Type := sound -> (sound_exn + A) * sound.

Definition sret {A} (a : A) : SM A := fun s => (inr a, s).

Definition sbind {A B} (m : SM A) (k : A -> SM B) : SM B :=
  fun s =>
    match m s with
    | (inr a, s') => k a s'
    | (inl e, s') => (inl e, s')
    end.

(** [try: body except Exception as e: logging.exception('')] *)
Definition logging_failures (body : SM unit) : SM unit :=
  fun s =>
    match body s with
    | (inl e, s') =>
        (inr tt, mkSound (mixers s') (output_notif_id s') (sent s')
                   (logged s' ++ [e]) (nnotify s'))
    | r => r
    end.

Declare Scope sound_scope.
Delimit Scope sound_scope with sound.
Notation "x <- m ;; k" := (sbind m (fun x => k))
  (at level 100, m at next level, right associativity) : sound_scope.
Notation "m ;; k" := (sbind m (fun _ => k))
  (at level 100, right associativity) : sound_scope.

Section SoundService.

Local Open Scope sound_scope.

(** The id that the notification daemon returns to the n-th [Notify],
    [None] when the call raises. *)
Variable notify_reply : nat -> option Z.

(** [alsa.Mixer(mixer).getmute()] *)
Definition getmute (mixer : string) : SM (list Z) :=
  fun s =>
    match mixers s !! mixer with
    | Some flags => (inr flags, s)
    | None => (inl (ALSAAudioError mixer), s)
    end.

(** [alsa.Mixer(mixer).setmute(mute)]: every channel gets the flag. *)
Definition setmute (mixer : string) (mute : Z) : SM unit :=
  fun s =>
    match mixers s !! mixer with
    | Some flags =>
        (inr tt,
         mkSound (<[mixer := replicate (length flags) mute]> (mixers s))
                 (output_notif_id s) (sent s) (logged s) (nnotify s))
    | None => (inl (ALSAAudioError mixer), s)
    end.

Definition is_active (output : string) : SM bool :=
  flags <- getmute output ;;
  sret (existsb (fun mute => mute =? 0) flags).

Fixpoint index_from {A} (idx : nat) (elements : list A)
    (condition : A -> SM bool) : SM (option nat) :=
  match elements with
  | [] => sret None
  | el :: rest =>
      found <- condition el ;;
      if found : bool then sret (Some idx)
      else index_from (S idx) rest condition
  end.

Definition index_when {A} (elements : list A) (condition : A -> SM bool)
  : SM (option nat) :=
  index_from 0 elements condition.

(** [for el in elements: body(el)] *)
Fixpoint for_each {A} (elements : list A) (body : A -> SM unit) : SM unit :=
  match elements with
  | [] => sret tt
  | el :: rest => body el ;; for_each rest body
  end.

(** [[el for el in elements if condition(el)]] *)
Fixpoint keep_when {A} (elements : list A) (condition : A -> SM bool)
  : SM (list A) :=
  match elements with
  | [] => sret []
  | el :: rest =>
      found <- condition el ;;
      kept <- keep_when rest condition ;;
      sret (if found : bool then el :: kept else kept)
  end.

(** [self.notify(summary, id_num=id_num)] *)
Definition notify (summary : string) (id_num : Z) : SM Z :=
  fun s =>
    match notify_reply (nnotify s) with
    | Some id =>
        (inr id,
         mkSound (mixers s) (output_notif_id s)
                 (sent s ++ [(id_num, summary)]) (logged s) (S (nnotify s)))
    | None =>
        (inl DBusException,
         mkSound (mixers s) (output_notif_id s) (sent s) (logged s)
                 (S (nnotify s)))
    end.

Definition get_output_notif_id : SM Z := fun s => (inr (output_notif_id s), s).

Definition set_output_notif_id (id : Z) : SM unit :=
  fun s =>
    (inr tt, mkSound (mixers s) id (sent s) (logged s) (nnotify s)).

Definition notify_outputs (outputs : list string) : SM unit :=
  logging_failures
    (active <- keep_when outputs is_active ;;
     id_num <- get_output_notif_id ;;
     id <- notify (if (0 <? length active)%nat
                   then PyText.join ", " active else "Mute") id_num ;;
     set_output_notif_id id).

(** [idx_next < len(outputs)] and [outputs[idx_next]] are one lookup. *)
Definition cycle_outputs (outputs : list string) : SM unit :=
  logging_failures
    (idx_curr <- index_when outputs is_active ;;
     let idx_next :=
       match idx_curr with
       | None => 0%nat
       | Some idx_curr => (idx_curr + 1)%nat
       end in
     for_each outputs (fun out => setmute out 1) ;;
     match outputs !! idx_next with
     | Some out => setmute out 0
     | None => sret tt
     end ;;
     notify_outputs outputs).

End SoundService.

(** Whether a mixer exists and has a channel that is not muted. *)
Definition active_in (m : gmap string (list Z)) (output : string) : bool :=
  match m !! output with
  | Some flags => existsb (fun mute => mute =? 0) flags
  | None => false
  end.

(** The first of the [outputs] that is active, if any. *)
Definition current (m : gmap string (list Z)) (outputs : list string)
  : option nat :=
  fst <$> list_find (fun o => active_in m o = true) outputs.

(** The turn that follows: the next output, or none after the last. *)
Definition following (outputs : list string) (turn : option nat)
  : option nat :=
  match turn with
  | None => if (0 <? length outputs)%nat then Some 0%nat else None
  | Some i => if (i + 1 <? length outputs)%nat then Some (i + 1)%nat else None
  end.

(** Every output is an existing mixer with at least one channel. *)
Definition playable (m : gmap string (list Z)) (outputs : list string)
  : Prop :=
  Forall (fun o => exists f, m !! o = Some f /\ f <> []) outputs.

(** The state after one call of [cycle_outputs]. *)
Definition cycled (notify_reply : nat -> option Z) (outputs : list string)
    (s : sound) : sound :=
  snd (cycle_outputs notify_reply outputs s).


(* ===================================================================== *)
(** ** A sound card for the scenarios                                     *)
(* ===================================================================== *)

Module Desk.

(** [soundctld -o Speaker:Headphone] *)
Definition outputs : list string := mixer_list "Speaker:Headphone".

(** Two stereo outputs, both muted, and a third mixer that is no output. *)
Definition quiet : sound :=
  mkSound {[ "Speaker" := [1; 1]; "Headphone" := [1; 1]; "PCM" := [0; 0] ]}
          0 [] [] 0.

(** The headphone is not plugged: ALSA has no such mixer. *)
Definition unplugged : sound :=
  mkSound {[ "Speaker" := [0; 0]; "PCM" := [0; 0] ]} 0 [] [] 0.

(** The headphone is plugged and playing; the speaker is muted. *)
Definition plugged : sound :=
  mkSound {[ "Speaker" := [1; 1]; "Headphone" := [0; 0]; "PCM" := [0; 0] ]}
          0 [] [] 0.

(** The notification daemon answers with a fresh id each time. *)
Definition answering (n : nat) : option Z := Some (Z.of_nat n + 7).

(** Nobody owns the notification name on the bus. *)
Definition deaf (_ : nat) : option Z := None.

End Desk.
(* ===================================================================== *)
(** ** The Python primitives on pidfile text                              *)
(* ===================================================================== *)

Example strip_pid : Py.strip ("  4242" +:+ newline) = "4242".
Proof. reflexivity. Qed.

Example int_signed :
  Py.int "4242" = Some 4242 /\ Py.int "-0" = Some 0 /\ Py.int "+17" = Some 17.
Proof. repeat split; reflexivity. Qed.

Example int_underscore :
  Py.int "1_000" = Some 1000 /\ Py.int "1__0" = None /\
  Py.int "_1" = None /\ Py.int "1_" = None.
Proof. repeat split; reflexivity. Qed.

Example int_garbage :
  Py.int "" = None /\ Py.int "abc" = None /\ Py.int "12 3" = None /\
  Py.int "+" = None /\ Py.int "- 1" = None.
Proof. repeat split; reflexivity. Qed.

(** A file separator is white space for [str.strip], not for [int]. *)
Example int_separator :
  Py.strip (String "028" "5") = "5" /\ Py.int (String "028" "5") = None /\
  Py.int (Py.strip (String "028" "5")) = Some 5 /\
  Py.int (" 5" +:+ newline) = Some 5.
Proof. repeat split; reflexivity. Qed.

Example str_examples :
  Py.str 0 = "0" /\ Py.str 4242 = "4242" /\ Py.str (-15) = "-15".
Proof. repeat split; reflexivity. Qed.

Example find_no_such_process :
  Py.find (str_args ESRCH) "No such process" = 5 /\
  Py.find (str_args EPERM) "No such process" = -1 /\
  Py.find (str_args EINVAL) "No such process" = -1.
Proof. repeat split; reflexivity. Qed.

Section Decimal.

Import Decimal.

Local Ltac eval_digit :=
  repeat match goal with
    | |- context [Py.digit_of ?c] =>
        let v := eval vm_compute in (Py.digit_of c) in
        change (Py.digit_of c) with v
    end.

Lemma scan_digits_uint (u : uint) :
  forall acc,
    Py.scan_digits acc false (NilEmpty.string_of_uint u)
    = Some (uint_value acc u).
Proof.
  induction u; intros acc; cbn [NilEmpty.string_of_uint uint_value];
    try reflexivity;
    cbn [Py.scan_digits]; eval_digit; cbv iota beta;
    rewrite IHu; f_equal; f_equal; lia.
Qed.

Lemma uint_value_acc (u : uint) :
  forall a : positive, uint_value (Z.pos a) u = Z.pos (Pos.of_uint_acc u a).
Proof.
  induction u; intros a; cbn [uint_value Pos.of_uint_acc];
    try reflexivity;
    match goal with
    | |- uint_value ?x _ = _ =>
        match goal with
        | |- _ = Z.pos (Pos.of_uint_acc _ ?y) =>
            replace x with (Z.pos y) by lia; apply IHu
        end
    end.
Qed.

Lemma uint_value_0 (u : uint) : uint_value 0 u = Z.of_N (Pos.of_uint u).
Proof.
  induction u; cbn [uint_value Pos.of_uint]; try reflexivity;
    [ exact IHu | .. ];
    match goal with
    | |- uint_value ?x _ = Z.of_N (N.pos (Pos.of_uint_acc _ ?y)) =>
        replace x with (Z.pos y) by lia; apply uint_value_acc
    end.
Qed.

Lemma digits_uint (u : uint) :
  u <> Nil -> Py.digits (NilEmpty.string_of_uint u) = Some (uint_value 0 u).
Proof.
  intros Hu. rewrite <- scan_digits_uint.
  destruct u; try congruence; reflexivity.
Qed.

Lemma append_cons (c : ascii) (r t : string) :
  String c r +:+ t = String c (r +:+ t).
Proof. reflexivity. Qed.

Lemma append_empty (s : string) : s +:+ "" = s.
Proof. induction s; [reflexivity | rewrite append_cons; congruence]. Qed.

Lemma rstrip_digits (u : uint) (t : string) :
  Py.rstrip t = "" ->
  Py.rstrip (NilEmpty.string_of_uint u +:+ t) = NilEmpty.string_of_uint u.
Proof.
  intros Ht. induction u; cbn [NilEmpty.string_of_uint];
    try exact Ht;
    rewrite append_cons; cbn [Py.rstrip]; rewrite IHu;
    destruct (NilEmpty.string_of_uint u); reflexivity.
Qed.

Lemma lstrip_digits (u : uint) (t : string) :
  u <> Nil ->
  Py.lstrip (NilEmpty.string_of_uint u +:+ t)
  = NilEmpty.string_of_uint u +:+ t.
Proof. destruct u; try congruence; reflexivity. Qed.

Lemma rskip_digits (u : uint) (t : string) :
  Py.rskip t = "" ->
  Py.rskip (NilEmpty.string_of_uint u +:+ t) = NilEmpty.string_of_uint u.
Proof.
  intros Ht. induction u; cbn [NilEmpty.string_of_uint];
    try exact Ht;
    rewrite append_cons; cbn [Py.rskip]; rewrite IHu;
    destruct (NilEmpty.string_of_uint u); reflexivity.
Qed.

Lemma lskip_digits (u : uint) (t : string) :
  u <> Nil ->
  Py.lskip (NilEmpty.string_of_uint u +:+ t)
  = NilEmpty.string_of_uint u +:+ t.
Proof. destruct u; try congruence; reflexivity. Qed.

Lemma strip_digits (u : uint) (t : string) :
  u <> Nil -> Py.rstrip t = "" ->
  Py.strip (NilEmpty.string_of_uint u +:+ t) = NilEmpty.string_of_uint u.
Proof.
  intros Hu Ht. unfold Py.strip.
  rewrite lstrip_digits by assumption. now apply rstrip_digits.
Qed.

Lemma int_digits (u : uint) (t : string) :
  u <> Nil -> Py.rskip t = "" ->
  Py.int (NilEmpty.string_of_uint u +:+ t) = Some (uint_value 0 u).
Proof.
  intros Hu Ht. unfold Py.int.
  rewrite lskip_digits, rskip_digits by assumption.
  rewrite <- digits_uint by assumption.
  destruct u; try congruence; reflexivity.
Qed.

Lemma is_decimal_digits (u : uint) :
  u <> Nil -> is_decimal (NilEmpty.string_of_uint u) = true.
Proof.
  assert (H : forall v,
             forallb (fun c => bool_decide (is_Some (Py.digit_of c)))
               (list_ascii_of_string (NilEmpty.string_of_uint v)) = true).
  { induction v; cbn [NilEmpty.string_of_uint list_ascii_of_string forallb];
      try reflexivity; rewrite IHv; reflexivity. }
  intros Hu. unfold is_decimal. specialize (H u).
  destruct u; try congruence; exact H.
Qed.

Lemma str_pos (p : positive) :
  Py.str (Z.pos p) = NilEmpty.string_of_uint (Pos.to_uint p).
Proof.
  unfold Py.str. cbn [Z.to_int NilZero.string_of_int].
  unfold NilZero.string_of_uint.
  pose proof (Unsigned.to_uint_nonnil p) as H.
  destruct (Pos.to_uint p); try congruence; reflexivity.
Qed.

Lemma uint_value_to_uint (p : positive) :
  uint_value 0 (Pos.to_uint p) = Z.pos p.
Proof. now rewrite uint_value_0, Unsigned.of_to. Qed.

(** The text written by [daemonize] reads back as the pid, through the
    very conversion that [start] and [stop] apply. *)
Lemma int_strip_str_pos (p : positive) :
  Py.int (Py.strip (Py.str (Z.pos p) +:+ newline)) = Some (Z.pos p).
Proof.
  pose proof (Unsigned.to_uint_nonnil p) as H.
  rewrite str_pos, strip_digits by (assumption || reflexivity).
  rewrite <- (append_empty (NilEmpty.string_of_uint (Pos.to_uint p))).
  rewrite int_digits by (assumption || reflexivity).
  f_equal. apply uint_value_to_uint.
Qed.

Lemma is_decimal_str_pos (p : positive) : is_decimal (Py.str (Z.pos p)) = true.
Proof. rewrite str_pos. apply is_decimal_digits, Unsigned.to_uint_nonnil. Qed.

End Decimal.

(* ===================================================================== *)
(** ** Reading the pidfile                                                *)
(* ===================================================================== *)

Section ReadPid.

Variables (d : Daemon) (w : world).

Lemma read_pid_absent :
  fs w !! pidfile_at d w = None ->
  read_pid d w = Ok None (log (EvRead (pidfile d)) w).
Proof.
  unfold pidfile_at. intros H.
  unfold read_pid, try_except, bind, open_read. now rewrite H.
Qed.

Lemma read_pid_int (text : string) (n : Z) :
  fs w !! pidfile_at d w = Some text ->
  Py.int (Py.strip text) = Some n ->
  read_pid d w = Ok (Some n) (log (EvRead (pidfile d)) w).
Proof.
  unfold pidfile_at. intros H Hn.
  unfold read_pid, try_except, bind, open_read. now rewrite H, Hn.
Qed.

Lemma read_pid_garbage (text : string) :
  fs w !! pidfile_at d w = Some text ->
  Py.int (Py.strip text) = None ->
  read_pid d w = Raise ValueError (log (EvRead (pidfile d)) w).
Proof.
  unfold pidfile_at. intros H Hn.
  unfold read_pid, try_except, bind, open_read. now rewrite H, Hn.
Qed.

(** With no pid recorded, the pid that is read is a false value. *)
Lemma read_pid_nothing :
  nothing_recorded d w ->
  exists pid, read_pid d w = Ok pid (log (EvRead (pidfile d)) w) /\
              (pid = None \/ pid = Some 0).
Proof.
  unfold nothing_recorded. destruct (fs w !! pidfile_at d w) as [text|] eqn:H.
  - intros Hn. exists (Some 0).
    split; [now apply read_pid_int with text | now right].
  - intros _. exists None. split; [now apply read_pid_absent | now left].
Qed.

End ReadPid.

(* ===================================================================== *)
(** ** start and stop on the paths that neither fork nor signal           *)
(* ===================================================================== *)

Section StraightPaths.

Context (E : env) {Args : Type} (run : Args -> M unit).
Variables (d : Daemon) (w : world).

Lemma start_refuses (args : Args) (text : string) (n : Z) :
  fs w !! pidfile_at d w = Some text ->
  Py.int (Py.strip text) = Some n ->
  n <> 0 ->
  start E run d args w
  = Raise (SystemExit 1)
      (log (EvStderr (already_running d)) (log (EvRead (pidfile d)) w)).
Proof.
  intros Hf Hn Hz.
  unfold start, bind. rewrite (read_pid_int d w text n Hf Hn).
  unfold if_truthy. apply Z.eqb_neq in Hz. now rewrite Hz.
Qed.

Lemma start_garbage (args : Args) (text : string) :
  fs w !! pidfile_at d w = Some text ->
  Py.int (Py.strip text) = None ->
  start E run d args w = Raise ValueError (log (EvRead (pidfile d)) w).
Proof.
  intros Hf Hn. unfold start, bind.
  now rewrite (read_pid_garbage d w text Hf Hn).
Qed.

Lemma stop_garbage (fuel : nat) (text : string) :
  fs w !! pidfile_at d w = Some text ->
  Py.int (Py.strip text) = None ->
  stop E fuel d w = Raise ValueError (log (EvRead (pidfile d)) w).
Proof.
  intros Hf Hn. unfold stop, bind.
  now rewrite (read_pid_garbage d w text Hf Hn).
Qed.

(** C1 (amended). When the pidfile exists, can be opened for reading,
    and its content parses to a non-zero integer, [start] writes the
    "already running" message to the error stream and exits with status
    1.  Nothing else happens: the only actions are the read and the
    message, so no signal probes the recorded process, no fork detaches,
    and the worker is not invoked (the outcome is the same for every
    environment and every worker). *)
Theorem start_already_running (args : Args) (text : string) (n : Z) :
  fs w !! pidfile_at d w = Some text ->
  Py.int (Py.strip text) = Some n ->
  n <> 0 ->
  let r := start E run d args w in
  r = Raise (SystemExit 1) (world_of r) /\
  exit_status r = Some 1 /\
  trace (world_of r)
    = (trace w ++ [EvRead (pidfile d); EvStderr (already_running d)])%list /\
  nkills (world_of r) = nkills w /\
  nforks (world_of r) = nforks w /\
  lineage (world_of r) = lineage w /\
  fs (world_of r) = fs w.
Proof.
  intros Hf Hn Hz r. subst r.
  rewrite (start_refuses args text n Hf Hn Hz). cbn.
  rewrite <- app_assoc. repeat split; reflexivity.
Qed.

(** C3. When the pidfile is absent, [stop] is not an error: it writes
    the "not running" message, returns normally (exit status 0), sends
    no signal, and the pidfile is still absent afterwards. *)
Theorem stop_without_pidfile (fuel : nat) :
  fs w !! pidfile_at d w = None ->
  let r := stop E fuel d w in
  r = Ok tt (world_of r) /\
  exit_status r = Some 0 /\
  trace (world_of r)
    = (trace w ++ [EvRead (pidfile d); EvStderr (not_running d)])%list /\
  nkills (world_of r) = nkills w /\
  fs (world_of r) = fs w /\
  fs (world_of r) !! pidfile_at d (world_of r) = None.
Proof.
  intros Hf r. subst r.
  unfold stop, bind. rewrite (read_pid_absent d w Hf). cbn.
  rewrite <- app_assoc. repeat split; try reflexivity. exact Hf.
Qed.

(** C9. When the pidfile exists but its stripped content is not an
    integer, both [start] and [stop] end in an uncaught [ValueError]:
    the except clause only matches [IOError].  The read is their only
    action, so neither message is written. *)
Theorem garbage_pidfile_value_error
    (args : Args) (fuel : nat) (text : string) :
  fs w !! pidfile_at d w = Some text ->
  Py.int (Py.strip text) = None ->
  start E run d args w = Raise ValueError (log (EvRead (pidfile d)) w) /\
  stop E fuel d w = Raise ValueError (log (EvRead (pidfile d)) w) /\
  trace (log (EvRead (pidfile d)) w)
    = (trace w ++ [EvRead (pidfile d)])%list /\
  exit_status (start E run d args w) = Some 1 /\
  exit_status (stop E fuel d w) = Some 1.
Proof.
  intros Hf Hn.
  rewrite (start_garbage args text Hf Hn), (stop_garbage fuel text Hf Hn).
  repeat split; reflexivity.
Qed.

(** With no pid recorded, [start] goes on to detach and to run the
    worker, and [stop] only writes its message. *)
Lemma start_proceeds (args : Args) :
  nothing_recorded d w ->
  start E run d args w
  = (daemonize E d ;; run args)%prog (log (EvRead (pidfile d)) w).
Proof.
  intros H. destruct (read_pid_nothing d w H) as (pid & Hr & Hp).
  unfold start, bind at 1. rewrite Hr.
  destruct Hp as [-> | ->]; reflexivity.
Qed.

Lemma stop_nothing (fuel : nat) :
  nothing_recorded d w ->
  stop E fuel d w
  = Ok tt (log (EvStderr (not_running d)) (log (EvRead (pidfile d)) w)).
Proof.
  intros H. destruct (read_pid_nothing d w H) as (pid & Hr & Hp).
  unfold stop, bind. rewrite Hr.
  destruct Hp as [-> | ->]; reflexivity.
Qed.

End StraightPaths.

(* ===================================================================== *)
(** ** Detachment                                                         *)
(* ===================================================================== *)

Lemma world_ext (v w : world) :
  fs v = fs w -> cwd v = cwd w -> fdtab v = fdtab w -> atexit v = atexit w ->
  self_pid v = self_pid w -> lineage v = lineage w -> nforks v = nforks w ->
  nkills v = nkills w -> nsleeps v = nsleeps w -> trace v = trace w ->
  denied v = denied w ->
  v = w.
Proof. destruct v, w; cbn; intros; subst; reflexivity. Qed.

Section Fork.

Variables (E : env) (which : string) (w : world).

Lemma fork_or_exit_parent (c : positive) :
  fork_oracle E (nforks w) = ForkParent c ->
  fork_or_exit E which w
  = Raise (SystemExit 0)
      (log (EvFork (ForkParent c)) (forked (ForkParent c) w)).
Proof.
  intros H. unfold fork_or_exit, try_except, bind, os_fork. now rewrite H.
Qed.

Lemma fork_or_exit_fail (e : errno) :
  fork_oracle E (nforks w) = ForkFail e ->
  fork_or_exit E which w
  = Raise (SystemExit 1)
      (log (EvStderr (fork_failed which e))
         (log (EvFork (ForkFail e)) (forked (ForkFail e) w))).
Proof.
  intros H. unfold fork_or_exit, try_except, bind, os_fork. now rewrite H.
Qed.

Lemma fork_or_exit_child (c : positive) :
  fork_oracle E (nforks w) = ForkChild c ->
  fork_or_exit E which w
  = Ok tt (log (EvFork (ForkChild c)) (forked (ForkChild c) w)).
Proof.
  intros H. unfold fork_or_exit, try_except, bind, os_fork. now rewrite H.
Qed.

End Fork.

Section AtExit.

Lemma call_handler_cwd (h : handler) (w : world) :
  cwd (world_of (call_handler h w)) = cwd w.
Proof.
  destruct h as [d]. unfold call_handler, delpid, os_remove.
  destruct (fs w !! resolve (cwd w) (pidfile d)); reflexivity.
Qed.

Lemma call_handler_absent (h : handler) (w : world) (k : string) :
  fs w !! k = None -> fs (world_of (call_handler h w)) !! k = None.
Proof.
  intros Hk. destruct h as [d]. unfold call_handler, delpid, os_remove.
  destruct (fs w !! resolve (cwd w) (pidfile d)); cbn; [|exact Hk].
  apply lookup_delete_None. now right.
Qed.

Lemma run_atexit_absent (hs : list handler) :
  forall (w : world) (k : string),
    fs w !! k = None -> fs (run_atexit hs w) !! k = None.
Proof.
  induction hs as [|h hs IH]; intros w k Hk; cbn; [exact Hk|].
  apply IH. now apply call_handler_absent.
Qed.

(** Once [delpid] is registered, the pidfile is gone after the exit
    handlers have run. *)
Lemma at_exit_removes (d : Daemon) (w : world) :
  In (Delpid d) (atexit w) -> fs (at_exit w) !! pidfile_at d w = None.
Proof.
  unfold at_exit, pidfile_at. generalize (atexit w) as hs.
  intros hs. revert w. induction hs as [|h hs IH]; intros w Hin; [easy|].
  cbn. destruct Hin as [-> | Hin].
  - apply run_atexit_absent. unfold call_handler, delpid, os_remove.
    destruct (fs w !! resolve (cwd w) (pidfile d)) eqn:Hk; cbn; [|exact Hk].
    apply lookup_delete_eq.
  - rewrite <- (call_handler_cwd h w). now apply IH.
Qed.

End AtExit.

Section Detach.

Context (E : env) {Args : Type} (run : Args -> M unit).
Variables (d : Daemon).

Lemma daemonize_first_parent (w : world) (c : positive) :
  fork_oracle E (nforks w) = ForkParent c ->
  exists w',
    daemonize E d w = Raise (SystemExit 0) w' /\
    trace w' = (trace w ++ [EvFork (ForkParent c)])%list /\
    fs w' = fs w.
Proof.
  intros H. eexists. split.
  - unfold daemonize. unfold bind at 1.
    rewrite (fork_or_exit_parent E "1" w c H). reflexivity.
  - split; reflexivity.
Qed.

Lemma daemonize_first_fail (w : world) (e : errno) :
  fork_oracle E (nforks w) = ForkFail e ->
  exists w',
    daemonize E d w = Raise (SystemExit 1) w' /\
    trace w' = (trace w ++ [EvFork (ForkFail e);
                            EvStderr (fork_failed "1" e)])%list /\
    fs w' = fs w.
Proof.
  intros H. eexists. split.
  - unfold daemonize. unfold bind at 1.
    rewrite (fork_or_exit_fail E "1" w e H). reflexivity.
  - cbn. rewrite <- app_assoc. split; reflexivity.
Qed.

(** The first fork put the process on the child side: it decouples and
    forks again. *)
Local Ltac first_child H1 :=
  unfold daemonize; unfold bind at 1;
  rewrite (fork_or_exit_child E "1" _ _ H1);
  unfold bind at 1; unfold os_chdir;
  unfold bind at 1; unfold os_setsid, emit;
  unfold bind at 1; unfold os_umask, emit;
  unfold bind at 1.

Lemma daemonize_second_parent (w : world) (p1 c : positive) :
  fork_oracle E (nforks w) = ForkChild p1 ->
  fork_oracle E (S (nforks w)) = ForkParent c ->
  exists w',
    daemonize E d w = Raise (SystemExit 0) w' /\
    trace w' = (trace w ++ EvFork (ForkChild p1) :: decouple_events
                  ++ [EvFork (ForkParent c)])%list /\
    cwd w' = "/" /\
    fs w' = fs w.
Proof.
  intros H1 H2. eexists. split.
  - first_child H1.
    rewrite (fork_or_exit_parent E "2" _ c) by exact H2. reflexivity.
  - cbn. rewrite <- !app_assoc. repeat split; reflexivity.
Qed.

Lemma daemonize_second_fail (w : world) (p1 : positive) (e : errno) :
  fork_oracle E (nforks w) = ForkChild p1 ->
  fork_oracle E (S (nforks w)) = ForkFail e ->
  exists w',
    daemonize E d w = Raise (SystemExit 1) w' /\
    trace w' = (trace w ++ EvFork (ForkChild p1) :: decouple_events
                  ++ [EvFork (ForkFail e);
                      EvStderr (fork_failed "2" e)])%list /\
    fs w' = fs w.
Proof.
  intros H1 H2. eexists. split.
  - first_child H1.
    rewrite (fork_or_exit_fail E "2" _ e) by exact H2. reflexivity.
  - cbn. rewrite <- !app_assoc. repeat split; reflexivity.
Qed.

(** The world in which the worker starts, when both forks put the
    process on the child side. *)
Lemma daemonize_final_child (w : world) (p1 p2 : positive) :
  fork_oracle E (nforks w) = ForkChild p1 ->
  fork_oracle E (S (nforks w)) = ForkChild p2 ->
  exists w',
    daemonize E d w = Ok tt w' /\
    trace w' = (trace w ++ EvFork (ForkChild p1) :: decouple_events
                  ++ EvFork (ForkChild p2) :: redirect_events
                  ++ record_events d (Z.pos p2))%list /\
    cwd w' = "/" /\
    fdtab w' !! 0%nat = Some (NullDevice "r") /\
    fdtab w' !! 1%nat = Some (NullDevice "a+") /\
    fdtab w' !! 2%nat = Some (NullDevice "a+") /\
    atexit w' = Delpid d :: atexit w /\
    self_pid w' = Z.pos p2 /\
    lineage w' = S (S (lineage w)) /\
    nkills w' = nkills w /\
    fs w' = <[pidfile_at d w' := Py.str (Z.pos p2) +:+ newline]> (fs w) /\
    fdtab w' = <[2%nat := NullDevice "a+"]>
                 (<[1%nat := NullDevice "a+"]>
                    (<[0%nat := NullDevice "r"]> (fdtab w))) /\
    nforks w' = S (S (nforks w)) /\
    nsleeps w' = nsleeps w /\
    denied w' = denied w.
Proof.
  intros H1 H2. eexists. split.
  - first_child H1.
    rewrite (fork_or_exit_child E "2" _ p2) by exact H2. reflexivity.
  - cbn -[insert lookup]. 
    repeat rewrite <- app_assoc. cbn -[insert lookup].
    repeat split; try reflexivity; by simplify_map_eq.
Qed.

End Detach.

Section Start.

Context (E : env) {Args : Type} (run : Args -> M unit).
Variables (d : Daemon) (w : world).

(** An absolute path names the same file from every directory. *)
Lemma resolve_absolute (dir p : string) :
  is_absolute p = true -> resolve dir p = normalise p.
Proof.
  destruct p as [|c p]; [discriminate|]. unfold resolve, is_absolute.
  destruct (Ascii.eqb_spec c "/") as [-> | Hc]; [reflexivity|].
  intros H. exfalso. destruct c as [[] [] [] [] [] [] [] []]; try discriminate.
  now apply Hc.
Qed.

(** C5 (amended order). When [start] finds no pidfile it detaches by a
    double fork: on the parent side of either fork the process exits
    with status 0 at once; when either fork fails it reports on the
    error stream and exits with status 1; the first child changes
    directory to the root, creates a session and clears the umask; the
    final child flushes and redirects the three standard streams to the
    null device, registers the cleanup that removes the pidfile at exit,
    THEN writes its pid to the pidfile, and only then calls the worker
    with the configuration. *)
Theorem start_detaches (args : Args) :
  fs w !! pidfile_at d w = None ->
  let r := start E run d args w in
  let t0 := (trace w ++ [EvRead (pidfile d)])%list in
  (forall c, fork_oracle E (nforks w) = ForkParent c ->
     r = Raise (SystemExit 0) (world_of r) /\
     trace (world_of r) = (t0 ++ [EvFork (ForkParent c)])%list /\
     fs (world_of r) = fs w) /\
  (forall e, fork_oracle E (nforks w) = ForkFail e ->
     r = Raise (SystemExit 1) (world_of r) /\
     trace (world_of r)
       = (t0 ++ [EvFork (ForkFail e); EvStderr (fork_failed "1" e)])%list /\
     fs (world_of r) = fs w) /\
  (forall p1, fork_oracle E (nforks w) = ForkChild p1 ->
     let t1 := (t0 ++ EvFork (ForkChild p1) :: decouple_events)%list in
     (forall c, fork_oracle E (S (nforks w)) = ForkParent c ->
        r = Raise (SystemExit 0) (world_of r) /\
        trace (world_of r) = (t1 ++ [EvFork (ForkParent c)])%list /\
        cwd (world_of r) = "/" /\
        fs (world_of r) = fs w) /\
     (forall e, fork_oracle E (S (nforks w)) = ForkFail e ->
        r = Raise (SystemExit 1) (world_of r) /\
        trace (world_of r)
          = (t1 ++ [EvFork (ForkFail e); EvStderr (fork_failed "2" e)])%list /\
        fs (world_of r) = fs w) /\
     (forall p2, fork_oracle E (S (nforks w)) = ForkChild p2 ->
        exists w',
          r = run args w' /\
          trace w' = (t1 ++ EvFork (ForkChild p2) :: redirect_events
                        ++ record_events d (Z.pos p2))%list /\
          cwd w' = "/" /\
          fdtab w' !! 0%nat = Some (NullDevice "r") /\
          fdtab w' !! 1%nat = Some (NullDevice "a+") /\
          fdtab w' !! 2%nat = Some (NullDevice "a+") /\
          atexit w' = Delpid d :: atexit w /\
          self_pid w' = Z.pos p2 /\
          fs w' = <[pidfile_at d w' := Py.str (Z.pos p2) +:+ newline]> (fs w) /\
          fs (at_exit w') !! pidfile_at d w' = None)).
Proof.
  intros Hf r t0. subst r t0.
  assert (Hn : nothing_recorded d w)
    by (unfold nothing_recorded; now rewrite Hf).
  rewrite (start_proceeds E run d w args Hn).
  set (w1 := log (EvRead (pidfile d)) w).
  assert (Hk : nforks w1 = nforks w) by reflexivity.
  split; [|split].
  - intros c Hc.
    destruct (daemonize_first_parent E d w1 c) as (w' & Hd & Ht & Hs);
      [now rewrite Hk|].
    unfold bind. rewrite Hd. cbn. auto.
  - intros e He.
    destruct (daemonize_first_fail E d w1 e) as (w' & Hd & Ht & Hs);
      [now rewrite Hk|].
    unfold bind. rewrite Hd. cbn. rewrite Ht. cbn.
    rewrite <- !app_assoc. auto.
  - intros p1 Hp1 t1. subst t1. split; [|split].
    + intros c Hc.
      destruct (daemonize_second_parent E d w1 p1 c)
        as (w' & Hd & Ht & Hw & Hs); [now rewrite Hk | now rewrite Hk |].
      unfold bind. rewrite Hd. cbn. rewrite Ht. cbn.
      rewrite <- !app_assoc. auto.
    + intros e He.
      destruct (daemonize_second_fail E d w1 p1 e)
        as (w' & Hd & Ht & Hs); [now rewrite Hk | now rewrite Hk |].
      unfold bind. rewrite Hd. cbn. rewrite Ht. cbn.
      rewrite <- !app_assoc. auto.
    + intros p2 Hp2.
      destruct (daemonize_final_child E d w1 p1 p2)
        as (w' & Hd & Ht & Hc & H0 & H1 & H2 & Ha & Hs & _ & _ & Hfs & _);
        [now rewrite Hk | now rewrite Hk |].
      exists w'. unfold bind. rewrite Hd.
      repeat split; try assumption.
      * rewrite Ht. cbn. now rewrite <- !app_assoc.
      * apply at_exit_removes. rewrite Ha. now left.
Qed.

(** C4 (amended). When the pidfile exists, can be opened for reading,
    and its content is anything but a text that parses to the integer
    0, [start] ends with a non-zero exit status (1 after the "already
    running" message for a non-zero integer, the uncaught [ValueError]
    otherwise) and leaves the file system, hence the pidfile, as it was;
    whether the recorded process is alive plays no part. *)
Theorem start_keeps_recorded_pidfile (args : Args) (text : string) :
  fs w !! pidfile_at d w = Some text ->
  Py.int (Py.strip text) <> Some 0 ->
  let r := start E run d args w in
  (exists c, exit_status r = Some c /\ c <> 0) /\
  fs (world_of r) = fs w /\
  fs (world_of r) !! pidfile_at d w = Some text.
Proof.
  intros Hf Hz r. subst r.
  destruct (Py.int (Py.strip text)) as [n|] eqn:Hn.
  - assert (Hn0 : n <> 0) by congruence.
    rewrite (start_refuses E run d w args text n Hf Hn Hn0). cbn.
    split; [exists 1; split; [reflexivity | lia] |].
    split; [reflexivity | exact Hf].
  - rewrite (start_garbage E run d w args text Hf Hn). cbn.
    split; [exists 1; split; [reflexivity | lia] |].
    split; [reflexivity | exact Hf].
Qed.

(** C8. The pidfile left by a successful [start] holds the decimal pid
    of the final detached process followed by one newline: a single line
    of ASCII digits, which reads back as that pid.  The process that
    wrote it is two forks away from the invoking one. *)
Theorem pidfile_records_final_child (args : Args) (p1 p2 : positive) :
  nothing_recorded d w ->
  fork_oracle E (nforks w) = ForkChild p1 ->
  fork_oracle E (S (nforks w)) = ForkChild p2 ->
  exists w',
    start E run d args w = run args w' /\
    fs w' !! pidfile_at d w' = Some (Py.str (Z.pos p2) +:+ newline) /\
    is_decimal (Py.str (Z.pos p2)) = true /\
    Py.int (Py.strip (Py.str (Z.pos p2) +:+ newline)) = Some (Z.pos p2) /\
    self_pid w' = Z.pos p2 /\
    lineage w' = S (S (lineage w)) /\
    lineage w' <> lineage w.
Proof.
  intros Hn Hp1 Hp2.
  rewrite (start_proceeds E run d w args Hn).
  destruct (daemonize_final_child E d (log (EvRead (pidfile d)) w) p1 p2)
    as (w' & Hd & _ & _ & _ & _ & _ & _ & Hs & Hl & _ & Hfs & _);
    [assumption | assumption |].
  exists w'. unfold bind. rewrite Hd. cbn in Hl.
  repeat split; try assumption.
  - rewrite Hfs. apply lookup_insert_eq.
  - apply is_decimal_str_pos.
  - apply int_strip_str_pos.
  - rewrite Hl. lia.
Qed.

(** C10 (amended). A pidfile that records the integer 0 is handled as
    an absent one.  [stop] writes the "not running" message and sends no
    signal, as it does in the same world without the file.  [start] goes
    on to detach, as it does without the file, and the final child
    writes its pid to the file that the pidfile path names for it,
    replacing what was there; for an absolute path that is the file that
    held 0, and the worker starts in the very world it would start in
    had the file been absent. *)
Theorem zero_pidfile_as_absent
    (args : Args) (fuel : nat) (text : string) :
  fs w !! pidfile_at d w = Some text ->
  Py.int (Py.strip text) = Some 0 ->
  let w0 := without (pidfile_at d w) w in
  let said v := log (EvStderr (not_running d)) (log (EvRead (pidfile d)) v) in
  (stop E fuel d w = Ok tt (said w) /\ stop E fuel d w0 = Ok tt (said w0) /\
   nkills (said w) = nkills w /\ fs (said w) = fs w) /\
  (start E run d args w
     = (daemonize E d ;; run args)%prog (log (EvRead (pidfile d)) w) /\
   start E run d args w0
     = (daemonize E d ;; run args)%prog (log (EvRead (pidfile d)) w0)) /\
  (forall p1 p2,
     fork_oracle E (nforks w) = ForkChild p1 ->
     fork_oracle E (S (nforks w)) = ForkChild p2 ->
     exists w',
       start E run d args w = run args w' /\
       fs w' = <[pidfile_at d w' := Py.str (Z.pos p2) +:+ newline]> (fs w) /\
       (is_absolute (pidfile d) = true ->
          fs w' !! pidfile_at d w = Some (Py.str (Z.pos p2) +:+ newline) /\
          start E run d args w0 = run args w')).
Proof.
  intros Hf Hz w0 said. subst said.
  assert (Hn : nothing_recorded d w)
    by (unfold nothing_recorded; now rewrite Hf).
  assert (Hn0 : nothing_recorded d w0).
  { unfold nothing_recorded, w0, without, pidfile_at. cbn.
    now rewrite lookup_delete_eq. }
  split; [|split].
  - rewrite (stop_nothing E d w fuel Hn), (stop_nothing E d w0 fuel Hn0).
    repeat split; reflexivity.
  - split; now apply start_proceeds.
  - intros p1 p2 Hp1 Hp2.
    rewrite (start_proceeds E run d w args Hn).
    destruct (daemonize_final_child E d (log (EvRead (pidfile d)) w) p1 p2)
      as (w' & Hd & Ht & Hc & _ & _ & _ & Ha & Hs & Hl & Hk & Hfs & Hfd
          & Hnf & Hns & Hde);
      [assumption | assumption |].
    exists w'. unfold bind at 1. rewrite Hd.
    split; [reflexivity|]. split; [exact Hfs|].
    intros Habs.
    assert (Hsame : pidfile_at d w' = pidfile_at d w).
    { unfold pidfile_at. now rewrite !resolve_absolute. }
    split.
    + rewrite Hfs, Hsame. apply lookup_insert_eq.
    + rewrite (start_proceeds E run d w0 args Hn0).
      destruct (daemonize_final_child E d (log (EvRead (pidfile d)) w0) p1 p2)
        as (v' & Hd' & Ht' & Hc' & _ & _ & _ & Ha' & Hs' & Hl' & Hk' & Hfs'
            & Hfd' & Hnf' & Hns' & Hde');
        [assumption | assumption |].
      unfold bind. rewrite Hd'. f_equal.
      cbn in Ht, Ha, Hl, Hk, Hfs, Hfd, Hnf, Hns, Hde.
      cbn in Ht', Ha', Hl', Hk', Hfs', Hfd', Hnf', Hns', Hde'.
      apply world_ext; try congruence.
      rewrite Hfs', Hfs.
      replace (pidfile_at d v') with (pidfile_at d w)
        by (unfold pidfile_at; now rewrite !resolve_absolute).
      rewrite Hsame. cbn. apply insert_delete_eq.
Qed.

End Start.

(* ===================================================================== *)
(** ** The signal loop of stop                                            *)
(* ===================================================================== *)

Section KillLoop.

Variables (E : env) (pid : Z).
Hypothesis Hpid : pid_t_ok pid = true.

Lemma delivered_S (n : nat) :
  delivered pid (S n)
  = EvKill pid SIGTERM KillOk :: EvSleep (1 # 10)%Q :: delivered pid n.
Proof. reflexivity. Qed.

Lemma kill_loop_ok_step (fuel : nat) (w : world) :
  kill_oracle E (nkills w) = KillOk ->
  kill_loop E (S fuel) pid w
  = kill_loop E fuel pid
      (log (EvSleep (1 # 10)%Q)
         (slept (others E (nsleeps w) (fs w))
            (log (EvKill pid SIGTERM KillOk) (killed w)))).
Proof.
  intros H. cbn [kill_loop]. unfold bind at 1. unfold os_kill.
  rewrite Hpid, H. reflexivity.
Qed.

Lemma kill_loop_fail_step (fuel : nat) (w : world) (e : errno) :
  kill_oracle E (nkills w) = KillFail e ->
  kill_loop E (S fuel) pid w
  = Raise (OSError e) (log (EvKill pid SIGTERM (KillFail e)) (killed w)).
Proof.
  intros H. cbn [kill_loop]. unfold bind at 1. unfold os_kill.
  rewrite Hpid, H. reflexivity.
Qed.

(** [k] deliveries succeed: the loop has gone round [k] times. *)
Lemma kill_loop_rounds (k : nat) :
  forall (fuel : nat) (w : world),
    (forall i, (i < k)%nat -> kill_oracle E (nkills w + i) = KillOk) ->
    exists w',
      kill_loop E (k + fuel) pid w = kill_loop E fuel pid w' /\
      fs w' = others_during E (nsleeps w) k (fs w) /\
      cwd w' = cwd w /\
      nkills w' = (nkills w + k)%nat /\
      nsleeps w' = (nsleeps w + k)%nat /\
      trace w' = (trace w ++ delivered pid k)%list.
Proof.
  induction k as [|k IH]; intros fuel w Hok.
  - exists w. unfold delivered. cbn. rewrite !Nat.add_0_r, app_nil_r.
    repeat split.
  - assert (H0 : kill_oracle E (nkills w) = KillOk).
    { rewrite <- (Nat.add_0_r (nkills w)). apply Hok. lia. }
    cbn [Nat.add]. rewrite (kill_loop_ok_step _ w H0).
    set (w2 := log _ _).
    destruct (IH fuel w2) as (w' & Hl & Hfs & Hc & Hk & Hs & Ht).
    { intros i Hi. subst w2. cbn.
      replace (S (nkills w + i)) with (nkills w + S i)%nat by lia.
      apply Hok. lia. }
    exists w'. split; [exact Hl|].
    subst w2. cbn in Hfs, Hc, Hk, Hs, Ht.
    repeat split; try assumption; try lia.
    rewrite Ht, delivered_S, <- !app_assoc. reflexivity.
Qed.

Lemma kill_loop_never_returns (fuel : nat) :
  forall (w v : world), kill_loop E fuel pid w <> Ok tt v.
Proof.
  induction fuel as [|fuel IH]; intros w v; [discriminate|].
  destruct (kill_oracle E (nkills w)) as [|e] eqn:H.
  - rewrite (kill_loop_ok_step _ w H). apply IH.
  - rewrite (kill_loop_fail_step _ w e H). discriminate.
Qed.

(** A delivery that fails ends the loop, given fuel to reach it. *)
Lemma kill_loop_ends (k : nat) :
  forall (w : world),
    kill_oracle E (nkills w + k) <> KillOk ->
    running (kill_loop E (S k) pid w) = false.
Proof.
  induction k as [|k IH]; intros w Hk.
  - rewrite Nat.add_0_r in Hk.
    destruct (kill_oracle E (nkills w)) as [|e] eqn:H; [congruence|].
    now rewrite (kill_loop_fail_step _ w e H).
  - destruct (kill_oracle E (nkills w)) as [|e] eqn:H.
    + rewrite (kill_loop_ok_step _ w H). apply IH. cbn.
      now replace (S (nkills w + k)) with (nkills w + S k)%nat by lia.
    + now rewrite (kill_loop_fail_step _ w e H).
Qed.

(** Within any fuel, either every delivery succeeded or some failed. *)
Lemma deliveries_decide (b n : nat) :
  (forall i, (i < n)%nat -> kill_oracle E (b + i) = KillOk) \/
  (exists i, kill_oracle E (b + i) <> KillOk).
Proof.
  induction n as [|n [IH | IH]]; [left; lia | | now right].
  destruct (kill_oracle E (b + n)) as [|e] eqn:H.
  - left. intros i Hi. destruct (decide (i = n)) as [-> | Hne]; [exact H|].
    apply IH. lia.
  - right. exists n. congruence.
Qed.

End KillLoop.

Lemma not_no_such_process (e : errno) :
  e <> ESRCH -> (Py.find (str_args e) "No such process" >? 0) = false.
Proof. destruct e; intros H; try reflexivity. congruence. Qed.

Lemma filter_kill_app (t u : list event) :
  List.filter is_kill (t ++ u)
  = (List.filter is_kill t ++ List.filter is_kill u)%list.
Proof. apply List.filter_app. Qed.

Lemma kill_loop_cwd (E : env) (pid : Z) (fuel : nat) :
  forall w : world, cwd (world_of (kill_loop E fuel pid w)) = cwd w.
Proof.
  induction fuel as [|fuel IH]; intros w; [reflexivity|].
  cbn [kill_loop]. unfold bind at 1. unfold os_kill.
  destruct (pid_t_ok pid); [|reflexivity].
  destruct (kill_oracle E (nkills w)); [|reflexivity].
  unfold bind, time_sleep. rewrite IH. reflexivity.
Qed.

Lemma kill_loop_no_return (E : env) (pid : Z) (fuel : nat) :
  forall w v : world, kill_loop E fuel pid w <> Ok tt v.
Proof.
  induction fuel as [|fuel IH]; intros w v; [discriminate|].
  cbn [kill_loop]. unfold bind at 1. unfold os_kill.
  destruct (pid_t_ok pid); [|discriminate].
  destruct (kill_oracle E (nkills w)); [|discriminate].
  unfold bind, time_sleep. apply IH.
Qed.

Section Stop.

Variables (E : env) (d : Daemon).

(** What [stop] does once it has read a true pid. *)
Lemma stop_recorded (fuel : nat) (w : world) (text : string) (n : Z) :
  fs w !! pidfile_at d w = Some text ->
  Py.int (Py.strip text) = Some n ->
  n <> 0 ->
  stop E fuel d w
  = match kill_loop E fuel n (log (EvRead (pidfile d)) w) with
    | Raise (OSError err) w' =>
        if Py.find (str_args err) "No such process" >? 0 then
          (found <- os_path_exists (pidfile d) ;;
           if found : bool then os_remove (pidfile d) else ret tt)%prog w'
        else (print (str_args err) ;; sys_exit 1)%prog w'
    | r => r
    end.
Proof.
  intros Hf Hn Hz. unfold stop. unfold bind at 1.
  rewrite (read_pid_int d w text n Hf Hn). unfold if_truthy.
  apply Z.eqb_neq in Hz. rewrite Hz. unfold try_except.
  destruct (kill_loop E fuel n (log (EvRead (pidfile d)) w))
    as [[] v|ex v|v]; [reflexivity | | reflexivity].
  destruct ex; try reflexivity.
  destruct (Py.find _ _ >? 0); reflexivity.
Qed.

(** The cleanup of the "No such process" branch, from any world. *)
Lemma cleanup_pidfile (v : world) :
  exists v',
    (found <- os_path_exists (pidfile d) ;;
     if found : bool then os_remove (pidfile d) else ret tt)%prog v
    = Ok tt v' /\
    trace v'
      = (trace v ++ EvExists (pidfile d)
                      (bool_decide (is_Some (fs v !! pidfile_at d v)))
           :: (if bool_decide (is_Some (fs v !! pidfile_at d v))
               then [EvRemove (pidfile d)] else []))%list /\
    fs v' = delete (pidfile_at d v) (fs v) /\
    cwd v' = cwd v /\
    nkills v' = nkills v.
Proof.
  unfold bind, os_path_exists, os_remove, pidfile_at.
  destruct (fs v !! resolve (cwd v) (pidfile d)) as [old|] eqn:Hold.
  - rewrite bool_decide_eq_true_2 by eauto. cbn. rewrite Hold.
    eexists. split; [reflexivity|]. cbn. rewrite <- app_assoc.
    repeat split; reflexivity.
  - rewrite bool_decide_eq_false_2 by (intros [? ?]; congruence). cbn.
    eexists. split; [reflexivity|]. cbn.
    repeat split; try reflexivity. symmetry. now apply delete_id.
Qed.

(** C2. When the pidfile records a process identifier, [stop] sends
    SIGTERM to it again and again, sleeping a tenth of a second after
    each delivery, until a delivery fails.  If the failure is "No such
    process", [stop] removes the pidfile when it is still there and
    returns normally, the pidfile then being absent; on any other
    failure it prints the error and exits with status 1. *)
Theorem stop_signals_until_failure
    (fuel : nat) (w : world) (text : string) (n : Z) (k : nat) (e : errno) :
  fs w !! pidfile_at d w = Some text ->
  Py.int (Py.strip text) = Some n ->
  n <> 0 ->
  pid_t_ok n = true ->
  (forall i, (i < k)%nat -> kill_oracle E (nkills w + i) = KillOk) ->
  kill_oracle E (nkills w + k) = KillFail e ->
  (k < fuel)%nat ->
  let r := stop E fuel d w in
  let f := others_during E (nsleeps w) k (fs w) in
  let found := bool_decide (is_Some (f !! pidfile_at d w)) in
  let sent := (trace w ++ EvRead (pidfile d) :: delivered n k
                 ++ [EvKill n SIGTERM (KillFail e)])%list in
  (1 # 10 < 1)%Q /\
  (e = ESRCH ->
     r = Ok tt (world_of r) /\
     exit_status r = Some 0 /\
     trace (world_of r)
       = (sent ++ EvExists (pidfile d) found
            :: (if found then [EvRemove (pidfile d)] else []))%list /\
     fs (world_of r) = delete (pidfile_at d w) f /\
     fs (world_of r) !! pidfile_at d (world_of r) = None) /\
  (e <> ESRCH ->
     r = Raise (SystemExit 1) (world_of r) /\
     exit_status r = Some 1 /\
     trace (world_of r) = (sent ++ [EvStdout (str_args e +:+ newline)])%list /\
     fs (world_of r) = f).
Proof.
  intros Hf Hn Hz Hp Hok Hfail Hfuel r f found sent.
  split; [reflexivity|].
  subst r. rewrite (stop_recorded fuel w text n Hf Hn Hz).
  set (w1 := log (EvRead (pidfile d)) w).
  replace fuel with (k + S (fuel - S k))%nat by lia.
  destruct (kill_loop_rounds E n Hp k (S (fuel - S k)) w1 Hok)
    as (w' & Hl & Hfs & Hc & Hk & Hs & Ht).
  rewrite Hl.
  rewrite (kill_loop_fail_step E n Hp _ w' e)
    by (rewrite Hk; exact Hfail).
  set (v := log (EvKill n SIGTERM (KillFail e)) (killed w')).
  assert (Hvt : trace v = sent).
  { subst v sent w1. cbn. rewrite Ht. cbn.
    rewrite <- !app_assoc. reflexivity. }
  assert (Hvf : fs v = f) by exact Hfs.
  assert (Hvk : pidfile_at d v = pidfile_at d w)
    by (unfold pidfile_at; subst v; cbn; now rewrite Hc).
  clearbody v. split.
  - intros ->.
    change (Py.find (str_args ESRCH) "No such process" >? 0) with true.
    cbv iota.
    destruct (cleanup_pidfile v) as (v' & Hv & Hvt' & Hvf' & Hvc' & _).
    rewrite Hv. cbn.
    rewrite Hvt', Hvf', Hvk, Hvt, Hvf. fold found.
    repeat split; try reflexivity.
    unfold pidfile_at. rewrite Hvc'. fold (pidfile_at d v).
    rewrite Hvk. apply lookup_delete_eq.
  - intros Hne. rewrite (not_no_such_process e Hne).
    cbn. rewrite Hvt, Hvf. repeat split; reflexivity.
Qed.

(** C6. The signal loop of [stop] has no timeout.  As long as every
    delivery to the recorded process succeeds the loop goes on: whatever
    the number of rounds allowed, [stop] is still running after them,
    having sent that many signals.  Hence [stop] ends if and only if
    some delivery fails. *)
Theorem stop_has_no_timeout (w : world) (text : string) (n : Z) :
  fs w !! pidfile_at d w = Some text ->
  Py.int (Py.strip text) = Some n ->
  n <> 0 ->
  pid_t_ok n = true ->
  ((forall i, kill_oracle E (nkills w + i) = KillOk) ->
   forall fuel, exists w',
     stop E fuel d w = OutOfFuel w' /\
     nkills w' = (nkills w + fuel)%nat /\
     trace w' = (trace w ++ EvRead (pidfile d) :: delivered n fuel)%list) /\
  ((exists fuel, running (stop E fuel d w) = false) <->
   (exists i, kill_oracle E (nkills w + i) <> KillOk)).
Proof.
  intros Hf Hn Hz Hp.
  set (w1 := log (EvRead (pidfile d)) w).
  assert (Hall : forall fuel,
             (forall i, (i < fuel)%nat ->
                        kill_oracle E (nkills w + i) = KillOk) ->
             exists w', stop E fuel d w = OutOfFuel w' /\
                        nkills w' = (nkills w + fuel)%nat /\
                        trace w' = (trace w ++ EvRead (pidfile d)
                                      :: delivered n fuel)%list).
  { intros fuel Hok.
    destruct (kill_loop_rounds E n Hp fuel 0 w1 Hok)
      as (w' & Hl & _ & _ & Hk & _ & Ht).
    exists w'. rewrite (stop_recorded fuel w text n Hf Hn Hz).
    rewrite Nat.add_0_r in Hl. fold w1. rewrite Hl. cbn.
    split; [reflexivity|]. split; [exact Hk|].
    rewrite Ht. subst w1. cbn. now rewrite <- app_assoc. }
  split; [intros Hok fuel; apply Hall; intros; apply Hok|].
  split.
  - intros [fuel Hrun].
    destruct (deliveries_decide E (nkills w) fuel) as [Hok | Hbad];
      [|exact Hbad].
    destruct (Hall fuel Hok) as (w' & Hs & _). rewrite Hs in Hrun.
    discriminate.
  - intros [i Hi]. exists (S i).
    rewrite (stop_recorded (S i) w text n Hf Hn Hz). fold w1.
    pose proof (kill_loop_ends E n Hp i w1 Hi) as Hend.
    destruct (kill_loop E (S i) n w1) as [[] v|ex v|v];
      [reflexivity | | discriminate].
    destruct ex; try reflexivity.
    destruct (Py.find _ _ >? 0); [|reflexivity].
    destruct (cleanup_pidfile v) as (v' & Hv & _). now rewrite Hv.
Qed.

(** After a [stop] that returned, no pid is recorded any more. *)
Lemma stop_returns_nothing_recorded (fuel : nat) (w w1 : world) :
  stop E fuel d w = Ok tt w1 -> nothing_recorded d w1.
Proof.
  destruct (fs w !! pidfile_at d w) as [text|] eqn:Hf.
  - destruct (Py.int (Py.strip text)) as [n|] eqn:Hn.
    + destruct (decide (n = 0)) as [-> | Hz].
      * rewrite stop_nothing
          by (unfold nothing_recorded; now rewrite Hf).
        intros [= <-]. unfold nothing_recorded, pidfile_at. cbn.
        fold (pidfile_at d w). now rewrite Hf.
      * rewrite (stop_recorded fuel w text n Hf Hn Hz).
        destruct (kill_loop E fuel n (log (EvRead (pidfile d)) w))
          as [[] v|ex v|v] eqn:Hk;
          [now apply kill_loop_no_return in Hk | | discriminate].
        destruct ex; try discriminate.
        destruct (Py.find _ _ >? 0); [|discriminate].
        destruct (cleanup_pidfile v) as (v' & Hv & _ & Hfs & Hc & _).
        rewrite Hv. intros [= <-].
        unfold nothing_recorded, pidfile_at. rewrite Hfs, Hc.
        unfold pidfile_at. now rewrite lookup_delete_eq.
    + rewrite (stop_garbage E d w fuel text Hf Hn). discriminate.
  - rewrite stop_nothing by (unfold nothing_recorded; now rewrite Hf).
    intros [= <-]. unfold nothing_recorded, pidfile_at. cbn.
    fold (pidfile_at d w). now rewrite Hf.
Qed.

(** C7. [stop] is idempotent.  A second [stop] issued after a first one
    has returned only writes the "not running" message and returns: it
    sends no signal and leaves the file system alone.  So two calls in
    succession end with the same exit status, the same file system and
    the same signals sent as the first call alone. *)
Theorem stop_twice_is_stop_once (fuel1 fuel2 : nat) (w : world) :
  let once := stop E fuel1 d w in
  let twice := (stop E fuel1 d ;; stop E fuel2 d)%prog w in
  (forall w1, once = Ok tt w1 ->
     stop E fuel2 d w1
     = Ok tt (log (EvStderr (not_running d)) (log (EvRead (pidfile d)) w1)) /\
     twice = stop E fuel2 d w1) /\
  exit_status twice = exit_status once /\
  fs (world_of twice) = fs (world_of once) /\
  nkills (world_of twice) = nkills (world_of once) /\
  List.filter is_kill (trace (world_of twice))
    = List.filter is_kill (trace (world_of once)).
Proof.
  intros once twice.
  assert (H1 : forall w1, once = Ok tt w1 ->
            stop E fuel2 d w1
            = Ok tt (log (EvStderr (not_running d))
                       (log (EvRead (pidfile d)) w1))).
  { intros w1 Hw1. apply stop_nothing.
    now apply stop_returns_nothing_recorded with fuel1 w. }
  subst twice. unfold bind. fold once.
  destruct once as [[] w1|ex w1|w1] eqn:Honce.
  - rewrite (H1 w1 eq_refl). cbn. rewrite !filter_kill_app. cbn.
    rewrite !app_nil_r. split; [|repeat split; reflexivity].
    intros v [= <-]. split; [now apply H1 | now rewrite H1].
  - split; [discriminate | repeat split; reflexivity].
  - split; [discriminate | repeat split; reflexivity].
Qed.

End Stop.

(* ===================================================================== *)
(** ** The scenarios, run                                                 *)
(* ===================================================================== *)

Import Scenario.

(** Splits off the leading conjuncts that are already in the context. *)
Local Ltac given := repeat (split; [assumption|]).

Lemma start_already_running_witness :
  fs stale !! pidfile_at soundctld stale = Some ("4242" +:+ newline) /\
  Py.int (Py.strip ("4242" +:+ newline)) = Some 4242 /\
  4242 <> 0 /\
  exit_status (start detach worker soundctld tt stale) = Some 1.
Proof.
  assert (H1 : fs stale !! pidfile_at soundctld stale
               = Some ("4242" +:+ newline)) by (vm_compute; reflexivity).
  assert (H2 : Py.int (Py.strip ("4242" +:+ newline)) = Some 4242)
    by (vm_compute; reflexivity).
  assert (H3 : 4242 <> 0) by lia.
  given.
  exact (proj1 (proj2 (start_already_running detach worker soundctld stale tt
                         _ 4242 H1 H2 H3))).
Defined.

Lemma stop_without_pidfile_witness :
  fs clean !! pidfile_at soundctld clean = None /\
  exit_status (stop detach 5 soundctld clean) = Some 0.
Proof.
  assert (H1 : fs clean !! pidfile_at soundctld clean = None)
    by (vm_compute; reflexivity).
  split; [exact H1|].
  exact (proj1 (proj2 (stop_without_pidfile detach soundctld clean 5 H1))).
Defined.

Lemma garbage_pidfile_value_error_witness :
  fs garbled !! pidfile_at soundctld garbled = Some ("soundctld" +:+ newline) /\
  Py.int (Py.strip ("soundctld" +:+ newline)) = None /\
  start detach worker soundctld tt garbled
  = Raise ValueError (log (EvRead (pidfile soundctld)) garbled) /\
  stop detach 5 soundctld garbled
  = Raise ValueError (log (EvRead (pidfile soundctld)) garbled).
Proof.
  assert (H1 : fs garbled !! pidfile_at soundctld garbled
               = Some ("soundctld" +:+ newline)) by (vm_compute; reflexivity).
  assert (H2 : Py.int (Py.strip ("soundctld" +:+ newline)) = None)
    by (vm_compute; reflexivity).
  pose proof (garbage_pidfile_value_error detach worker soundctld garbled tt 5
                _ H1 H2) as (Ha & Hb & _).
  repeat split; assumption.
Defined.

Lemma start_detaches_witness :
  fs clean !! pidfile_at soundctld clean = None /\
  exists w',
    start detach worker soundctld tt clean = worker tt w' /\
    cwd w' = "/" /\
    atexit w' = [Delpid soundctld] /\
    self_pid w' = 1002 /\
    fs (at_exit w') !! pidfile_at soundctld w' = None.
Proof.
  assert (H1 : fs clean !! pidfile_at soundctld clean = None)
    by (vm_compute; reflexivity).
  split; [exact H1|].
  pose proof (start_detaches detach worker soundctld clean tt H1) as H.
  cbv zeta in H. destruct H as (_ & _ & H).
  destruct (H 1001%positive eq_refl) as (_ & _ & H').
  destruct (H' 1002%positive eq_refl)
    as (w' & Hr & _ & Hc & _ & _ & _ & Ha & Hs & _ & Hx).
  exists w'. given. assumption.
Defined.

(** C5, as worded, fails: in the run that detaches from a clean state, no
    write of the pidfile comes before the registration of the cleanup;
    the registration comes first. *)
Lemma cleanup_registered_before_write :
  ~ pid_written_before_cleanup
      (trace (world_of (start detach worker soundctld tt clean))) /\
  precedes is_atexit is_write
    (trace (world_of (start detach worker soundctld tt clean))) = true.
Proof.
  split; [|vm_compute; reflexivity].
  unfold pid_written_before_cleanup. vm_compute. discriminate.
Qed.

Lemma pidfile_records_final_child_witness :
  nothing_recorded soundctld clean /\
  fork_oracle detach (nforks clean) = ForkChild 1001 /\
  fork_oracle detach (S (nforks clean)) = ForkChild 1002 /\
  exists w',
    start detach worker soundctld tt clean = worker tt w' /\
    fs w' !! pidfile_at soundctld w' = Some ("1002" +:+ newline) /\
    self_pid w' = 1002.
Proof.
  assert (H1 : nothing_recorded soundctld clean) by (vm_compute; exact I).
  assert (H2 : fork_oracle detach (nforks clean) = ForkChild 1001)
    by reflexivity.
  assert (H3 : fork_oracle detach (S (nforks clean)) = ForkChild 1002)
    by reflexivity.
  given.
  destruct (pidfile_records_final_child detach worker soundctld clean tt
              1001 1002 H1 H2 H3) as (w' & Hr & Hf & _ & _ & Hs & _).
  exists w'. given. assumption.
Defined.

Lemma zero_pidfile_as_absent_witness :
  fs zeroed !! pidfile_at soundctld zeroed = Some ("0" +:+ newline) /\
  Py.int (Py.strip ("0" +:+ newline)) = Some 0 /\
  stop detach 5 soundctld zeroed
  = Ok tt (log (EvStderr (not_running soundctld))
             (log (EvRead (pidfile soundctld)) zeroed)) /\
  exists w',
    start detach worker soundctld tt zeroed = worker tt w' /\
    fs w' !! pidfile_at soundctld zeroed = Some ("1002" +:+ newline).
Proof.
  assert (H1 : fs zeroed !! pidfile_at soundctld zeroed
               = Some ("0" +:+ newline)) by (vm_compute; reflexivity).
  assert (H2 : Py.int (Py.strip ("0" +:+ newline)) = Some 0)
    by (vm_compute; reflexivity).
  pose proof (zero_pidfile_as_absent detach worker soundctld zeroed tt 5
                _ H1 H2) as H.
  cbv zeta in H. destruct H as ((Hs & _) & _ & H).
  destruct (H 1001%positive 1002%positive eq_refl eq_refl)
    as (w' & Hr & _ & Hab).
  destruct (Hab eq_refl) as (Hf & _).
  given. exists w'. split; assumption.
Defined.

Lemma start_keeps_recorded_pidfile_witness :
  fs stale !! pidfile_at soundctld stale = Some ("4242" +:+ newline) /\
  Py.int (Py.strip ("4242" +:+ newline)) <> Some 0 /\
  fs (world_of (start detach worker soundctld tt stale)) = fs stale.
Proof.
  assert (H1 : fs stale !! pidfile_at soundctld stale
               = Some ("4242" +:+ newline)) by (vm_compute; reflexivity).
  assert (H2 : Py.int (Py.strip ("4242" +:+ newline)) <> Some 0)
    by (vm_compute; discriminate).
  given.
  exact (proj1 (proj2 (start_keeps_recorded_pidfile detach worker soundctld
                         stale tt _ H1 H2))).
Defined.

(** C1, as worded, fails on a pidfile that is there but that the process
    may not open: [open] raises [IOError], the except clause takes the
    pidfile for absent, and the invoking process forks and exits with
    status 0 without any message. *)
Lemma unreadable_pidfile_is_ignored :
  holds locked (pidfile_at soundctld locked) ("4242" +:+ newline) /\
  Py.int (Py.strip ("4242" +:+ newline)) = Some 4242 /\
  exit_status (start invoker worker soundctld tt locked) = Some 0 /\
  trace (world_of (start invoker worker soundctld tt locked))
  = [EvRead (pidfile soundctld); EvFork (ForkParent 1001)] /\
  nforks (world_of (start invoker worker soundctld tt locked)) = 1%nat /\
  ~ start_refuses_recorded_pid.
Proof.
  assert (H1 : holds locked (pidfile_at soundctld locked)
                 ("4242" +:+ newline))
    by (right; split; vm_compute; reflexivity).
  assert (H2 : Py.int (Py.strip ("4242" +:+ newline)) = Some 4242)
    by (vm_compute; reflexivity).
  assert (H3 : exit_status (start invoker worker soundctld tt locked)
               = Some 0) by (vm_compute; reflexivity).
  split; [exact H1|]. split; [exact H2|]. split; [exact H3|].
  split; [vm_compute; reflexivity|]. split; [vm_compute; reflexivity|].
  intros H.
  destruct (H invoker worker soundctld locked _ 4242 H1 H2 ltac:(lia))
    as ((c & Hc & Hne) & _).
  rewrite H3 in Hc. injection Hc as <-. now apply Hne.
Qed.

(** C10, as worded, fails on a relative pidfile path: [daemonize] changes
    to the root directory before the final child writes, so the pid
    lands under the root and the pidfile that held 0 is left as it
    was. *)
Lemma relative_zero_pidfile_is_kept :
  fs Cases.zeroed_here !! pidfile_at Cases.relative Cases.zeroed_here
  = Some ("0" +:+ newline) /\
  Py.int (Py.strip ("0" +:+ newline)) = Some 0 /\
  fs (world_of (start detach worker Cases.relative tt Cases.zeroed_here))
    !! pidfile_at Cases.relative Cases.zeroed_here
  = Some ("0" +:+ newline) /\
  fs (world_of (start detach worker Cases.relative tt Cases.zeroed_here))
    !! "/soundctld.pid"
  = Some ("1002" +:+ newline) /\
  ~ zero_pidfile_is_replaced.
Proof.
  assert (H1 : fs Cases.zeroed_here
                 !! pidfile_at Cases.relative Cases.zeroed_here
               = Some ("0" +:+ newline)) by (vm_compute; reflexivity).
  assert (H2 : Py.int (Py.strip ("0" +:+ newline)) = Some 0)
    by (vm_compute; reflexivity).
  assert (H3 : fs (world_of (start detach worker Cases.relative tt
                               Cases.zeroed_here))
                 !! pidfile_at Cases.relative Cases.zeroed_here
               = Some ("0" +:+ newline)) by (vm_compute; reflexivity).
  split; [exact H1|]. split; [exact H2|]. split; [exact H3|].
  split; [vm_compute; reflexivity|].
  intros H.
  pose proof (H detach worker Cases.relative Cases.zeroed_here _
                1001%positive 1002%positive H1 H2 eq_refl eq_refl) as Hr.
  rewrite H3 in Hr. discriminate Hr.
Qed.

(** C4, as worded, fails on a pidfile that holds 0: the invoking process
    exits with status 0, and the final child replaces the content. *)
Lemma zero_pidfile_is_overwritten :
  fs zeroed !! pidfile_at soundctld zeroed = Some ("0" +:+ newline) /\
  exit_status (start invoker worker soundctld tt zeroed) = Some 0 /\
  fs (world_of (start detach worker soundctld tt zeroed))
    !! pidfile_at soundctld zeroed = Some ("1002" +:+ newline) /\
  ~ start_never_touches_pidfile.
Proof.
  assert (H1 : fs zeroed !! pidfile_at soundctld zeroed
               = Some ("0" +:+ newline)) by (vm_compute; reflexivity).
  repeat split; try (vm_compute; reflexivity).
  intros H. destruct (H invoker worker soundctld zeroed _ H1)
    as ((c & Hc & Hne) & _).
  vm_compute in Hc. congruence.
Qed.

Lemma stop_signals_until_failure_witness :
  fs stale !! pidfile_at soundctld stale = Some ("4242" +:+ newline) /\
  Py.int (Py.strip ("4242" +:+ newline)) = Some 4242 /\
  4242 <> 0 /\
  pid_t_ok 4242 = true /\
  (forall i, (i < 2)%nat -> kill_oracle detach (nkills stale + i) = KillOk) /\
  kill_oracle detach (nkills stale + 2) = KillFail ESRCH /\
  (2 < 5)%nat /\
  exit_status (stop detach 5 soundctld stale) = Some 0 /\
  fs (world_of (stop detach 5 soundctld stale)) !! pidfile_at soundctld stale
  = None.
Proof.
  assert (H1 : fs stale !! pidfile_at soundctld stale
               = Some ("4242" +:+ newline)) by (vm_compute; reflexivity).
  assert (H2 : Py.int (Py.strip ("4242" +:+ newline)) = Some 4242)
    by (vm_compute; reflexivity).
  assert (H3 : 4242 <> 0) by lia.
  assert (H4 : pid_t_ok 4242 = true) by reflexivity.
  assert (H5 : forall i, (i < 2)%nat ->
                         kill_oracle detach (nkills stale + i) = KillOk).
  { intros [|[|i]] Hi; [reflexivity | reflexivity | lia]. }
  assert (H6 : kill_oracle detach (nkills stale + 2) = KillFail ESRCH)
    by reflexivity.
  assert (H7 : (2 < 5)%nat) by lia.
  pose proof (stop_signals_until_failure detach soundctld 5 stale _ 4242 2
                ESRCH H1 H2 H3 H4 H5 H6 H7) as H.
  cbv zeta in H. destruct H as (_ & H & _).
  destruct (H eq_refl) as (_ & Hx & _ & _ & Hgone).
  given. exact Hgone.
Defined.

Lemma stop_has_no_timeout_witness :
  fs stale !! pidfile_at soundctld stale = Some ("4242" +:+ newline) /\
  Py.int (Py.strip ("4242" +:+ newline)) = Some 4242 /\
  4242 <> 0 /\
  pid_t_ok 4242 = true /\
  forall fuel, exists w',
    stop stubborn fuel soundctld stale = OutOfFuel w' /\
    nkills w' = (nkills stale + fuel)%nat.
Proof.
  assert (H1 : fs stale !! pidfile_at soundctld stale
               = Some ("4242" +:+ newline)) by (vm_compute; reflexivity).
  assert (H2 : Py.int (Py.strip ("4242" +:+ newline)) = Some 4242)
    by (vm_compute; reflexivity).
  assert (H3 : 4242 <> 0) by lia.
  assert (H4 : pid_t_ok 4242 = true) by reflexivity.
  given. intros fuel.
  destruct (proj1 (stop_has_no_timeout stubborn soundctld stale _ 4242
                     H1 H2 H3 H4) (fun _ => eq_refl) fuel)
    as (w' & Hs & Hk & _).
  exists w'. split; assumption.
Defined.

Lemma stop_twice_is_stop_once_witness :
  exit_status ((stop detach 5 soundctld ;; stop detach 5 soundctld)%prog stale)
  = exit_status (stop detach 5 soundctld stale) /\
  fs (world_of
        ((stop detach 5 soundctld ;; stop detach 5 soundctld)%prog stale))
  = fs (world_of (stop detach 5 soundctld stale)).
Proof.
  pose proof (stop_twice_is_stop_once detach soundctld 5 5 stale) as H.
  cbv zeta in H. destruct H as (_ & Ha & Hb & _).
  split; assumption.
Defined.

(** The scenario of the specification: from a clean state [start] leaves
    a pidfile with the pid of the detached process; [stop] then signals
    that process until it is gone and removes the pidfile. *)
Example start_then_stop :
  fs (world_of (start detach worker soundctld tt clean)) !! key
  = Some ("1002" +:+ newline) /\
  exit_status
    (stop detach 5 soundctld
       (world_of (start detach worker soundctld tt clean))) = Some 0 /\
  fs (world_of
        (stop detach 5 soundctld
           (world_of (start detach worker soundctld tt clean)))) !! key
  = None.
Proof. repeat split; vm_compute; reflexivity. Qed.

(* ===================================================================== *)
(** ** What stop leaves alone                                             *)
(* ===================================================================== *)

Section StopFrame.

Variables (E : env) (d : Daemon).

(** The signal loop touches nothing but the counters, the trace and, by
    way of the other processes, the file system. *)
Lemma kill_loop_frame (pid : Z) (fuel : nat) :
  forall w : world,
  exists k : nat,
    fs (world_of (kill_loop E fuel pid w))
    = others_during E (nsleeps w) k (fs w) /\
    nsleeps (world_of (kill_loop E fuel pid w)) = (nsleeps w + k)%nat /\
    cwd (world_of (kill_loop E fuel pid w)) = cwd w /\
    fdtab (world_of (kill_loop E fuel pid w)) = fdtab w /\
    atexit (world_of (kill_loop E fuel pid w)) = atexit w /\
    self_pid (world_of (kill_loop E fuel pid w)) = self_pid w /\
    lineage (world_of (kill_loop E fuel pid w)) = lineage w /\
    nforks (world_of (kill_loop E fuel pid w)) = nforks w.
Proof.
  induction fuel as [|fuel IH]; intros w.
  - exists 0%nat. cbn. rewrite Nat.add_0_r. repeat split.
  - destruct (pid_t_ok pid) eqn:Hpid.
    + destruct (kill_oracle E (nkills w)) as [|e] eqn:Ho.
      * rewrite (kill_loop_ok_step E pid Hpid fuel w Ho).
        match goal with
        | |- context [kill_loop E fuel pid ?v] =>
            destruct (IH v) as (k & Hfs & Hs & Hc & Hfd & Ha & Hp & Hl & Hn)
        end.
        exists (S k). rewrite Hfs, Hs, Hc, Hfd, Ha, Hp, Hl, Hn. cbn.
        repeat split. lia.
      * rewrite (kill_loop_fail_step E pid Hpid fuel w e Ho).
        exists 0%nat. cbn. rewrite Nat.add_0_r. repeat split.
    + cbn [kill_loop]. unfold bind at 1. unfold os_kill. rewrite Hpid.
      exists 0%nat. cbn. rewrite Nat.add_0_r. repeat split.
Qed.

(** The cleanup of the "No such process" branch changes the file system
    and the trace only. *)
Lemma cleanup_frame (v : world) :
  exists v',
    (found <- os_path_exists (pidfile d) ;;
     if found : bool then os_remove (pidfile d) else ret tt)%prog v
    = Ok tt v' /\
    fs v' = delete (pidfile_at d v) (fs v) /\
    nsleeps v' = nsleeps v /\
    cwd v' = cwd v /\
    fdtab v' = fdtab v /\
    atexit v' = atexit v /\
    self_pid v' = self_pid v /\
    lineage v' = lineage v /\
    nforks v' = nforks v /\
    nkills v' = nkills v.
Proof.
  unfold bind, os_path_exists, os_remove, pidfile_at.
  destruct (fs v !! resolve (cwd v) (pidfile d)) as [old|] eqn:Hold.
  - rewrite bool_decide_eq_true_2 by eauto. cbn. rewrite Hold.
    eexists. split; [reflexivity|]. cbn. repeat split.
  - rewrite bool_decide_eq_false_2 by (intros [? ?]; congruence). cbn.
    eexists. split; [reflexivity|]. cbn.
    repeat split. symmetry. now apply delete_id.
Qed.

(** Whatever the pidfile holds and however the signalling goes, [stop]
    leaves the process as it was and the file system as the other
    processes made it during its sleeps, the pidfile apart. *)
Lemma stop_frame_gen (fuel : nat) (w : world) :
  exists k : nat,
    nsleeps (world_of (stop E fuel d w)) = (nsleeps w + k)%nat /\
    (fs (world_of (stop E fuel d w)) = others_during E (nsleeps w) k (fs w) \/
     fs (world_of (stop E fuel d w))
     = delete (pidfile_at d w) (others_during E (nsleeps w) k (fs w))) /\
    cwd (world_of (stop E fuel d w)) = cwd w /\
    fdtab (world_of (stop E fuel d w)) = fdtab w /\
    atexit (world_of (stop E fuel d w)) = atexit w /\
    self_pid (world_of (stop E fuel d w)) = self_pid w /\
    lineage (world_of (stop E fuel d w)) = lineage w /\
    nforks (world_of (stop E fuel d w)) = nforks w.
Proof.
  destruct (fs w !! pidfile_at d w) as [text|] eqn:Hf.
  - destruct (Py.int (Py.strip text)) as [n|] eqn:Hn.
    + destruct (decide (n = 0)) as [-> | Hz].
      * rewrite stop_nothing by (unfold nothing_recorded; now rewrite Hf).
        exists 0%nat. cbn. rewrite Nat.add_0_r. repeat split. now left.
      * rewrite (stop_recorded E d fuel w text n Hf Hn Hz).
        destruct (kill_loop_frame n fuel (log (EvRead (pidfile d)) w))
          as (k & Hfs & Hs & Hc & Hfd & Ha & Hp & Hl & Hk).
        cbn in Hfs, Hs, Hc, Hfd, Ha, Hp, Hl, Hk.
        exists k.
        destruct (kill_loop E fuel n (log (EvRead (pidfile d)) w))
          as [[] v|ex v|v]; cbn in Hfs, Hs, Hc, Hfd, Ha, Hp, Hl, Hk;
          try (cbn; repeat split; auto; fail).
        destruct ex; try (cbn; repeat split; auto; fail).
        destruct (Py.find _ _ >? 0).
        -- destruct (cleanup_frame v)
             as (v' & Hv & Hfs' & Hs' & Hc' & Hfd' & Ha' & Hp' & Hl' & Hk' & _).
           rewrite Hv. cbn.
           rewrite Hfs', Hs', Hc', Hfd', Ha', Hp', Hl', Hk'.
           repeat split; auto. right.
           unfold pidfile_at. now rewrite Hc, Hfs.
        -- cbn. repeat split; auto.
    + rewrite (stop_garbage E d w fuel text Hf Hn).
      exists 0%nat. cbn. rewrite Nat.add_0_r. repeat split. now left.
  - rewrite stop_nothing by (unfold nothing_recorded; now rewrite Hf).
    exists 0%nat. cbn. rewrite Nat.add_0_r. repeat split. now left.
Qed.

(** X1. [stop] never forks, never changes directory, never registers an
    exit handler and never touches a standard descriptor; and the only
    file it can change is the pidfile: every other file is as the other
    processes left it during the sleeps of [stop]. *)
Theorem stop_touches_only_the_pidfile (fuel : nat) (w : world) :
  exists k : nat,
    nsleeps (world_of (stop E fuel d w)) = (nsleeps w + k)%nat /\
    (forall key, key <> pidfile_at d w ->
       fs (world_of (stop E fuel d w)) !! key
       = others_during E (nsleeps w) k (fs w) !! key) /\
    cwd (world_of (stop E fuel d w)) = cwd w /\
    fdtab (world_of (stop E fuel d w)) = fdtab w /\
    atexit (world_of (stop E fuel d w)) = atexit w /\
    self_pid (world_of (stop E fuel d w)) = self_pid w /\
    lineage (world_of (stop E fuel d w)) = lineage w /\
    nforks (world_of (stop E fuel d w)) = nforks w.
Proof.
  destruct (stop_frame_gen fuel w)
    as (k & Hs & Hfs & Hc & Hfd & Ha & Hp & Hl & Hn).
  exists k. repeat split; try assumption.
  intros key Hkey. destruct Hfs as [-> | ->]; [reflexivity|].
  now apply lookup_delete_ne.
Qed.

End StopFrame.

(* ===================================================================== *)
(** ** restart, and start and stop one after the other                    *)
(* ===================================================================== *)

Section Lifecycle.

Context (E : env) {Args : Type} (run : Args -> M unit).
Variable d : Daemon.

(** X2. [restart] calls [start] only after [stop] has returned, and then
    [start] always goes on to detach: the "already running" exit cannot
    be taken.  When [stop] ends otherwise (exit, uncaught exception) or
    is still signalling, [restart] ends or waits with it, and no fork
    has been made. *)
Theorem restart_starts_after_stop (fuel : nat) (args : Args) (w : world) :
  (forall w1, stop E fuel d w = Ok tt w1 ->
     restart E run fuel d args w
     = (daemonize E d ;; run args)%prog (log (EvRead (pidfile d)) w1)) /\
  (forall e v, stop E fuel d w = Raise e v ->
     restart E run fuel d args w = Raise e v /\
     nforks v = nforks w /\ lineage v = lineage w) /\
  (forall v, stop E fuel d w = OutOfFuel v ->
     restart E run fuel d args w = OutOfFuel v /\
     nforks v = nforks w /\ lineage v = lineage w).
Proof.
  destruct (stop_frame_gen E d fuel w) as (k & _ & _ & _ & _ & _ & _ & Hl & Hn).
  unfold restart, bind.
  split; [|split].
  - intros w1 Hs. rewrite Hs.
    apply (start_proceeds E run d w1 args).
    now apply stop_returns_nothing_recorded with E fuel w.
  - intros e v Hs. rewrite Hs in *. cbn in Hl, Hn. auto.
  - intros v Hs. rewrite Hs in *. cbn in Hl, Hn. auto.
Qed.

(** [stop] when the first signal already finds no process. *)
Lemma stop_gone_at_once (fuel : nat) (w : world) (text : string) (n : Z) :
  fs w !! pidfile_at d w = Some text ->
  Py.int (Py.strip text) = Some n ->
  n <> 0 ->
  pid_t_ok n = true ->
  kill_oracle E (nkills w) = KillFail ESRCH ->
  exists v,
    stop E (S fuel) d w = Ok tt v /\
    fs v = delete (pidfile_at d w) (fs w) /\
    cwd v = cwd w /\ nforks v = nforks w /\ nsleeps v = nsleeps w /\
    lineage v = lineage w /\ atexit v = atexit w.
Proof.
  intros Hf Hn Hz Hp Hk.
  rewrite (stop_recorded E d (S fuel) w text n Hf Hn Hz).
  rewrite (kill_loop_fail_step E n Hp fuel _ ESRCH) by exact Hk.
  change (Py.find (str_args ESRCH) "No such process" >? 0) with true.
  cbv iota.
  match goal with
  | |- context [bind _ _ ?u] =>
      destruct (cleanup_frame d u)
        as (v & Hv & Hfs & Hs & Hc & _ & Ha & _ & Hl & Hnf & _)
  end.
  exists v. split; [exact Hv|]. cbn in Hfs, Hs, Hc, Ha, Hl, Hnf.
  repeat split; assumption.
Qed.

(** X3. [restart] recovers from a stale pidfile: when the recorded
    process is already gone, [stop] removes the stale file and the final
    child of [start] records its own pid, so that afterwards the file the
    path named for the invoker is absent or new, and the pidfile of the
    daemon holds the new pid. *)
Theorem restart_replaces_stale_pidfile
    (fuel : nat) (args : Args) (w : world) (text : string) (n : Z)
    (p1 p2 : positive) :
  fs w !! pidfile_at d w = Some text ->
  Py.int (Py.strip text) = Some n ->
  n <> 0 ->
  pid_t_ok n = true ->
  kill_oracle E (nkills w) = KillFail ESRCH ->
  fork_oracle E (nforks w) = ForkChild p1 ->
  fork_oracle E (S (nforks w)) = ForkChild p2 ->
  exists w',
    restart E run (S fuel) d args w = run args w' /\
    fs w' = <[pidfile_at d w' := Py.str (Z.pos p2) +:+ newline]>
              (delete (pidfile_at d w) (fs w)) /\
    fs w' !! pidfile_at d w' = Some (Py.str (Z.pos p2) +:+ newline) /\
    self_pid w' = Z.pos p2 /\
    atexit w' = Delpid d :: atexit w.
Proof.
  intros Hf Hn Hz Hp Hk H1 H2.
  destruct (stop_gone_at_once fuel w text n Hf Hn Hz Hp Hk)
    as (v & Hv & Hfs & Hc & Hnf & _ & _ & Ha).
  unfold restart. unfold bind at 1. rewrite Hv.
  assert (Hnone : nothing_recorded d v).
  { unfold nothing_recorded, pidfile_at. rewrite Hfs, Hc.
    fold (pidfile_at d w). now rewrite lookup_delete_eq. }
  rewrite (start_proceeds E run d v args Hnone).
  destruct (daemonize_final_child E d (log (EvRead (pidfile d)) v) p1 p2)
    as (w' & Hd & _ & _ & _ & _ & _ & Ha' & Hs & _ & _ & Hfs' & _);
    [cbn; now rewrite Hnf | cbn; now rewrite Hnf |].
  exists w'. unfold bind. rewrite Hd. cbn in Hfs', Ha'.
  repeat split.
  - now rewrite Hfs', Hfs.
  - rewrite Hfs'. apply lookup_insert_eq.
  - exact Hs.
  - now rewrite Ha', Ha.
Qed.

(** X4. Singleton enforcement.  Once the final child of a [start] has
    written the pidfile, every later [start] that sees that file system
    and for which the path names the same file is refused: it writes the
    "already running" message and exits with status 1 without forking,
    whatever its environment and worker. *)
Theorem second_start_is_refused
    (args : Args) (w : world) (p1 p2 : positive) :
  nothing_recorded d w ->
  fork_oracle E (nforks w) = ForkChild p1 ->
  fork_oracle E (S (nforks w)) = ForkChild p2 ->
  exists w',
    start E run d args w = run args w' /\
    forall (E' : env) (run' : Args -> M unit) (args' : Args) (v : world),
      fs v = fs w' ->
      pidfile_at d v = pidfile_at d w' ->
      start E' run' d args' v
      = Raise (SystemExit 1)
          (log (EvStderr (already_running d)) (log (EvRead (pidfile d)) v)).
Proof.
  intros Hn H1 H2.
  rewrite (start_proceeds E run d w args Hn).
  destruct (daemonize_final_child E d (log (EvRead (pidfile d)) w) p1 p2)
    as (w' & Hd & _ & _ & _ & _ & _ & _ & _ & _ & _ & Hfs & _);
    [assumption | assumption |].
  exists w'. unfold bind. rewrite Hd. split; [reflexivity|].
  intros E' run' args' v Hv Hk.
  apply start_refuses with (Py.str (Z.pos p2) +:+ newline) (Z.pos p2).
  - rewrite Hv, Hk, Hfs. apply lookup_insert_eq.
  - apply int_strip_str_pos.
  - discriminate.
Qed.

(** X5. A pidfile path that names another file from the invoker's
    directory than from the root directory (as a relative path does, as
    a rule) makes the pidfile of no use to later invocations.
    [daemonize] changes to the root directory before it writes, so the
    file lands where the path leads from the root: for an invoker that
    did not have the file, the path still names no file after the daemon
    has started, a later [start] from the same directory detaches a
    second daemon, and a later [stop] from there reports "not running"
    and signals nothing. *)
Theorem relative_pidfile_is_not_seen
    (args : Args) (w : world) (p1 p2 : positive) :
  pidfile_at d w <> resolve "/" (pidfile d) ->
  fs w !! pidfile_at d w = None ->
  fork_oracle E (nforks w) = ForkChild p1 ->
  fork_oracle E (S (nforks w)) = ForkChild p2 ->
  exists w',
    start E run d args w = run args w' /\
    fs w' !! pidfile_at d w' = Some (Py.str (Z.pos p2) +:+ newline) /\
    fs w' !! pidfile_at d w = None /\
    forall (E' : env) (run' : Args -> M unit) (args' : Args) (fuel : nat)
           (v : world),
      fs v = fs w' ->
      cwd v = cwd w ->
      start E' run' d args' v
      = (daemonize E' d ;; run' args')%prog (log (EvRead (pidfile d)) v) /\
      stop E' fuel d v
      = Ok tt (log (EvStderr (not_running d)) (log (EvRead (pidfile d)) v)).
Proof.
  intros Hother Hf H1 H2.
  assert (Hn : nothing_recorded d w)
    by (unfold nothing_recorded; now rewrite Hf).
  rewrite (start_proceeds E run d w args Hn).
  destruct (daemonize_final_child E d (log (EvRead (pidfile d)) w) p1 p2)
    as (w' & Hdz & _ & Hc & _ & _ & _ & _ & _ & _ & _ & Hfs & _);
    [assumption | assumption |].
  exists w'. unfold bind. rewrite Hdz. cbn in Hfs.
  assert (Hne : pidfile_at d w <> pidfile_at d w').
  { unfold pidfile_at at 2. now rewrite Hc. }
  assert (Hgone : fs w' !! pidfile_at d w = None).
  { rewrite Hfs. rewrite lookup_insert_ne by congruence. exact Hf. }
  split; [reflexivity|]. split; [rewrite Hfs; apply lookup_insert_eq|].
  split; [exact Hgone|].
  intros E' run' args' fuel v Hv Hcv.
  assert (Hnv : nothing_recorded d v).
  { unfold nothing_recorded, pidfile_at. rewrite Hv, Hcv.
    fold (pidfile_at d w). now rewrite Hgone. }
  split; [now apply start_proceeds | now apply stop_nothing].
Qed.

(** X6. A pidfile that holds an integer outside the range of process
    identifiers wedges the supervisor: [stop] ends in an uncaught
    [OverflowError] before any signal is sent and leaves the pidfile,
    and [start] refuses to run because the pidfile is there. *)
Theorem out_of_range_pid_wedges
    (fuel : nat) (args : Args) (w : world) (text : string) (n : Z) :
  fs w !! pidfile_at d w = Some text ->
  Py.int (Py.strip text) = Some n ->
  pid_t_ok n = false ->
  stop E (S fuel) d w = Raise OverflowError (log (EvRead (pidfile d)) w) /\
  start E run d args w
  = Raise (SystemExit 1)
      (log (EvStderr (already_running d)) (log (EvRead (pidfile d)) w)) /\
  fs (world_of (stop E (S fuel) d w)) = fs w /\
  nkills (world_of (stop E (S fuel) d w)) = nkills w.
Proof.
  intros Hf Hn Hp.
  assert (Hz : n <> 0) by (intros ->; discriminate).
  assert (Hs : stop E (S fuel) d w
               = Raise OverflowError (log (EvRead (pidfile d)) w)).
  { rewrite (stop_recorded E d (S fuel) w text n Hf Hn Hz).
    cbn [kill_loop]. unfold bind at 1. unfold os_kill. now rewrite Hp. }
  rewrite Hs. repeat split.
  now apply start_refuses with text n.
Qed.

End Lifecycle.

Section StopGone.

Variables (E : env) (d : Daemon).

Lemma filter_kill_delivered (pid : Z) (k : nat) :
  List.filter is_kill (delivered pid k)
  = replicate k (EvKill pid SIGTERM KillOk).
Proof.
  induction k as [|k IH]; [reflexivity|].
  rewrite delivered_S. cbn. now rewrite IH.
Qed.

(** The signals of a [stop] that ends on "No such process". *)
Lemma stop_until_gone
    (fuel : nat) (w : world) (text : string) (n : Z) (k : nat) :
  fs w !! pidfile_at d w = Some text ->
  Py.int (Py.strip text) = Some n ->
  n <> 0 ->
  pid_t_ok n = true ->
  (forall i, (i < k)%nat -> kill_oracle E (nkills w + i) = KillOk) ->
  kill_oracle E (nkills w + k) = KillFail ESRCH ->
  (k < fuel)%nat ->
  exists v',
    stop E fuel d w = Ok tt v' /\
    List.filter is_kill (trace v')
    = (List.filter is_kill (trace w)
         ++ replicate k (EvKill n SIGTERM KillOk)
         ++ [EvKill n SIGTERM (KillFail ESRCH)])%list /\
    fs v' !! pidfile_at d w = None.
Proof.
  intros Hf Hn Hz Hp Hok Hfail Hfuel.
  rewrite (stop_recorded E d fuel w text n Hf Hn Hz).
  set (w1 := log (EvRead (pidfile d)) w).
  replace fuel with (k + S (fuel - S k))%nat by lia.
  destruct (kill_loop_rounds E n Hp k (S (fuel - S k)) w1 Hok)
    as (w' & Hl & Hfs & Hc & Hk & Hs & Ht).
  rewrite Hl.
  rewrite (kill_loop_fail_step E n Hp _ w' ESRCH)
    by (rewrite Hk; exact Hfail).
  change (Py.find (str_args ESRCH) "No such process" >? 0) with true.
  cbv iota.
  set (v := log (EvKill n SIGTERM (KillFail ESRCH)) (killed w')).
  assert (Hvk : pidfile_at d v = pidfile_at d w)
    by (unfold pidfile_at; subst v; cbn; now rewrite Hc).
  assert (Hvt : trace v = (trace w ++ EvRead (pidfile d) :: delivered n k
                             ++ [EvKill n SIGTERM (KillFail ESRCH)])%list).
  { subst v w1. cbn. rewrite Ht. cbn. now rewrite <- !app_assoc. }
  clearbody v.
  destruct (cleanup_pidfile d v) as (v' & Hv & Hvt' & Hvf' & _).
  exists v'. split; [exact Hv|]. split.
  - rewrite Hvt', Hvt. rewrite !filter_kill_app. cbn [List.filter is_kill].
    rewrite !filter_kill_app, filter_kill_delivered. cbn [List.filter is_kill].
    destruct (bool_decide _); cbn; now rewrite app_nil_r.
  - rewrite Hvf', Hvk. apply lookup_delete_eq.
Qed.

End StopGone.

Section StartThenStop.

Context (E : env) {Args : Type} (run : Args -> M unit).
Variable d : Daemon.

(** X7. [stop] signals the process that [start] recorded.  After the
    final child of a [start] has written the pidfile, a [stop] that sees
    that file system and for which the path names the same file sends
    SIGTERM to the pid of that final child and to no other, until the
    delivery fails with "No such process", then returns with the pidfile
    removed. *)
Theorem stop_signals_the_started_daemon
    (args : Args) (w : world) (p1 p2 : positive) :
  nothing_recorded d w ->
  fork_oracle E (nforks w) = ForkChild p1 ->
  fork_oracle E (S (nforks w)) = ForkChild p2 ->
  pid_t_ok (Z.pos p2) = true ->
  exists w',
    start E run d args w = run args w' /\
    self_pid w' = Z.pos p2 /\
    forall (E' : env) (fuel k : nat) (v : world),
      fs v = fs w' ->
      pidfile_at d v = pidfile_at d w' ->
      (forall i, (i < k)%nat -> kill_oracle E' (nkills v + i) = KillOk) ->
      kill_oracle E' (nkills v + k) = KillFail ESRCH ->
      (k < fuel)%nat ->
      exists v',
        stop E' fuel d v = Ok tt v' /\
        List.filter is_kill (trace v')
        = (List.filter is_kill (trace v)
             ++ replicate k (EvKill (Z.pos p2) SIGTERM KillOk)
             ++ [EvKill (Z.pos p2) SIGTERM (KillFail ESRCH)])%list /\
        fs v' !! pidfile_at d v = None.
Proof.
  intros Hn H1 H2 Hp.
  rewrite (start_proceeds E run d w args Hn).
  destruct (daemonize_final_child E d (log (EvRead (pidfile d)) w) p1 p2)
    as (w' & Hd & _ & _ & _ & _ & _ & _ & Hs & _ & _ & Hfs & _);
    [assumption | assumption |].
  exists w'. unfold bind. rewrite Hd.
  split; [reflexivity|]. split; [exact Hs|].
  intros E' fuel k v Hv Hk Hok Hfail Hfuel.
  apply stop_until_gone with (text := Py.str (Z.pos p2) +:+ newline);
    try assumption.
  - rewrite Hv, Hk, Hfs. apply lookup_insert_eq.
  - apply int_strip_str_pos.
  - discriminate.
Qed.

End StartThenStop.

(* ===================================================================== *)
(** ** The exit handlers and the entry point                              *)
(* ===================================================================== *)

Lemma call_handler_frame (h : handler) (w : world) (key : string) :
  (forall d, h = Delpid d -> pidfile_at d w <> key) ->
  fs (world_of (call_handler h w)) !! key = fs w !! key.
Proof.
  intros Hne. destruct h as [d]. specialize (Hne d eq_refl).
  unfold call_handler, delpid, os_remove. unfold pidfile_at in Hne.
  destruct (fs w !! resolve (cwd w) (pidfile d)); cbn; [|reflexivity].
  now apply lookup_delete_ne.
Qed.

Lemma run_atexit_frame (hs : list handler) :
  forall (w : world) (key : string),
    (forall d, In (Delpid d) hs -> pidfile_at d w <> key) ->
    fs (run_atexit hs w) !! key = fs w !! key.
Proof.
  induction hs as [|h hs IH]; intros w key Hne; [reflexivity|].
  cbn. rewrite IH.
  - apply call_handler_frame. intros d ->. apply Hne. now left.
  - intros d Hd. unfold pidfile_at. rewrite call_handler_cwd.
    apply Hne. now right.
Qed.

(** X8. At the exit of the process every registered pidfile is gone,
    also when one of them had been removed before (the failure of a
    handler does not stop the exit), and no other file is touched. *)
Theorem exit_removes_the_registered_pidfiles_only (w : world) :
  (forall d, In (Delpid d) (atexit w) ->
     fs (at_exit w) !! pidfile_at d w = None) /\
  (forall key, ~ registered w key -> fs (at_exit w) !! key = fs w !! key).
Proof.
  split.
  - intros d Hd. now apply at_exit_removes.
  - intros key Hkey. unfold at_exit. apply run_atexit_frame.
    intros d Hd Heq. apply Hkey. now exists d.
Qed.

Section EntryPointFacts.

Context (E : env) {Args : Type}.
Variables (args_pidfile args_command : Args -> option string).
Variables (run : Args -> M unit) (run_noargs : M unit) (format_help : string).

(** X9. Only the commands [start], [restart] and [test] can detach or
    reconfigure the process: for every other value of [args.command]
    ([stop], or no command), whatever the pidfile option and the
    pidfile hold, [main] makes no fork, stays in its directory and
    session lineage, registers no exit handler and keeps its standard
    descriptors. *)
Theorem main_detaches_on_start_only
    (fuel : nat) (daemon : Daemon) (args : Args) (w : world) :
  args_command args <> Some "start" ->
  args_command args <> Some "restart" ->
  args_command args <> Some "test" ->
  nforks (world_of (main E args_pidfile args_command run run_noargs
                      format_help fuel daemon args w)) = nforks w /\
  lineage (world_of (main E args_pidfile args_command run run_noargs
                       format_help fuel daemon args w)) = lineage w /\
  cwd (world_of (main E args_pidfile args_command run run_noargs
                   format_help fuel daemon args w)) = cwd w /\
  atexit (world_of (main E args_pidfile args_command run run_noargs
                      format_help fuel daemon args w)) = atexit w /\
  fdtab (world_of (main E args_pidfile args_command run run_noargs
                     format_help fuel daemon args w)) = fdtab w.
Proof.
  intros Hs Hr Ht. unfold main.
  set (dm := match args_pidfile args with
             | Some p => if String.eqb p "" then daemon else {| pidfile := p |}
             | None => daemon
             end).
  destruct (args_command args) as [c|]; [|cbn; repeat split].
  destruct (String.eqb_spec "start" c) as [<- | _]; [congruence|].
  destruct (String.eqb_spec "stop" c) as [<- | _].
  - destruct (stop_frame_gen E dm fuel w)
      as (k & _ & _ & Hc & Hfd & Ha & _ & Hl & Hn).
    repeat split; assumption.
  - destruct (String.eqb_spec "restart" c) as [<- | _]; [congruence|].
    destruct (String.eqb_spec "test" c) as [<- | _]; [congruence|].
    cbn. repeat split.
Qed.

End EntryPointFacts.

(* ===================================================================== *)
(** ** dbusclient: the checked conversions                                *)
(* ===================================================================== *)

Section Format.

Lemma brace_free_app (a b : string) :
  brace_free (a +:+ b) = brace_free a && brace_free b.
Proof.
  unfold brace_free. induction a as [|c a IH]; [reflexivity|].
  rewrite append_cons. cbn [list_ascii_of_string forallb].
  now rewrite IH, andb_assoc.
Qed.

Lemma format_from_plain (a t v : string) :
  brace_free a = true ->
  PyText.format_from 0 (a +:+ t) v
  = String.append a <$> PyText.format_from 0 t v.
Proof.
  unfold brace_free. induction a as [|c a IH]; intros Ha.
  - change ("" +:+ t) with t.
    destruct (PyText.format_from 0 t v); reflexivity.
  - cbn [list_ascii_of_string forallb] in Ha.
    apply andb_true_iff in Ha as [Hc Ha].
    apply negb_true_iff, orb_false_iff in Hc as [Ho Hcl].
    rewrite append_cons. cbn [PyText.format_from].
    rewrite Ho, Hcl, (IH Ha).
    destruct (PyText.format_from 0 t v); reflexivity.
Qed.

Lemma format_from_field (t v : string) :
  PyText.format_from 0 ("{value}" +:+ t) v
  = String.append v <$> PyText.format_from 0 t v.
Proof.
  change ("{value}" +:+ t)
    with (String "{" (String "v" (String "a" (String "l" (String "u"
            (String "e" (String "}" t))))))).
  destruct t; reflexivity.
Qed.

(** A template with the one field [{value}]. *)
Lemma format_one_field (a b v : string) :
  brace_free a = true -> brace_free b = true ->
  PyText.format (a +:+ "{value}" +:+ b) v = Some (a +:+ v +:+ b).
Proof.
  intros Ha Hb. unfold PyText.format.
  rewrite (format_from_plain a _ v Ha), format_from_field.
  rewrite <- (append_empty b) at 1.
  rewrite (format_from_plain b "" v Hb). cbn.
  now rewrite append_empty.
Qed.

Lemma brace_free_uint (u : Decimal.uint) :
  brace_free (NilEmpty.string_of_uint u) = true.
Proof.
  unfold brace_free.
  induction u; cbn [NilEmpty.string_of_uint list_ascii_of_string forallb];
    try reflexivity; rewrite IHu; reflexivity.
Qed.

Lemma brace_free_str (z : Z) : brace_free (Py.str z) = true.
Proof.
  destruct z as [|p|p]; [reflexivity | |].
  - rewrite str_pos. apply brace_free_uint.
  - unfold Py.str. cbn [Z.to_int NilZero.string_of_int].
    unfold NilZero.string_of_uint.
    pose proof (brace_free_uint (Pos.to_uint p)) as H.
    destruct (Pos.to_uint p); try exact H; reflexivity.
Qed.

End Format.

Section IntText.

(** [int(str(n)) == n], for every integer. *)
Lemma int_str (z : Z) : Py.int (Py.str z) = Some z.
Proof.
  destruct z as [|p|p]; [reflexivity | |].
  - pose proof (Unsigned.to_uint_nonnil p) as H.
    rewrite str_pos.
    rewrite <- (append_empty (NilEmpty.string_of_uint (Pos.to_uint p))).
    rewrite int_digits by (assumption || reflexivity).
    f_equal. apply uint_value_to_uint.
  - pose proof (Unsigned.to_uint_nonnil p) as H.
    assert (Hs : Py.str (Z.neg p)
                 = String "-" (NilEmpty.string_of_uint (Pos.to_uint p))).
    { unfold Py.str. cbn [Z.to_int NilZero.string_of_int].
      unfold NilZero.string_of_uint.
      destruct (Pos.to_uint p); try congruence; reflexivity. }
    rewrite Hs. unfold Py.int.
    assert (Hl : Py.lskip
                   (String "-" (NilEmpty.string_of_uint (Pos.to_uint p)))
                 = String "-" (NilEmpty.string_of_uint (Pos.to_uint p)))
      by reflexivity.
    rewrite Hl. cbn [Py.rskip].
    pose proof (rskip_digits (Pos.to_uint p) "" eq_refl) as Hr.
    rewrite append_empty in Hr. rewrite Hr.
    pose proof (digits_uint (Pos.to_uint p) H) as Hd.
    destruct (NilEmpty.string_of_uint (Pos.to_uint p)) eqn:Hu.
    + destruct (Pos.to_uint p); try congruence; discriminate.
    + rewrite Hd, uint_value_to_uint. reflexivity.
Qed.

End IntText.

Section Checked.

Context {V C X : Type}.
Variables (str_v : V -> string) (str_c : C -> string).

Lemma or_message_given (c : ascii) (r default : string) :
  or_message (Some (String c r)) default = String c r.
Proof. reflexivity. Qed.

Lemma reject_default_pre (cls : exc_class) (v : string) :
  @reject X C cls
    "value {value} did not satisfy constraints for being converted." v
  = Rejected cls
      ("value " +:+ v
         +:+ " did not satisfy constraints for being converted.").
Proof.
  unfold reject.
  change "value {value} did not satisfy constraints for being converted."
    with ("value " +:+ "{value}"
            +:+ " did not satisfy constraints for being converted.").
  now rewrite format_one_field.
Qed.

Lemma reject_default_post (cls : exc_class) (v : string) :
  @reject X C cls
    "value {value} did not satisfy constraints after conversion." v
  = Rejected cls
      ("value " +:+ v +:+ " did not satisfy constraints after conversion.").
Proof.
  unfold reject.
  change "value {value} did not satisfy constraints after conversion."
    with ("value " +:+ "{value}"
            +:+ " did not satisfy constraints after conversion.").
  now rewrite format_one_field.
Qed.

(** X10. [verifying] checks the pre-condition before it converts: a
    value that fails it is rejected with [exception_type] ([ValueError]
    by default) and the default message showing the value, whatever the
    conversion would have done.  An empty message counts as no message.
    Without conditions the result is that of the conversion alone. *)
Theorem verifying_checks_before_converting
    (cast : V -> X + C) (pre : V -> bool)
    (post : option (C -> bool)) (post_message : option string)
    (cls : option exc_class) (value : V) :
  pre value = false ->
  (forall cast' : V -> X + C,
     verifying str_v str_c cast' (Some pre) None post post_message cls value
     = Rejected (default ValueErrorClass cls)
         ("value " +:+ str_v value
            +:+ " did not satisfy constraints for being converted.")) /\
  verifying str_v str_c cast (Some pre) (Some "") post post_message cls value
  = verifying str_v str_c cast (Some pre) None post post_message cls value /\
  verifying str_v str_c cast None None None None cls value
  = match cast value with
    | inl x => CastRaised x
    | inr converted => Converted converted
    end.
Proof.
  intros Hpre. split; [|split].
  - intros cast'. unfold verifying, violates. rewrite Hpre. cbn [negb].
    cbv iota. apply reject_default_pre.
  - reflexivity.
  - unfold verifying, violates. destruct (cast value); reflexivity.
Qed.

(** X11. [DBusMethod.validating] is [verifying] with a post-condition
    and [ArgumentTypeError], as long as the message is not empty; with
    the empty message a value that is not valid is rejected with the
    empty text by [validating] and with the default text by
    [verifying]. *)
Theorem validating_is_verifying
    (type : V -> X + C) (is_valid : C -> bool) (msg : string) (value : V) :
  (msg <> "" ->
   validating str_c type is_valid msg value
   = verifying str_v str_c type None None (Some is_valid) (Some msg)
       (Some ArgumentTypeErrorClass) value) /\
  (forall c, type value = inr c -> is_valid c = false ->
     validating str_c type is_valid "" value
     = Rejected ArgumentTypeErrorClass "" /\
     verifying str_v str_c type None None (Some is_valid) (Some "")
       (Some ArgumentTypeErrorClass) value
     = Rejected ArgumentTypeErrorClass
         ("value " +:+ str_c c
            +:+ " did not satisfy constraints after conversion.")).
Proof.
  split.
  - intros Hmsg. unfold validating, verifying, violates.
    destruct msg as [|a r]; [congruence|]. rewrite or_message_given.
    destruct (type value); reflexivity.
  - intros c Hc Hv. unfold validating, verifying, violates.
    rewrite Hc, Hv. cbn [negb default or_message String.eqb]. cbv iota.
    split; [reflexivity | apply reject_default_post].
Qed.

End Checked.

Section Bounded.

Context {V X : Type}.
Variables (str_v : V -> string) (cast : V -> X + Z).
Variables (min max : Z) (cls : option exc_class).

Lemma bounded_unfold (value : V) :
  bounded str_v cast min max cls value
  = match cast value with
    | inl x => CastRaised x
    | inr n =>
        if (min <=? n) && (n <=? max) then Converted n
        else Rejected (default ValueErrorClass cls) (out_of_bounds min max n)
    end.
Proof.
  unfold bounded, verifying, violates.
  destruct (cast value) as [x|n]; [reflexivity|].
  destruct ((min <=? n) && (n <=? max)); [reflexivity|].
  cbn [negb]. cbv iota. unfold reject, out_of_bounds.
  change (or_message
            (Some ("Value {value} out of bounds [" +:+ Py.str min +:+ ", "
                     +:+ Py.str max +:+ "]"))
            "value {value} did not satisfy constraints after conversion.")
    with ("Value " +:+ "{value}"
            +:+ (" out of bounds [" +:+ Py.str min +:+ ", " +:+ Py.str max
                   +:+ "]")).
  rewrite format_one_field; [reflexivity | reflexivity |].
  rewrite !brace_free_app, !brace_free_str. reflexivity.
Qed.

(** X12. [bounded] returns exactly the converted values that lie within
    the bounds.  A failure of the conversion itself passes through as it
    is (it is not turned into [exception_type]); a converted value out
    of the bounds is rejected with [exception_type] ([ValueError] by
    default) and a message that shows the value and both bounds; the
    formatting of that message never fails. *)
Theorem bounded_accepts_within_bounds (value : V) :
  (forall n, bounded str_v cast min max cls value = Converted n <->
             cast value = inr n /\ min <= n <= max) /\
  (forall x, bounded str_v cast min max cls value = CastRaised x <->
             cast value = inl x) /\
  (forall c msg, bounded str_v cast min max cls value = Rejected c msg <->
                 exists n, cast value = inr n /\ ~ (min <= n <= max) /\
                           c = default ValueErrorClass cls /\
                           msg = out_of_bounds min max n) /\
  bounded str_v cast min max cls value <> FormatRaised.
Proof.
  rewrite bounded_unfold.
  destruct (cast value) as [x0|n0].
  - split; [|split; [|split]].
    + intros n. split; [intros H | intros [H _]]; discriminate H.
    + intros x. split; intros [= ->]; reflexivity.
    + intros c msg. split; [intros H | intros (m & H & _)]; discriminate H.
    + intros H; discriminate H.
  - destruct ((min <=? n0) && (n0 <=? max)) eqn:Hb.
    + apply andb_true_iff in Hb as [H1 H2].
      apply Z.leb_le in H1, H2.
      split; [|split; [|split]].
      * intros n. split; [intros [= <-]; split; [reflexivity | lia]|].
        intros [[= <-] _]. reflexivity.
      * intros x. split; intros H; discriminate H.
      * intros c msg. split; [intros H; discriminate H|].
        intros (m & [= <-] & Hn & _). lia.
      * intros H; discriminate H.
    + assert (Hn : ~ (min <= n0 <= max)).
      { intros [H1 H2]. apply Z.leb_le in H1, H2.
        now rewrite H1, H2 in Hb. }
      split; [|split; [|split]].
      * intros n. split; [intros H; discriminate H|].
        intros [[= <-] ?]. contradiction.
      * intros x. split; intros H; discriminate H.
      * intros c msg. split.
        -- intros [= <- <-]. exists n0. auto.
        -- intros (m & [= <-] & _ & -> & ->). reflexivity.
      * intros H; discriminate H.
Qed.

End Bounded.

Section Percentage.

(** X13. soundctl's [percentage] accepts exactly the texts that [int]
    reads as an integer from 0 to 100, and reads back what [str] prints
    for such an integer.  A text that is no integer raises the
    [ValueError] of [int], not [ArgumentTypeError]; an integer out of
    range raises [ArgumentTypeError] with the message naming it. *)
Theorem percentage_accepts_0_to_100 (text : string) :
  (forall n, percentage text = Converted n <->
             Py.int text = Some n /\ 0 <= n <= 100) /\
  (forall n, 0 <= n <= 100 -> percentage (Py.str n) = Converted n) /\
  (Py.int text = None ->
   percentage text = CastRaised (InvalidLiteral text)) /\
  (forall n, Py.int text = Some n -> ~ (0 <= n <= 100) ->
     percentage text
     = Rejected ArgumentTypeErrorClass (out_of_bounds 0 100 n)).
Proof.
  unfold percentage. split; [|split; [|split]].
  - intros n. rewrite bounded_unfold. unfold int_cast.
    destruct (Py.int text) as [m|];
      [|split; [intros H | intros [H _]]; discriminate H].
    destruct ((0 <=? m) && (m <=? 100)) eqn:Hb.
    + apply andb_true_iff in Hb as [H1 H2]. apply Z.leb_le in H1, H2.
      split; [intros [= <-]; auto | intros [[= <-] _]; reflexivity].
    + split; [intros H; discriminate H|]. intros [[= <-] [H1 H2]].
      apply Z.leb_le in H1, H2. now rewrite H1, H2 in Hb.
  - intros n [H1 H2]. rewrite bounded_unfold. unfold int_cast.
    rewrite int_str. apply Z.leb_le in H1, H2. now rewrite H1, H2.
  - intros Hn. rewrite bounded_unfold. unfold int_cast. now rewrite Hn.
  - intros n Hn Hout. rewrite bounded_unfold. unfold int_cast. rewrite Hn.
    destruct ((0 <=? n) && (n <=? 100)) eqn:Hb; [|reflexivity].
    apply andb_true_iff in Hb as [H1 H2]. apply Z.leb_le in H1, H2. lia.
Qed.

(** X14. Each integer row of [DBUS_TYPES] accepts exactly the texts that
    [int] reads as an integer within the bounds of the row, and reads
    back what [str] prints for such an integer; out of the bounds it
    raises [ValueError]. *)
Theorem dbus_int_accepts_its_range (code : string) (lo hi : Z) :
  lookup_type code DBUS_TYPES = Some (TInt lo hi) ->
  exists f,
    dbus_int code = Some f /\
    (forall text n, f text = Converted n <->
                    Py.int text = Some n /\ lo <= n <= hi) /\
    (forall n, lo <= n <= hi -> f (Py.str n) = Converted n) /\
    (forall n, ~ (lo <= n <= hi) ->
       f (Py.str n) = Rejected ValueErrorClass (out_of_bounds lo hi n)).
Proof.
  intros Hrow. unfold dbus_int. rewrite Hrow. eexists. split; [reflexivity|].
  split; [|split].
  - intros text n. rewrite bounded_unfold. unfold int_cast.
    destruct (Py.int text) as [m|];
      [|split; [intros H | intros [H _]]; discriminate H].
    destruct ((lo <=? m) && (m <=? hi)) eqn:Hb.
    + apply andb_true_iff in Hb as [H1 H2]. apply Z.leb_le in H1, H2.
      split; [intros [= <-]; auto | intros [[= <-] _]; reflexivity].
    + split; [intros H; discriminate H|]. intros [[= <-] [H1 H2]].
      apply Z.leb_le in H1, H2. now rewrite H1, H2 in Hb.
  - intros n [H1 H2]. rewrite bounded_unfold. unfold int_cast.
    rewrite int_str. apply Z.leb_le in H1, H2. now rewrite H1, H2.
  - intros n Hout. rewrite bounded_unfold. unfold int_cast. rewrite int_str.
    destruct ((lo <=? n) && (n <=? hi)) eqn:Hb; [|reflexivity].
    apply andb_true_iff in Hb as [H1 H2]. apply Z.leb_le in H1, H2. lia.
Qed.

(** X15. What soundctl accepts as the amount of [volume_up] and
    [volume_down] fits the D-Bus signature ['n'] under which the service
    declares these methods: a text accepted by [percentage] is accepted,
    with the same value, by the row ['n'] of [DBUS_TYPES]. *)
Theorem percentage_fits_int16 (text : string) (n : Z) :
  percentage text = Converted n ->
  exists f, dbus_int "n" = Some f /\ f text = Converted n.
Proof.
  unfold percentage. rewrite bounded_unfold. unfold int_cast.
  destruct (Py.int text) as [m|] eqn:Hm; [|discriminate].
  destruct ((0 <=? m) && (m <=? 100)) eqn:Hb; [|discriminate].
  intros [= <-]. apply andb_true_iff in Hb as [H1 H2].
  apply Z.leb_le in H1, H2.
  eexists. split; [reflexivity|].
  rewrite bounded_unfold. unfold int_cast. rewrite Hm.
  assert (Hlo : (- 2 ^ 15 <=? m) = true) by (apply Z.leb_le; lia).
  assert (Hhi : (m <=? 2 ^ 15 - 1) = true) by (apply Z.leb_le; lia).
  now rewrite Hlo, Hhi.
Qed.

End Percentage.

Section StrBool.

Lemma lower_char_idem (c : ascii) :
  PyText.lower_char (PyText.lower_char c) = PyText.lower_char c.
Proof. destruct c as [[] [] [] [] [] [] [] []]; reflexivity. Qed.

Lemma lower_idem (s : string) : PyText.lower (PyText.lower s) = PyText.lower s.
Proof.
  induction s as [|c s IH]; [reflexivity|].
  cbn. now rewrite lower_char_idem, IH.
Qed.

Variable globals : gmap string string.

(** X17. With the globals bound, [str_bool] ignores the case of its
    argument but not that of the globals: it returns [True] exactly when
    [truestr] is the lower-cased argument, so two texts that differ in
    case only are read alike, and a [truestr] with an upper-case letter
    is never matched. *)
Theorem str_bool_ignores_case_of_argument (string string' : string) :
  (str_bool globals string = inr true <->
   globals !! "truestr" = Some (PyText.lower string)) /\
  (PyText.lower string = PyText.lower string' ->
   forall b, str_bool globals string = inr b <->
             str_bool globals string' = inr b) /\
  (forall truestr,
     globals !! "truestr" = Some truestr ->
     PyText.lower truestr <> truestr ->
     str_bool globals string <> inr true).
Proof.
  assert (Htrue : forall s,
             str_bool globals s = inr true <->
             globals !! "truestr" = Some (PyText.lower s)).
  { intros s. unfold str_bool.
    destruct (globals !! "truestr") as [t|];
      [|split; intros H; discriminate H].
    destruct (String.eqb_spec t (PyText.lower s)) as [-> | Hne].
    - split; reflexivity.
    - split; [|intros [= ->]; contradiction].
      destruct (globals !! "falsestr") as [f|]; [|intros H; discriminate H].
      destruct (String.eqb f (PyText.lower s)); intros H; discriminate H. }
  split; [apply Htrue|]. split.
  - intros Hl b. unfold str_bool. rewrite Hl.
    destruct (globals !! "truestr") as [t|]; [|reflexivity].
    destruct (String.eqb t (PyText.lower string')); [reflexivity|].
    destruct (globals !! "falsestr") as [f|]; [|reflexivity].
    destruct (String.eqb f (PyText.lower string')); [reflexivity|].
    split; intros H; discriminate H.
  - intros t Ht Hup Hs. apply Htrue in Hs. rewrite Ht in Hs.
    injection Hs as ->. apply Hup. apply lower_idem.
Qed.

End StrBool.

Section Keywords.

(** X18. [add_method] always hands a help text and a description to
    [add_parser]: the help text defaults to the empty string and the
    description to the help text.  What the caller gave is kept as it
    is, and applying the defaults twice changes nothing more. *)
Theorem add_method_fills_help_and_description (kwargs : gmap string string) :
  is_Some (add_method_kwargs kwargs !! "help") /\
  is_Some (add_method_kwargs kwargs !! "description") /\
  (forall key v, kwargs !! key = Some v ->
                 add_method_kwargs kwargs !! key = Some v) /\
  (kwargs !! "help" = None -> add_method_kwargs kwargs !! "help" = Some "") /\
  (kwargs !! "description" = None ->
   add_method_kwargs kwargs !! "description"
   = add_method_kwargs kwargs !! "help") /\
  (forall key, key <> "help" -> key <> "description" ->
               add_method_kwargs kwargs !! key = kwargs !! key) /\
  add_method_kwargs (add_method_kwargs kwargs) = add_method_kwargs kwargs.
Proof.
  unfold add_method_kwargs.
  destruct (kwargs !! "help") as [h|] eqn:Hh;
    destruct (kwargs !! "description") as [ds|] eqn:Hd;
    simplify_map_eq; repeat split; intros; simplify_map_eq; eauto.
Qed.

End Keywords.

Section ArgumentActions.

(** X19. [add_argument] never hands a type given as a string on to
    [argparse]: a code of [DBUS_TYPES] is replaced by its row, any other
    string raises [KeyError] before anything is registered.  The action
    is always [ArgAction], whatever the caller asked for, and every
    other keyword is passed on unchanged. *)
Theorem add_argument_resolves_type_codes (kwargs : gmap string kwarg) :
  (forall code,
     add_argument_kwargs kwargs = inl code <->
     kwargs !! "type" = Some (KStr code) /\
     lookup_type code DBUS_TYPES = None) /\
  (forall kwargs',
     add_argument_kwargs kwargs = inr kwargs' ->
     kwargs' !! "action" = Some KArgAction /\
     (forall s, kwargs' !! "type" <> Some (KStr s)) /\
     (forall code t, kwargs !! "type" = Some (KStr code) ->
                     lookup_type code DBUS_TYPES = Some t ->
                     kwargs' !! "type" = Some (KType t)) /\
     (forall key, key <> "type" -> key <> "action" ->
                  kwargs' !! key = kwargs !! key)).
Proof.
  unfold add_argument_kwargs. split.
  - intros code.
    destruct (kwargs !! "type") as [[c| | |]|] eqn:Ht;
      try (split; [intros H; discriminate H | intros [H _]; discriminate H]).
    destruct (lookup_type c DBUS_TYPES) as [t|] eqn:Hl.
    + split; [intros H; discriminate H|]. intros [[= ->] H]. congruence.
    + split; [intros [= ->]; auto | intros [[= ->] _]; reflexivity].
  - intros kwargs'.
    destruct (kwargs !! "type") as [[c| | |]|] eqn:Ht.
    1: destruct (lookup_type c DBUS_TYPES) as [t|] eqn:Hl;
         [|intros H; discriminate H].
    all: intros [= <-]; repeat split; intros; simplify_map_eq; eauto;
         try congruence.
Qed.

Lemma run_actions_collect {A : Type} (fired : list (string * A)) :
  forall (ns : gmap string (attr A)) (l : list A),
    ns !! "method_args" = Some (Items l) ->
    Forall (fun a => fst a <> "method_args") fired ->
    exists ns',
      run_actions fired ns = inr ns' /\
      ns' !! "method_args" = Some (Items (l ++ map snd fired)) /\
      (forall dest, dest <> "method_args" ->
         (forall v, ~ In (dest, v) fired) -> ns' !! dest = ns !! dest) /\
      (forall before after dest v,
         fired = (before ++ (dest, v) :: after)%list ->
         (forall v', ~ In (dest, v') after) ->
         ns' !! dest = Some (Item v)).
Proof.
  induction fired as [|[d0 v0] rest IH]; intros ns l Hl Hne.
  - exists ns. split; [reflexivity|]. split; [now rewrite app_nil_r|].
    split; [reflexivity|].
    intros before after dest v H. now destruct before.
  - apply Forall_cons in Hne. destruct Hne as [Hd0 Hne]. cbn in Hd0.
    cbn [run_actions]. unfold arg_action at 1. rewrite Hl.
    set (ns1 := <[d0 := Item v0]>
                  (<["method_args" := Items (l ++ [v0])]> ns)).
    assert (Hl1 : ns1 !! "method_args" = Some (Items (l ++ [v0]))).
    { subst ns1. rewrite lookup_insert_ne by exact Hd0.
      apply lookup_insert_eq. }
    destruct (IH ns1 (l ++ [v0])%list Hl1 Hne)
      as (ns' & Hrun & Hargs & Hkeep & Hlast).
    assert (Hkeep' : forall dest, dest <> "method_args" ->
              (forall v, ~ In (dest, v) ((d0, v0) :: rest)) ->
              ns' !! dest = ns !! dest).
    { intros dest Hdest Hno.
      rewrite Hkeep by (try exact Hdest; intros v Hin; apply (Hno v);
                        now right).
      subst ns1. rewrite !lookup_insert_ne; [reflexivity | congruence |].
      intros ->. apply (Hno v0). now left. }
    exists ns'. split; [exact Hrun|]. split.
    { rewrite Hargs. cbn [map snd]. now rewrite <- app_assoc. }
    split; [exact Hkeep'|].
    intros before after dest v Heq Hno.
    destruct before as [|b before].
    + assert (Hsame : dest = d0 /\ v = v0 /\ after = rest)
        by (cbn in Heq; simplify_eq; auto).
      destruct Hsame as (-> & -> & ->).
      rewrite Hkeep by (try exact Hd0; exact Hno).
      subst ns1. apply lookup_insert_eq.
    + assert (Hrest : rest = (before ++ (dest, v) :: after)%list)
        by (cbn in Heq; simplify_eq; reflexivity).
      now apply (Hlast before after).
Qed.

(** X20. On a namespace that has the list [method_args], and as long as
    no argument is itself called [method_args], the actions of a command
    line collect the converted values in [method_args] in the order in
    which they fire, after what the list held before; an argument given
    twice is collected twice, while its attribute keeps the last value.
    On a namespace without [method_args] the first action raises
    [AttributeError].  An argument called [method_args] replaces the
    list by its value, and the next action raises [AttributeError]. *)
Theorem actions_collect_in_order {A : Type}
    (fired : list (string * A)) (ns : gmap string (attr A)) :
  (forall l,
     ns !! "method_args" = Some (Items l) ->
     Forall (fun a => fst a <> "method_args") fired ->
     exists ns',
       run_actions fired ns = inr ns' /\
       ns' !! "method_args" = Some (Items (l ++ map snd fired)) /\
       (forall before after dest v,
          fired = (before ++ (dest, v) :: after)%list ->
          (forall v', ~ In (dest, v') after) ->
          ns' !! dest = Some (Item v)) /\
       (forall dest, dest <> "method_args" ->
          (forall v, ~ In (dest, v) fired) -> ns' !! dest = ns !! dest)) /\
  (ns !! "method_args" = None ->
   forall dest v rest,
     run_actions ((dest, v) :: rest) ns = inl NoMethodArgs) /\
  (forall l v,
     ns !! "method_args" = Some (Items l) ->
     exists ns',
       arg_action "method_args" v ns = inr ns' /\
       ns' !! "method_args" = Some (Item v) /\
       forall dest v' rest,
         run_actions ((dest, v') :: rest) ns' = inl NoAppend).
Proof.
  split; [|split].
  - intros l Hl Hne.
    destruct (run_actions_collect fired ns l Hl Hne)
      as (ns' & Hrun & Hargs & Hkeep & Hlast).
    exists ns'. split; [exact Hrun|]. split; [exact Hargs|].
    split; [exact Hlast | exact Hkeep].
  - intros Hno dest v rest. cbn [run_actions]. unfold arg_action.
    now rewrite Hno.
  - intros l v Hl. unfold arg_action at 1. rewrite Hl.
    eexists. split; [reflexivity|].
    assert (Hv : <["method_args" := Item v]>
                   (<["method_args" := Items (l ++ [v])]> ns)
                   !! "method_args" = Some (Item v))
      by apply lookup_insert_eq.
    split; [exact Hv|].
    intros dest v' rest. cbn [run_actions]. unfold arg_action.
    now rewrite Hv.
Qed.

End ArgumentActions.

(* ===================================================================== *)
(** ** soundctld: the option --outputs and the cycle of the outputs       *)
(* ===================================================================== *)

Section MixerList.

Lemma split_nonempty (sep : ascii) (s : string) : PyText.split sep s <> [].
Proof.
  destruct s as [|c s]; cbn; [discriminate|].
  destruct (Ascii.eqb c sep); [discriminate|].
  destruct (PyText.split sep s); discriminate.
Qed.

Lemma join_cons (sep piece : string) (rest : list string) :
  rest <> [] ->
  PyText.join sep (piece :: rest) = piece +:+ sep +:+ PyText.join sep rest.
Proof. destruct rest; [congruence | reflexivity]. Qed.

(** X21. [mixer_list] cuts the option at every colon: it never returns
    the empty list (the empty text gives one empty name), no name
    contains a colon, there is one name more than there are colons, and
    joining the names with colons gives the option back. *)
Theorem mixer_list_splits_at_colons (argument : string) :
  mixer_list argument <> [] /\
  (forall name, In name (mixer_list argument) ->
     forallb (fun c => negb (Ascii.eqb c ":")) (list_ascii_of_string name)
     = true) /\
  length (mixer_list argument)
  = S (length (List.filter (fun c => Ascii.eqb c ":")
                 (list_ascii_of_string argument))) /\
  PyText.join ":" (mixer_list argument) = argument.
Proof.
  unfold mixer_list. split; [apply split_nonempty|].
  induction argument as [|c s (IH1 & IH2 & IH3)].
  - cbn. repeat split. intros name [<- | []]. reflexivity.
  - cbn [PyText.split list_ascii_of_string List.filter].
    pose proof (split_nonempty ":" s) as Hne.
    destruct (Ascii.eqb c ":") eqn:Hc.
    + split; [|split].
      * intros name [<- | Hin]; [reflexivity | now apply IH1].
      * cbn. now rewrite IH2.
      * rewrite join_cons by assumption. rewrite IH3.
        apply Ascii.eqb_eq in Hc. subst c. reflexivity.
    + destruct (PyText.split ":" s) as [|piece pieces] eqn:Hs; [congruence|].
      split; [|split].
      * intros name [<- | Hin].
        -- cbn. rewrite Hc. cbn. apply IH1. now left.
        -- apply IH1. now right.
      * exact IH2.
      * destruct pieces as [|p ps].
        -- cbn in IH3 |- *. now rewrite IH3.
        -- rewrite join_cons in IH3 |- * by discriminate.
           rewrite append_cons. now rewrite IH3.
Qed.

End MixerList.

Section Cycle.

Variable reply : nat -> option Z.

Local Open Scope sound_scope.

Lemma is_active_there (s : sound) (o : string) :
  is_Some (mixers s !! o) ->
  is_active o s = (inr (active_in (mixers s) o), s).
Proof.
  intros [flags H]. unfold is_active, sbind, getmute, active_in.
  now rewrite H.
Qed.

Lemma is_active_missing (s : sound) (o : string) :
  mixers s !! o = None -> is_active o s = (inl (ALSAAudioError o), s).
Proof.
  intros H. unfold is_active, sbind, getmute. now rewrite H.
Qed.

Lemma index_from_active (outputs : list string) (s : sound) :
  Forall (fun o => is_Some (mixers s !! o)) outputs ->
  forall idx,
    index_from idx outputs is_active s
    = (inr ((fun p => (idx + fst p)%nat)
              <$> list_find (fun o => active_in (mixers s) o = true) outputs),
       s).
Proof.
  induction 1 as [|o l Ho Hl IH]; intros idx; [reflexivity|].
  cbn [index_from]. unfold sbind at 1. rewrite (is_active_there s o Ho).
  cbn [list_find].
  destruct (active_in (mixers s) o) eqn:Ha.
  - rewrite decide_True by reflexivity. cbn. now rewrite Nat.add_0_r.
  - rewrite decide_False by discriminate. rewrite IH.
    destruct (list_find _ l) as [[i x]|]; cbn; [|reflexivity].
    now rewrite Nat.add_succ_r.
Qed.

Lemma index_when_current (outputs : list string) (s : sound) :
  Forall (fun o => is_Some (mixers s !! o)) outputs ->
  index_when outputs is_active s = (inr (current (mixers s) outputs), s).
Proof.
  intros H. unfold index_when, current. rewrite (index_from_active _ _ H).
  destruct (list_find _ outputs) as [[i x]|]; reflexivity.
Qed.

Lemma keep_when_active (outputs : list string) (s : sound) :
  Forall (fun o => is_Some (mixers s !! o)) outputs ->
  keep_when outputs is_active s
  = (inr (List.filter (active_in (mixers s)) outputs), s).
Proof.
  induction 1 as [|o l Ho Hl IH]; [reflexivity|].
  cbn [keep_when List.filter]. unfold sbind at 1.
  rewrite (is_active_there s o Ho). unfold sbind at 1. rewrite IH.
  reflexivity.
Qed.

Lemma all_muted_inactive (n : nat) :
  existsb (fun mute => mute =? 0) (replicate n 1) = false.
Proof. induction n; [reflexivity | exact IHn]. Qed.

Lemma unmuted_active (n : nat) :
  n <> 0%nat -> existsb (fun mute => mute =? 0) (replicate n 0) = true.
Proof. destruct n; [congruence | reflexivity]. Qed.

(** The loop that mutes every output, when every output exists. *)
Lemma mute_all (outputs : list string) :
  forall s : sound,
    Forall (fun o => is_Some (mixers s !! o)) outputs ->
    exists m',
      for_each outputs (fun out => setmute out 1) s
      = (inr tt,
         mkSound m' (output_notif_id s) (sent s) (logged s) (nnotify s)) /\
      (forall o, In o outputs ->
         m' !! o = (fun f => replicate (length f) 1) <$> mixers s !! o) /\
      (forall o, ~ In o outputs -> m' !! o = mixers s !! o).
Proof.
  induction outputs as [|o l IH]; intros s Hall.
  - exists (mixers s). destruct s. cbn. repeat split. intros o [].
  - apply Forall_cons in Hall as [[f Hf] Hl].
    cbn [for_each]. unfold sbind at 1, setmute. rewrite Hf.
    set (s1 := mkSound _ _ _ _ _).
    destruct (IH s1) as (m' & Hrun & Hin & Hout).
    { eapply Forall_impl; [exact Hl|]. intros x Hx. subst s1. cbn.
      destruct (decide (x = o)) as [-> | Hne].
      - rewrite lookup_insert_eq. eauto.
      - now rewrite lookup_insert_ne. }
    exists m'. split; [exact Hrun|]. subst s1. cbn in Hin, Hout.
    split.
    + intros x Hx. destruct (in_dec String.string_dec x l) as [Hxl | Hxl].
      * rewrite (Hin x Hxl). destruct (decide (x = o)) as [-> | Hne].
        -- rewrite lookup_insert_eq, Hf. cbn. now rewrite length_replicate.
        -- now rewrite lookup_insert_ne.
      * destruct Hx as [<- | Hx]; [|contradiction].
        rewrite (Hout o Hxl), lookup_insert_eq, Hf. reflexivity.
    + intros x Hx. rewrite Hout by (intros Hxl; apply Hx; now right).
      apply lookup_insert_ne. intros ->. apply Hx. now left.
Qed.

(** [notify_outputs] never raises and leaves the mixers alone. *)
Lemma notify_outputs_run (outputs : list string) (s : sound) :
  Forall (fun o => is_Some (mixers s !! o)) outputs ->
  let active := List.filter (active_in (mixers s)) outputs in
  let text := if (0 <? length active)%nat
              then PyText.join ", " active else "Mute" in
  notify_outputs reply outputs s
  = (inr tt,
     match reply (nnotify s) with
     | Some id =>
         mkSound (mixers s) id (sent s ++ [(output_notif_id s, text)])
                 (logged s) (S (nnotify s))
     | None =>
         mkSound (mixers s) (output_notif_id s) (sent s)
                 (logged s ++ [DBusException]) (S (nnotify s))
     end).
Proof.
  intros Hall active text.
  unfold notify_outputs, logging_failures. unfold sbind at 1.
  rewrite (keep_when_active outputs s Hall).
  unfold sbind, get_output_notif_id, notify, set_output_notif_id.
  fold active. fold text.
  destruct (reply (nnotify s)); reflexivity.
Qed.

Lemma following_lookup (outputs : list string) (turn : option nat) :
  following outputs turn
  = match outputs !! match turn with
                     | None => 0%nat
                     | Some i => (i + 1)%nat
                     end with
    | Some _ => Some (match turn with None => 0%nat | Some i => (i + 1)%nat end)
    | None => None
    end.
Proof.
  unfold following.
  destruct turn as [i|].
  - destruct (Nat.ltb_spec (i + 1) (length outputs)) as [Hlt | Hge].
    + apply lookup_lt_is_Some in Hlt as [x ->]. reflexivity.
    + apply lookup_ge_None in Hge. now rewrite Hge.
  - destruct (Nat.ltb_spec 0 (length outputs)) as [Hlt | Hge].
    + apply lookup_lt_is_Some in Hlt as [x ->]. reflexivity.
    + apply lookup_ge_None in Hge. now rewrite Hge.
Qed.

(** The mixers with which [cycle_outputs] goes on to notify, when every
    output exists. *)
Lemma cycle_run (outputs : list string) (s : sound) :
  Forall (fun o => is_Some (mixers s !! o)) outputs ->
  exists m'',
    cycle_outputs reply outputs s
    = notify_outputs reply outputs
        (mkSound m'' (output_notif_id s) (sent s) (logged s) (nnotify s)) /\
    Forall (fun o => is_Some (m'' !! o)) outputs /\
    (forall o, ~ In o outputs -> m'' !! o = mixers s !! o) /\
    (forall i o f,
       following outputs (current (mixers s) outputs) = Some i ->
       outputs !! i = Some o ->
       mixers s !! o = Some f ->
       m'' !! o = Some (replicate (length f) 0)) /\
    (forall o f,
       In o outputs ->
       mixers s !! o = Some f ->
       (forall i, following outputs (current (mixers s) outputs) = Some i ->
                  outputs !! i <> Some o) ->
       m'' !! o = Some (replicate (length f) 1)).
Proof.
  intros Hall.
  destruct (mute_all outputs s Hall) as (m' & Hrun & Hin & Hout).
  assert (Hall' : Forall (fun o => is_Some (m' !! o)) outputs).
  { apply Forall_forall. intros o Ho.
    rewrite (Hin o (proj1 (list_elem_of_In _ _) Ho)).
    rewrite Forall_forall in Hall. destruct (Hall o Ho) as [f ->]. cbn. eauto. }
  rewrite following_lookup.
  set (idx_next := match current (mixers s) outputs with
                   | None => 0%nat
                   | Some i => (i + 1)%nat
                   end).
  destruct (outputs !! idx_next) as [out|] eqn:Hnext.
  - assert (Hmem : In out outputs)
      by (apply list_elem_of_In; eapply list_elem_of_lookup_2; eauto).
    rewrite Forall_forall in Hall.
    destruct (Hall out (proj2 (list_elem_of_In _ _) Hmem)) as [fo Hfo].
    assert (Hm'out : m' !! out = Some (replicate (length fo) 1))
      by (rewrite (Hin out Hmem), Hfo; reflexivity).
    exists (<[out := replicate (length fo) 0]> m').
    split; [|split; [|split; [|split]]].
    + unfold cycle_outputs, logging_failures at 1.
      unfold sbind at 1.
      rewrite (index_when_current outputs s)
        by (now apply Forall_forall).
      fold idx_next. unfold sbind at 1. rewrite Hrun.
      unfold sbind at 1. rewrite Hnext. unfold setmute at 1. cbn [mixers].
      rewrite Hm'out, length_replicate.
      cbn [mixers output_notif_id sent logged nnotify].
      set (s2 := mkSound _ _ _ _ _).
      assert (H2 : Forall (fun o => is_Some (mixers s2 !! o)) outputs).
      { subst s2. cbn. eapply Forall_impl; [exact Hall'|]. intros x Hx.
        destruct (decide (x = out)) as [-> | Hne].
        - rewrite lookup_insert_eq. eauto.
        - now rewrite lookup_insert_ne. }
      pose proof (notify_outputs_run outputs s2 H2) as Hn. cbv zeta in Hn.
      rewrite Hn. reflexivity.
    + eapply Forall_impl; [exact Hall'|]. intros x Hx.
      destruct (decide (x = out)) as [-> | Hne].
      * rewrite lookup_insert_eq. eauto.
      * now rewrite lookup_insert_ne.
    + intros o Ho. rewrite lookup_insert_ne by (intros ->; contradiction).
      now apply Hout.
    + intros i o f [= <-] Hi Hf. rewrite Hnext in Hi. injection Hi as <-.
      rewrite lookup_insert_eq. congruence.
    + intros o f Ho Hf Hnot.
      rewrite lookup_insert_ne
        by (intros <-; apply (Hnot idx_next eq_refl); exact Hnext).
      rewrite (Hin o Ho), Hf. reflexivity.
  - exists m'. split; [|split; [|split; [|split]]].
    + unfold cycle_outputs, logging_failures at 1.
      unfold sbind at 1.
      rewrite (index_when_current outputs s) by assumption.
      fold idx_next. unfold sbind at 1. rewrite Hrun.
      unfold sbind at 1. rewrite Hnext. unfold sret at 1.
      set (s2 := mkSound _ _ _ _ _).
      pose proof (notify_outputs_run outputs s2 Hall') as Hn. cbv zeta in Hn.
      rewrite Hn. reflexivity.
    + exact Hall'.
    + exact Hout.
    + intros i o f H. discriminate H.
    + intros o f Ho Hf _. rewrite (Hin o Ho), Hf. reflexivity.
Qed.

(** The state after [cycle_outputs], when every output exists: only the
    mixers and what the notification changes. *)
Lemma cycle_state (outputs : list string) (s : sound) :
  Forall (fun o => is_Some (mixers s !! o)) outputs ->
  exists m'',
    fst (cycle_outputs reply outputs s) = inr tt /\
    mixers (snd (cycle_outputs reply outputs s)) = m'' /\
    nnotify (snd (cycle_outputs reply outputs s)) = S (nnotify s) /\
    (forall id, reply (nnotify s) = Some id ->
       output_notif_id (snd (cycle_outputs reply outputs s)) = id /\
       logged (snd (cycle_outputs reply outputs s)) = logged s /\
       sent (snd (cycle_outputs reply outputs s))
       = (sent s ++
            [(output_notif_id s,
              if (0 <? length (List.filter (active_in m'') outputs))%nat
              then PyText.join ", " (List.filter (active_in m'') outputs)
              else "Mute")])%list) /\
    (reply (nnotify s) = None ->
       output_notif_id (snd (cycle_outputs reply outputs s))
       = output_notif_id s /\
       logged (snd (cycle_outputs reply outputs s))
       = (logged s ++ [DBusException])%list /\
       sent (snd (cycle_outputs reply outputs s)) = sent s) /\
    Forall (fun o => is_Some (m'' !! o)) outputs /\
    (forall o, ~ In o outputs -> m'' !! o = mixers s !! o) /\
    (forall i o f,
       following outputs (current (mixers s) outputs) = Some i ->
       outputs !! i = Some o ->
       mixers s !! o = Some f ->
       m'' !! o = Some (replicate (length f) 0)) /\
    (forall o f,
       In o outputs ->
       mixers s !! o = Some f ->
       (forall i, following outputs (current (mixers s) outputs) = Some i ->
                  outputs !! i <> Some o) ->
       m'' !! o = Some (replicate (length f) 1)).
Proof.
  intros Hall.
  destruct (cycle_run outputs s Hall) as (m'' & Hrun & Hall'' & H1 & H2 & H3).
  exists m''. rewrite Hrun.
  set (s2 := mkSound m'' _ _ _ _).
  pose proof (notify_outputs_run outputs s2 Hall'') as Hn. cbv zeta in Hn.
  rewrite Hn. subst s2.
  cbn [fst snd mixers output_notif_id sent logged nnotify].
  split; [reflexivity|].
  split; [destruct (reply (nnotify s)); reflexivity|].
  split; [destruct (reply (nnotify s)); reflexivity|].
  split; [intros id ->; repeat split|].
  split; [intros ->; repeat split|].
  repeat split; assumption.
Qed.

(** X22. When every output mixer exists, [cycle_outputs] leaves at most
    one output active, the one whose turn follows that of the first
    output that was active; it raises nothing, does not touch a mixer
    that is not among the outputs, and changes the number of channels of
    none. *)
Theorem cycle_leaves_one_output_active (outputs : list string) (s : sound) :
  Forall (fun o => is_Some (mixers s !! o)) outputs ->
  fst (cycle_outputs reply outputs s) = inr tt /\
  (forall o, In o outputs ->
     active_in (mixers (snd (cycle_outputs reply outputs s))) o = true ->
     exists i, following outputs (current (mixers s) outputs) = Some i /\
               outputs !! i = Some o) /\
  (forall o, ~ In o outputs ->
     mixers (snd (cycle_outputs reply outputs s)) !! o = mixers s !! o) /\
  (forall o, length <$> mixers (snd (cycle_outputs reply outputs s)) !! o
             = length <$> mixers s !! o).
Proof.
  intros Hall.
  destruct (cycle_state outputs s Hall)
    as (m'' & Hok & Hm & _ & _ & _ & _ & Hout & Hturn & Hrest).
  rewrite Hm. split; [exact Hok|].
  assert (Hcases : forall o f, In o outputs -> mixers s !! o = Some f ->
            (exists i, following outputs (current (mixers s) outputs) = Some i
                       /\ outputs !! i = Some o) \/
            m'' !! o = Some (replicate (length f) 1)).
  { intros o f Ho Hf.
    destruct (following outputs (current (mixers s) outputs)) as [i|] eqn:Ht.
    - destruct (decide (outputs !! i = Some o)) as [Hi | Hi].
      + left. eauto.
      + right. apply Hrest; [assumption | assumption |].
        intros j [= <-]. exact Hi.
    - right. apply Hrest; [assumption | assumption |]. intros j Hj.
      discriminate Hj. }
  split; [|split].
  - intros o Ho Hact. rewrite Forall_forall in Hall.
    destruct (Hall o (proj2 (list_elem_of_In _ _) Ho)) as [f Hf].
    destruct (Hcases o f Ho Hf) as [Hyes | Hno]; [exact Hyes|].
    unfold active_in in Hact. rewrite Hno, all_muted_inactive in Hact.
    discriminate Hact.
  - exact Hout.
  - intros o. destruct (in_dec String.string_dec o outputs) as [Ho | Ho].
    + rewrite Forall_forall in Hall.
      destruct (Hall o (proj2 (list_elem_of_In _ _) Ho)) as [f Hf].
      rewrite Hf. destruct (Hcases o f Ho Hf) as [(i & Ht & Hi) | Hno].
      * rewrite (Hturn i o f Ht Hi Hf). cbn. now rewrite length_replicate.
      * rewrite Hno. cbn. now rewrite length_replicate.
    + now rewrite (Hout o Ho).
Qed.

Lemma playable_exists (m : gmap string (list Z)) (outputs : list string) :
  playable m outputs -> Forall (fun o => is_Some (m !! o)) outputs.
Proof.
  unfold playable. intros H. eapply Forall_impl; [exact H|].
  intros o (f & Hf & _). eauto.
Qed.

Lemma following_valid (outputs : list string) (turn : option nat) (i : nat) :
  following outputs turn = Some i -> (i < length outputs)%nat.
Proof.
  unfold following. destruct turn as [j|].
  - destruct (Nat.ltb_spec (j + 1) (length outputs)); intros [= <-]; lia.
  - destruct (Nat.ltb_spec 0 (length outputs)); intros [= <-]; lia.
Qed.

Lemma current_valid (m : gmap string (list Z)) (outputs : list string)
    (i : nat) :
  current m outputs = Some i -> (i < length outputs)%nat.
Proof.
  unfold current.
  destruct (list_find _ outputs) as [[j x]|] eqn:H; [|discriminate].
  intros [= <-]. apply list_find_Some in H as (Hj & _).
  eapply lookup_lt_Some; eauto.
Qed.

(** One call, on distinct playable outputs: the turn moves on. *)
Lemma cycle_advances (outputs : list string) (s : sound) :
  NoDup outputs ->
  playable (mixers s) outputs ->
  playable (mixers (cycled reply outputs s)) outputs /\
  current (mixers (cycled reply outputs s)) outputs
  = following outputs (current (mixers s) outputs) /\
  (forall o, In o outputs ->
     (active_in (mixers (cycled reply outputs s)) o = true <->
      exists i, following outputs (current (mixers s) outputs) = Some i /\
                outputs !! i = Some o)).
Proof.
  intros Hnd Hplay. unfold cycled.
  destruct (cycle_state outputs s (playable_exists _ _ Hplay))
    as (m'' & _ & Hm & _ & _ & _ & _ & Hout & Hturn & Hrest).
  rewrite Hm. clear Hm.
  unfold playable in Hplay. rewrite Forall_forall in Hplay.
  assert (Hon : forall i o,
             following outputs (current (mixers s) outputs) = Some i ->
             outputs !! i = Some o -> active_in m'' o = true).
  { intros i o Ht Hi.
    destruct (Hplay o (list_elem_of_lookup_2 _ _ _ Hi)) as (f & Hf & Hne).
    unfold active_in. rewrite (Hturn i o f Ht Hi Hf).
    apply unmuted_active. destruct f; [congruence | discriminate]. }
  assert (Hoff : forall o,
             In o outputs ->
             (forall i, following outputs (current (mixers s) outputs) = Some i ->
                        outputs !! i <> Some o) ->
             active_in m'' o = false).
  { intros o Ho Hno.
    destruct (Hplay o (proj2 (list_elem_of_In _ _) Ho)) as (f & Hf & _).
    unfold active_in. rewrite (Hrest o f Ho Hf Hno).
    apply all_muted_inactive. }
  split; [|split].
  - unfold playable. apply Forall_forall. intros o Ho.
    destruct (Hplay o Ho) as (f & Hf & Hne).
    apply list_elem_of_In in Ho.
    destruct (following outputs (current (mixers s) outputs)) as [i|] eqn:Ht.
    + destruct (decide (outputs !! i = Some o)) as [Hi | Hi].
      * exists (replicate (length f) 0). split; [now apply Hturn with i|].
        destruct f; [congruence | discriminate].
      * exists (replicate (length f) 1).
        split; [|destruct f; [congruence | discriminate]].
        apply Hrest; [assumption | assumption |]. intros j [= <-]. exact Hi.
    + exists (replicate (length f) 1).
      split; [|destruct f; [congruence | discriminate]].
      apply Hrest; [assumption | assumption |]. intros j Hj. discriminate Hj.
  - unfold current at 1.
    destruct (following outputs (current (mixers s) outputs)) as [i|] eqn:Ht.
    + pose proof (following_valid _ _ _ Ht) as Hlt.
      apply lookup_lt_is_Some in Hlt as [o Hi].
      assert (Hfind : list_find (fun o => active_in m'' o = true) outputs
                      = Some (i, o)).
      { apply list_find_Some. split; [exact Hi|].
        split; [now apply Hon with i|].
        intros j y Hj Hlt Hact.
        rewrite Hoff in Hact; [discriminate| |].
        - apply list_elem_of_In. eapply list_elem_of_lookup_2; eauto.
        - intros k [= <-] Hk.
          assert (j = i) by (eapply NoDup_lookup; eauto). lia. }
      now rewrite Hfind.
    + assert (Hfind : list_find (fun o => active_in m'' o = true) outputs
                      = None).
      { apply list_find_None. apply Forall_forall. intros o Ho Hact.
        rewrite Hoff in Hact; [discriminate| |].
        - now apply list_elem_of_In.
        - intros k Hk. discriminate Hk. }
      now rewrite Hfind.
  - intros o Ho. split.
    + intros Hact.
      destruct (following outputs (current (mixers s) outputs)) as [i|] eqn:Ht.
      * destruct (decide (outputs !! i = Some o)) as [Hi | Hi]; [eauto|].
        rewrite Hoff in Hact; [discriminate | assumption |].
        intros j [= <-]. exact Hi.
      * rewrite Hoff in Hact; [discriminate | assumption |].
        intros j Hj. discriminate Hj.
    + intros (i & Ht & Hi). now apply Hon with i.
Qed.

(** X23. On distinct outputs that all exist and have a channel,
    [cycle_outputs] moves the turn on by one: after the call the active
    output is the one that follows the output that was active first, the
    first output when none was active, and none when the last one was;
    exactly that output is active. *)
Theorem cycle_moves_to_the_next_output (outputs : list string) (s : sound) :
  NoDup outputs ->
  playable (mixers s) outputs ->
  current (mixers (cycled reply outputs s)) outputs
  = following outputs (current (mixers s) outputs) /\
  (forall o, In o outputs ->
     (active_in (mixers (cycled reply outputs s)) o = true <->
      exists i, following outputs (current (mixers s) outputs) = Some i /\
                outputs !! i = Some o)).
Proof.
  intros Hnd Hplay.
  now destruct (cycle_advances outputs s Hnd Hplay) as (_ & ?).
Qed.

Section Turns.

Variable outputs : list string.

Lemma following_from (k i : nat) :
  (i + k < length outputs)%nat ->
  Nat.iter k (following outputs) (Some i) = Some (i + k)%nat.
Proof.
  induction k as [|k IH]; intros Hlt.
  - cbn. now rewrite Nat.add_0_r.
  - rewrite Nat.iter_succ, IH by lia. unfold following.
    destruct (Nat.ltb_spec (i + k + 1) (length outputs)); [|lia].
    f_equal. lia.
Qed.

Lemma following_from_none (k : nat) :
  (k < length outputs)%nat ->
  Nat.iter (S k) (following outputs) None = Some k.
Proof.
  induction k as [|k IH]; intros Hlt.
  - rewrite Nat.iter_succ.
    change (Nat.iter 0 (following outputs) None) with (@None nat).
    unfold following.
    destruct (Nat.ltb_spec 0 (length outputs)); [reflexivity | lia].
  - rewrite Nat.iter_succ, IH by lia. unfold following.
    destruct (Nat.ltb_spec (k + 1) (length outputs)); [|lia].
    f_equal. lia.
Qed.

Lemma following_period (turn : option nat) :
  (forall i, turn = Some i -> (i < length outputs)%nat) ->
  Nat.iter (S (length outputs)) (following outputs) turn = turn.
Proof.
  intros Hvalid. destruct turn as [i|].
  - specialize (Hvalid i eq_refl).
    replace (S (length outputs)) with (S i + (length outputs - i))%nat by lia.
    rewrite Nat.iter_add.
    assert (Hend : Nat.iter (length outputs - i) (following outputs) (Some i)
                   = None).
    { replace (length outputs - i)%nat with (S (length outputs - i - 1))
        by lia.
      rewrite Nat.iter_succ, following_from by lia. unfold following.
      destruct (Nat.ltb_spec (i + (length outputs - i - 1) + 1)
                  (length outputs)); [lia | reflexivity]. }
    rewrite Hend. now apply following_from_none.
  - rewrite Nat.iter_succ. destruct (length outputs) as [|n] eqn:Hlen.
    + change (Nat.iter 0 (following outputs) None) with (@None nat).
      unfold following. now rewrite Hlen.
    + rewrite following_from_none by lia. unfold following.
      destruct (Nat.ltb_spec (n + 1) (length outputs)); [lia | reflexivity].
Qed.

End Turns.

(** X24. Called again and again on distinct playable outputs,
    [cycle_outputs] gives each output its turn and then a turn with
    every output muted: from the muted state the k-th output is the
    active one after k+1 calls, and after one call more than there are
    outputs the active output is the one it was at first. *)
Theorem cycle_gives_each_output_a_turn (outputs : list string) (s : sound) :
  NoDup outputs ->
  playable (mixers s) outputs ->
  (forall k,
     current (mixers (Nat.iter k (cycled reply outputs) s)) outputs
     = Nat.iter k (following outputs) (current (mixers s) outputs)) /\
  current (mixers (Nat.iter (S (length outputs)) (cycled reply outputs) s))
    outputs
  = current (mixers s) outputs /\
  (current (mixers s) outputs = None ->
   forall k, (k < length outputs)%nat ->
     current (mixers (Nat.iter (S k) (cycled reply outputs) s)) outputs
     = Some k).
Proof.
  intros Hnd Hplay.
  assert (Hiter : forall k,
             playable (mixers (Nat.iter k (cycled reply outputs) s)) outputs /\
             current (mixers (Nat.iter k (cycled reply outputs) s)) outputs
             = Nat.iter k (following outputs) (current (mixers s) outputs)).
  { induction k as [|k [IHp IHc]]; [split; [exact Hplay | reflexivity]|].
    rewrite !Nat.iter_succ.
    destruct (cycle_advances outputs _ Hnd IHp) as (Hp & Hc & _).
    split; [exact Hp|]. now rewrite Hc, IHc. }
  split; [intros k; apply Hiter|]. split.
  - rewrite (proj2 (Hiter _)). apply following_period.
    intros i. apply current_valid.
  - intros Hnone k Hk. rewrite (proj2 (Hiter _)), Hnone.
    now apply following_from_none.
Qed.

Lemma filter_none (P : string -> bool) (l : list string) :
  (forall x, In x l -> P x = false) -> List.filter P l = [].
Proof.
  induction l as [|y l IH]; intros HP; [reflexivity|].
  cbn. rewrite (HP y) by now left. apply IH. intros x Hx. apply HP. now right.
Qed.

Lemma filter_only (P : string -> bool) (o : string) (l : list string) :
  NoDup l -> In o l -> (forall x, In x l -> (P x = true <-> x = o)) ->
  List.filter P l = [o].
Proof.
  induction l as [|y l IH]; intros Hnd Hin HP; [destruct Hin|].
  apply NoDup_cons in Hnd as [Hy Hnd].
  cbn [List.filter]. destruct (P y) eqn:Hpy.
  - assert (Hyo : y = o) by (apply HP; [now left | exact Hpy]).
    f_equal; [exact Hyo|]. apply filter_none.
    intros x Hx. destruct (P x) eqn:Hpx; [|reflexivity].
    exfalso. apply Hy. apply list_elem_of_In.
    assert (Hxo : x = o) by (apply HP; [now right | exact Hpx]).
    congruence.
  - destruct Hin as [Hyo | Hin].
    + assert (Ht : P y = true) by (apply HP; [now left | exact Hyo]).
      congruence.
    + apply IH; [assumption | assumption |].
      intros x Hx. apply HP. now right.
Qed.

(** X25. What [cycle_outputs] notifies, on distinct playable outputs:
    when the notification daemon answers, one notification is issued,
    which replaces the previous one of the service and whose summary is
    the name of the output that is now active, or "Mute" when none is,
    and the id of the answer is kept for the next time; when the call
    on the bus fails, the exception is logged, nothing is issued and
    the kept id is unchanged, but the outputs have moved on all the
    same. *)
Theorem cycle_notifies_the_active_output (outputs : list string) (s : sound) :
  NoDup outputs ->
  playable (mixers s) outputs ->
  (forall id, reply (nnotify s) = Some id ->
     sent (cycled reply outputs s)
     = (sent s ++
          [(output_notif_id s,
            match following outputs (current (mixers s) outputs) with
            | Some i => default "" (outputs !! i)
            | None => "Mute"
            end)])%list /\
     output_notif_id (cycled reply outputs s) = id /\
     logged (cycled reply outputs s) = logged s) /\
  (reply (nnotify s) = None ->
     sent (cycled reply outputs s) = sent s /\
     output_notif_id (cycled reply outputs s) = output_notif_id s /\
     logged (cycled reply outputs s) = (logged s ++ [DBusException])%list /\
     current (mixers (cycled reply outputs s)) outputs
     = following outputs (current (mixers s) outputs)).
Proof.
  intros Hnd Hplay.
  destruct (cycle_advances outputs s Hnd Hplay) as (_ & Hcur & Hact).
  unfold cycled in *.
  destruct (cycle_state outputs s (playable_exists _ _ Hplay))
    as (m'' & _ & Hm & _ & Hyes & Hno & _).
  rewrite Hm in Hcur, Hact. split.
  - intros id Hid. destruct (Hyes id Hid) as (Hi & Hl & Hs).
    rewrite Hs, Hi, Hl. repeat split. do 3 f_equal.
    destruct (following outputs (current (mixers s) outputs)) as [i|] eqn:Ht.
    + pose proof (following_valid _ _ _ Ht) as Hlt.
      apply lookup_lt_is_Some in Hlt as [o Ho]. rewrite Ho. cbn.
      rewrite (filter_only (active_in m'') o outputs);
        [reflexivity | exact Hnd | |].
      * apply list_elem_of_In. eapply list_elem_of_lookup_2; eauto.
      * intros x Hx. rewrite (Hact x Hx). split.
        -- intros (j & [= <-] & Hj). congruence.
        -- intros ->. eauto.
    + rewrite filter_none; [reflexivity|].
      intros x Hx. destruct (active_in m'' x) eqn:Hax; [|reflexivity].
      apply (Hact x Hx) in Hax as (j & Hj & _). discriminate Hj.
  - intros Hnone. destruct (Hno Hnone) as (Hi & Hl & Hs).
    rewrite Hs, Hi, Hl, Hm. repeat split. exact Hcur.
Qed.

Lemma index_from_state (outputs : list string) (s : sound) :
  forall idx,
    snd (index_from idx outputs is_active s) = s /\
    (forall e, fst (index_from idx outputs is_active s) = inl e ->
               exists o, e = ALSAAudioError o /\ mixers s !! o = None).
Proof.
  induction outputs as [|o l IH]; intros idx.
  - split; [reflexivity|]. intros e H. discriminate H.
  - cbn [index_from]. unfold sbind at 1 2.
    destruct (mixers s !! o) as [f|] eqn:Hf.
    + rewrite (is_active_there s o) by eauto.
      destruct (active_in (mixers s) o).
      * split; [reflexivity|]. intros e H. discriminate H.
      * apply IH.
    + rewrite (is_active_missing s o Hf). split; [reflexivity|].
      intros e [= <-]. eauto.
Qed.

Lemma mute_cons_there (o : string) (l : list string) (s : sound)
    (f : list Z) :
  mixers s !! o = Some f ->
  for_each (o :: l) (fun out => setmute out 1) s
  = for_each l (fun out => setmute out 1)
      (mkSound (<[o := replicate (length f) 1]> (mixers s))
               (output_notif_id s) (sent s) (logged s) (nnotify s)).
Proof.
  intros Hf. cbn [for_each]. unfold sbind, setmute at 1. now rewrite Hf.
Qed.

Lemma mute_cons_missing (o : string) (l : list string) (s : sound) :
  mixers s !! o = None ->
  for_each (o :: l) (fun out => setmute out 1) s
  = (inl (ALSAAudioError o), s).
Proof.
  intros Hf. cbn [for_each]. unfold sbind, setmute at 1. now rewrite Hf.
Qed.

(** The muting loop on any outputs: it only mutes, and stops at the
    first output that does not exist. *)
Lemma mute_only (outputs : list string) :
  forall s : sound,
  exists m',
    snd (for_each outputs (fun out => setmute out 1) s)
    = mkSound m' (output_notif_id s) (sent s) (logged s) (nnotify s) /\
    (forall x, active_in m' x = true -> active_in (mixers s) x = true) /\
    (forall x, m' !! x = None <-> mixers s !! x = None) /\
    (forall e,
       fst (for_each outputs (fun out => setmute out 1) s) = inl e ->
       exists o, e = ALSAAudioError o /\ mixers s !! o = None) /\
    ((exists o, In o outputs /\ mixers s !! o = None) ->
     exists e, fst (for_each outputs (fun out => setmute out 1) s) = inl e).
Proof.
  induction outputs as [|o l IH]; intros s.
  - exists (mixers s). destruct s. cbn. repeat split; auto.
    + intros e H. discriminate H.
    + intros (o & [] & _).
  - destruct (mixers s !! o) as [f|] eqn:Hf.
    + rewrite (mute_cons_there o l s f Hf).
      set (s1 := mkSound _ _ _ _ _).
      destruct (IH s1) as (m' & Hs & Hact & Hdom & Herr & Hmiss).
      exists m'. subst s1. cbn in Hs, Hact, Hdom, Herr, Hmiss.
      split; [exact Hs|]. split; [|split; [|split]].
      * intros x Hx. apply Hact in Hx. unfold active_in in Hx |- *.
        destruct (decide (x = o)) as [-> | Hne].
        -- rewrite lookup_insert_eq, all_muted_inactive in Hx. discriminate Hx.
        -- now rewrite lookup_insert_ne in Hx.
      * intros x. rewrite Hdom. destruct (decide (x = o)) as [-> | Hne].
        -- rewrite lookup_insert_eq, Hf. split; intros H; discriminate H.
        -- now rewrite lookup_insert_ne.
      * intros e He. destruct (Herr e He) as (o' & -> & Ho').
        exists o'. split; [reflexivity|].
        destruct (decide (o' = o)) as [-> | Hne].
        -- rewrite lookup_insert_eq in Ho'. discriminate Ho'.
        -- now rewrite lookup_insert_ne in Ho'.
      * intros (o' & Hin & Ho'). apply Hmiss. exists o'.
        destruct Hin as [<- | Hin]; [congruence|].
        split; [exact Hin|].
        rewrite lookup_insert_ne; [exact Ho' | congruence].
    + rewrite (mute_cons_missing o l s Hf).
      exists (mixers s). destruct s. cbn in *.
      split; [reflexivity|]. split; [auto|]. split; [reflexivity|].
      split; [intros e [= <-]; eauto | eauto].
Qed.

Lemma sbind_raises {A B} (m : SM A) (k : A -> SM B) (s s' : sound)
    (e : sound_exn) :
  m s = (inl e, s') -> sbind m k s = (inl e, s').
Proof. intros H. unfold sbind. now rewrite H. Qed.

Lemma sbind_returns {A B} (m : SM A) (k : A -> SM B) (s s' : sound)
    (a : A) :
  m s = (inr a, s') -> sbind m k s = k a s'.
Proof. intros H. unfold sbind. now rewrite H. Qed.

Lemma cycle_stopped (outputs : list string) (s : sound) :
  (exists o, In o outputs /\ mixers s !! o = None) ->
  exists o m',
    cycle_outputs reply outputs s
    = (inr tt, mkSound m' (output_notif_id s) (sent s)
                 (logged s ++ [ALSAAudioError o]) (nnotify s)) /\
    mixers s !! o = None /\
    (forall x, active_in m' x = true -> active_in (mixers s) x = true).
Proof.
  intros Hmiss. unfold cycle_outputs, logging_failures, index_when.
  destruct (index_from_state outputs s 0) as (Hst & Herr).
  destruct (index_from 0 outputs is_active s) as [[e|r] s0] eqn:Hidx;
    cbn [fst snd] in Hst, Herr; subst s0.
  - destruct (Herr e eq_refl) as (o & -> & Ho).
    rewrite (sbind_raises _ _ _ _ _ Hidx).
    exists o, (mixers s). auto.
  - clear Herr. rewrite (sbind_returns _ _ _ _ _ Hidx). cbv zeta.
    destruct (mute_only outputs s) as (m' & Hs & Hact & _ & Herr & Hm).
    destruct (Hm Hmiss) as (e & He).
    destruct (for_each outputs (fun out => setmute out 1) s)
      as [[e'|[]] s1] eqn:Hmute;
      cbn [fst snd] in Hs, Herr, He; [|discriminate He].
    injection He as ->. subst s1.
    destruct (Herr e eq_refl) as (o & -> & Ho).
    rewrite (sbind_raises _ _ _ _ _ Hmute).
    exists o, m'. cbn. auto.
Qed.

(** X26. An output that does not exist breaks the cycle: when some
    configured output is not an ALSA mixer, [cycle_outputs] raises
    nothing but logs the ALSA error, issues no notification and
    activates nothing: an output that is active afterwards was active
    before. *)
Theorem cycle_with_a_missing_output (outputs : list string) (s : sound) :
  (exists o, In o outputs /\ mixers s !! o = None) ->
  fst (cycle_outputs reply outputs s) = inr tt /\
  (forall x, active_in (mixers (cycled reply outputs s)) x = true ->
             active_in (mixers s) x = true) /\
  sent (cycled reply outputs s) = sent s /\
  output_notif_id (cycled reply outputs s) = output_notif_id s /\
  nnotify (cycled reply outputs s) = nnotify s /\
  exists o, logged (cycled reply outputs s)
            = (logged s ++ [ALSAAudioError o])%list /\
            mixers s !! o = None.
Proof.
  intros Hmiss. unfold cycled.
  destruct (cycle_stopped outputs s Hmiss) as (o & m' & -> & Ho & Hact).
  cbn [fst snd mixers sent output_notif_id nnotify logged].
  split; [reflexivity|]. split; [exact Hact|].
  split; [reflexivity|]. split; [reflexivity|]. split; [reflexivity|].
  exists o. split; [reflexivity | exact Ho].
Qed.

End Cycle.

Section IndexWhen.

Context {A : Type}.
Variables (condition : A -> SM bool) (s : sound).

Local Open Scope sound_scope.

Lemma index_from_split (before after : list A) (a : A) :
  (forall x, In x before -> condition x s = (inr false, s)) ->
  forall idx,
    index_from idx (before ++ a :: after) condition s
    = match condition a s with
      | (inr true, s') => (inr (Some (idx + length before)%nat), s')
      | (inr false, s') =>
          index_from (S (idx + length before)) after condition s'
      | (inl e, s') => (inl e, s')
      end.
Proof.
  induction before as [|b l IH]; intros Hno idx.
  - cbn [app length index_from]. unfold sbind. rewrite Nat.add_0_r.
    destruct (condition a s) as [[e|[]] s']; reflexivity.
  - cbn [app length index_from]. unfold sbind at 1.
    rewrite (Hno b) by now left.
    rewrite IH by (intros x Hx; apply Hno; now right).
    replace (S idx + length l)%nat with (idx + S (length l))%nat by lia.
    reflexivity.
Qed.

(** X27. [index_when] returns the index of the first element on which
    the condition holds and looks no further: whatever follows that
    element, and whatever the condition would do there, plays no part.
    An exception of the condition on the first element that is not
    rejected is raised as it is, and when every element is rejected the
    result is [None]. *)
Theorem index_when_stops_at_the_first_match
    (before after : list A) (a : A) :
  (forall x, In x before -> condition x s = (inr false, s)) ->
  (condition a s = (inr true, s) ->
   index_when (before ++ a :: after) condition s
   = (inr (Some (length before)), s)) /\
  (forall e s', condition a s = (inl e, s') ->
   index_when (before ++ a :: after) condition s = (inl e, s')) /\
  index_when before condition s = (inr None, s).
Proof.
  intros Hno. unfold index_when. split; [|split].
  - intros Ha. now rewrite (index_from_split before after a Hno), Ha.
  - intros e s' Ha. now rewrite (index_from_split before after a Hno), Ha.
  - clear a after. generalize 0%nat.
    induction before as [|b l IH]; intros idx; [reflexivity|].
    cbn [index_from]. unfold sbind at 1. rewrite (Hno b) by now left.
    apply IH. intros x Hx. apply Hno. now right.
Qed.

End IndexWhen.

(* ===================================================================== *)
(** ** The further properties on the scenarios                            *)
(* ===================================================================== *)

Import Cases.

Lemma restart_starts_after_stop_witness :
  exists w1,
    stop gone 5 soundctld stale = Ok tt w1 /\
    restart gone worker 5 soundctld tt stale
    = (daemonize gone soundctld ;; worker tt)%prog
        (log (EvRead (pidfile soundctld)) w1).
Proof.
  assert (H1 : fs stale !! pidfile_at soundctld stale
               = Some ("4242" +:+ newline)) by (vm_compute; reflexivity).
  assert (H2 : Py.int (Py.strip ("4242" +:+ newline)) = Some 4242)
    by (vm_compute; reflexivity).
  assert (H3 : 4242 <> 0) by lia.
  assert (H4 : pid_t_ok 4242 = true) by reflexivity.
  assert (H5 : kill_oracle gone (nkills stale) = KillFail ESRCH)
    by reflexivity.
  destruct (stop_gone_at_once gone soundctld 4 stale _ 4242 H1 H2 H3 H4 H5)
    as (w1 & Hs & _).
  exists w1. split; [exact Hs|].
  exact (proj1 (restart_starts_after_stop gone worker soundctld 5 tt stale)
           w1 Hs).
Defined.

Lemma restart_replaces_stale_pidfile_witness :
  fs stale !! pidfile_at soundctld stale = Some ("4242" +:+ newline) /\
  Py.int (Py.strip ("4242" +:+ newline)) = Some 4242 /\
  4242 <> 0 /\
  pid_t_ok 4242 = true /\
  kill_oracle gone (nkills stale) = KillFail ESRCH /\
  fork_oracle gone (nforks stale) = ForkChild 1001 /\
  fork_oracle gone (S (nforks stale)) = ForkChild 1002 /\
  exists w',
    restart gone worker 5 soundctld tt stale = worker tt w' /\
    fs w' !! pidfile_at soundctld w' = Some ("1002" +:+ newline) /\
    self_pid w' = 1002.
Proof.
  assert (H1 : fs stale !! pidfile_at soundctld stale
               = Some ("4242" +:+ newline)) by (vm_compute; reflexivity).
  assert (H2 : Py.int (Py.strip ("4242" +:+ newline)) = Some 4242)
    by (vm_compute; reflexivity).
  assert (H3 : 4242 <> 0) by lia.
  assert (H4 : pid_t_ok 4242 = true) by reflexivity.
  assert (H5 : kill_oracle gone (nkills stale) = KillFail ESRCH)
    by reflexivity.
  assert (H6 : fork_oracle gone (nforks stale) = ForkChild 1001)
    by reflexivity.
  assert (H7 : fork_oracle gone (S (nforks stale)) = ForkChild 1002)
    by reflexivity.
  given.
  destruct (restart_replaces_stale_pidfile gone worker soundctld 4 tt stale
              _ 4242 1001 1002 H1 H2 H3 H4 H5 H6 H7)
    as (w' & Hr & _ & Hf & Hp & _).
  exists w'. given. exact Hp.
Defined.

Lemma second_start_is_refused_witness :
  nothing_recorded soundctld clean /\
  fork_oracle detach (nforks clean) = ForkChild 1001 /\
  fork_oracle detach (S (nforks clean)) = ForkChild 1002 /\
  exists w',
    start detach worker soundctld tt clean = worker tt w' /\
    start invoker worker soundctld tt (later (fs w'))
    = Raise (SystemExit 1)
        (log (EvStderr (already_running soundctld))
           (log (EvRead (pidfile soundctld)) (later (fs w')))).
Proof.
  assert (H1 : nothing_recorded soundctld clean) by (vm_compute; exact I).
  assert (H2 : fork_oracle detach (nforks clean) = ForkChild 1001)
    by reflexivity.
  assert (H3 : fork_oracle detach (S (nforks clean)) = ForkChild 1002)
    by reflexivity.
  given.
  destruct (second_start_is_refused detach worker soundctld tt clean
              1001 1002 H1 H2 H3) as (w' & Hr & Hall).
  exists w'. split; [exact Hr|].
  apply Hall; reflexivity.
Defined.

Lemma relative_pidfile_is_not_seen_witness :
  pidfile_at relative clean <> resolve "/" (pidfile relative) /\
  fs clean !! pidfile_at relative clean = None /\
  fork_oracle detach (nforks clean) = ForkChild 1001 /\
  fork_oracle detach (S (nforks clean)) = ForkChild 1002 /\
  exists w',
    start detach worker relative tt clean = worker tt w' /\
    fs w' !! pidfile_at relative w' = Some ("1002" +:+ newline) /\
    fs w' !! pidfile_at relative clean = None /\
    stop detach 5 relative (later (fs w'))
    = Ok tt (log (EvStderr (not_running relative))
               (log (EvRead (pidfile relative)) (later (fs w')))).
Proof.
  assert (H1 : pidfile_at relative clean <> resolve "/" (pidfile relative))
    by (vm_compute; discriminate).
  assert (H4 : fs clean !! pidfile_at relative clean = None)
    by (vm_compute; reflexivity).
  assert (H5 : fork_oracle detach (nforks clean) = ForkChild 1001)
    by reflexivity.
  assert (H6 : fork_oracle detach (S (nforks clean)) = ForkChild 1002)
    by reflexivity.
  given.
  destruct (relative_pidfile_is_not_seen detach worker relative tt clean
              1001 1002 H1 H4 H5 H6) as (w' & Hr & Hf & Hn & Hall).
  exists w'. given.
  exact (proj2 (Hall detach worker tt 5%nat (later (fs w'))
                  eq_refl eq_refl)).
Defined.

Lemma out_of_range_pid_wedges_witness :
  fs huge !! pidfile_at soundctld huge = Some ("99999999999" +:+ newline) /\
  Py.int (Py.strip ("99999999999" +:+ newline)) = Some 99999999999 /\
  pid_t_ok 99999999999 = false /\
  stop detach 5 soundctld huge
  = Raise OverflowError (log (EvRead (pidfile soundctld)) huge) /\
  start detach worker soundctld tt huge
  = Raise (SystemExit 1)
      (log (EvStderr (already_running soundctld))
         (log (EvRead (pidfile soundctld)) huge)).
Proof.
  assert (H1 : fs huge !! pidfile_at soundctld huge
               = Some ("99999999999" +:+ newline))
    by (vm_compute; reflexivity).
  assert (H2 : Py.int (Py.strip ("99999999999" +:+ newline))
               = Some 99999999999) by (vm_compute; reflexivity).
  assert (H3 : pid_t_ok 99999999999 = false) by reflexivity.
  given.
  destruct (out_of_range_pid_wedges detach worker soundctld 4 tt huge
              _ 99999999999 H1 H2 H3) as (Hs & Hst & _).
  split; assumption.
Defined.

Lemma stop_signals_the_started_daemon_witness :
  nothing_recorded soundctld clean /\
  fork_oracle detach (nforks clean) = ForkChild 1001 /\
  fork_oracle detach (S (nforks clean)) = ForkChild 1002 /\
  pid_t_ok 1002 = true /\
  exists w',
    start detach worker soundctld tt clean = worker tt w' /\
    (forall i, (i < 2)%nat ->
       kill_oracle detach (nkills (later (fs w')) + i) = KillOk) /\
    kill_oracle detach (nkills (later (fs w')) + 2) = KillFail ESRCH /\
    (2 < 5)%nat /\
    exists v',
      stop detach 5 soundctld (later (fs w')) = Ok tt v' /\
      List.filter is_kill (trace v')
      = [EvKill 1002 SIGTERM KillOk; EvKill 1002 SIGTERM KillOk;
         EvKill 1002 SIGTERM (KillFail ESRCH)] /\
      fs v' !! key = None.
Proof.
  assert (H1 : nothing_recorded soundctld clean) by (vm_compute; exact I).
  assert (H2 : fork_oracle detach (nforks clean) = ForkChild 1001)
    by reflexivity.
  assert (H3 : fork_oracle detach (S (nforks clean)) = ForkChild 1002)
    by reflexivity.
  assert (H4 : pid_t_ok 1002 = true) by reflexivity.
  given.
  destruct (stop_signals_the_started_daemon detach worker soundctld tt clean
              1001 1002 H1 H2 H3 H4) as (w' & Hr & _ & Hall).
  exists w'. split; [exact Hr|].
  assert (H5 : forall i, (i < 2)%nat ->
             kill_oracle detach (nkills (later (fs w')) + i) = KillOk).
  { intros [|[|i]] Hi; [reflexivity | reflexivity | lia]. }
  assert (H6 : kill_oracle detach (nkills (later (fs w')) + 2)
               = KillFail ESRCH) by reflexivity.
  assert (H7 : (2 < 5)%nat) by lia.
  given.
  destruct (Hall detach 5%nat 2%nat (later (fs w')) eq_refl eq_refl H5 H6 H7)
    as (v' & Hs & Ht & Hf).
  exists v'. split; [exact Hs|]. split; [exact Ht | exact Hf].
Defined.

Lemma exit_removes_the_registered_pidfiles_only_witness :
  In (Delpid soundctld) (atexit started) /\
  fs started !! pidfile_at soundctld started = Some ("1002" +:+ newline) /\
  fs (at_exit started) !! pidfile_at soundctld started = None /\
  ~ registered started "/etc/motd" /\
  fs (at_exit started) !! "/etc/motd" = fs started !! "/etc/motd".
Proof.
  assert (H1 : In (Delpid soundctld) (atexit started))
    by (vm_compute; left; reflexivity).
  assert (H2 : fs started !! pidfile_at soundctld started
               = Some ("1002" +:+ newline)) by (vm_compute; reflexivity).
  assert (H3 : ~ registered started "/etc/motd").
  { intros (d & Hin & Hk). vm_compute in Hin.
    destruct Hin as [[= <-] | []]. vm_compute in Hk. discriminate Hk. }
  destruct (exit_removes_the_registered_pidfiles_only started) as (Ha & Hb).
  given. split; [exact (Ha soundctld H1)|]. given. exact (Hb _ H3).
Defined.

Lemma main_detaches_on_start_only_witness :
  cli_command stop_line <> Some "start" /\
  cli_command stop_line <> Some "restart" /\
  cli_command stop_line <> Some "test" /\
  nforks (world_of (main detach cli_pidfile cli_command served (ret tt)
                      "usage: soundctld" 5 relative stop_line stale))
  = nforks stale /\
  atexit (world_of (main detach cli_pidfile cli_command served (ret tt)
                      "usage: soundctld" 5 relative stop_line stale))
  = atexit stale.
Proof.
  assert (H1 : cli_command stop_line <> Some "start") by discriminate.
  assert (H2 : cli_command stop_line <> Some "restart") by discriminate.
  assert (H3 : cli_command stop_line <> Some "test") by discriminate.
  given.
  destruct (main_detaches_on_start_only detach cli_pidfile cli_command
              served (ret tt) "usage: soundctld" 5 relative stop_line stale
              H1 H2 H3) as (Ha & _ & _ & Hb & _).
  split; assumption.
Defined.

Lemma verifying_checks_before_converting_witness :
  negb (String.eqb "" "") = false /\
  verifying str_of_str Py.str int_cast
    (Some (fun text => negb (String.eqb text ""))) None None None None ""
  = Rejected ValueErrorClass
      "value  did not satisfy constraints for being converted.".
Proof.
  assert (H1 : negb (String.eqb "" "") = false) by reflexivity.
  given.
  exact (proj1 (verifying_checks_before_converting str_of_str Py.str
                  int_cast (fun text => negb (String.eqb text ""))
                  None None None "" H1) int_cast).
Defined.

Lemma validating_is_verifying_witness :
  "not a step: {value}" <> "" /\
  validating Py.str int_cast (fun n => 0 <? n) "not a step: {value}" "0"
  = verifying str_of_str Py.str int_cast None None
      (Some (fun n => 0 <? n)) (Some "not a step: {value}")
      (Some ArgumentTypeErrorClass) "0".
Proof.
  assert (H1 : "not a step: {value}" <> "") by discriminate.
  given.
  exact (proj1 (validating_is_verifying str_of_str Py.str int_cast
                  (fun n => 0 <? n) "not a step: {value}" "0") H1).
Defined.

Lemma percentage_accepts_0_to_100_witness :
  0 <= 50 <= 100 /\ percentage (Py.str 50) = Converted 50 /\
  Py.int "150" = Some 150 /\ ~ (0 <= 150 <= 100) /\
  percentage "150"
  = Rejected ArgumentTypeErrorClass "Value 150 out of bounds [0, 100]".
Proof.
  assert (H1 : 0 <= 50 <= 100) by lia.
  assert (H2 : Py.int "150" = Some 150) by (vm_compute; reflexivity).
  assert (H3 : ~ (0 <= 150 <= 100)) by lia.
  split; [exact H1|].
  split; [exact (proj1 (proj2 (percentage_accepts_0_to_100 "")) 50 H1)|].
  given.
  exact (proj2 (proj2 (proj2 (percentage_accepts_0_to_100 "150")))
           150 H2 H3).
Defined.

Lemma dbus_int_accepts_its_range_witness :
  lookup_type "y" DBUS_TYPES = Some (TInt (-128) 127) /\
  exists f,
    dbus_int "y" = Some f /\
    f (Py.str 127) = Converted 127 /\
    f (Py.str 128)
    = Rejected ValueErrorClass "Value 128 out of bounds [-128, 127]".
Proof.
  assert (H1 : lookup_type "y" DBUS_TYPES = Some (TInt (-128) 127))
    by reflexivity.
  given.
  destruct (dbus_int_accepts_its_range "y" (-128) 127 H1)
    as (f & Hf & _ & Hin & Hout).
  exists f. split; [exact Hf|].
  split; [apply Hin; lia | apply (Hout 128); lia].
Defined.

Lemma percentage_fits_int16_witness :
  percentage "100" = Converted 100 /\
  exists f, dbus_int "n" = Some f /\ f "100" = Converted 100.
Proof.
  assert (H1 : percentage "100" = Converted 100) by (vm_compute; reflexivity).
  given.
  exact (percentage_fits_int16 "100" 100 H1).
Defined.

Lemma str_bool_ignores_case_of_argument_witness :
  PyText.lower "YES" = PyText.lower "Yes" /\
  (str_bool {[ "truestr" := "yes"; "falsestr" := "no" ]} "YES" = inr true <->
   str_bool {[ "truestr" := "yes"; "falsestr" := "no" ]} "Yes" = inr true) /\
  ({[ "truestr" := "Yes"; "falsestr" := "No" ]} : gmap string string)
    !! "truestr" = Some "Yes" /\
  PyText.lower "Yes" <> "Yes" /\
  str_bool {[ "truestr" := "Yes"; "falsestr" := "No" ]} "Yes" <> inr true.
Proof.
  assert (H1 : PyText.lower "YES" = PyText.lower "Yes") by reflexivity.
  assert (H2 : ({[ "truestr" := "Yes"; "falsestr" := "No" ]}
                  : gmap string string) !! "truestr" = Some "Yes")
    by (vm_compute; reflexivity).
  assert (H3 : PyText.lower "Yes" <> "Yes") by discriminate.
  split; [exact H1|].
  split;
    [exact (proj1 (proj2 (str_bool_ignores_case_of_argument
                            {[ "truestr" := "yes"; "falsestr" := "no" ]}
                            "YES" "Yes")) H1 true)|].
  given.
  exact (proj2 (proj2 (str_bool_ignores_case_of_argument
                         {[ "truestr" := "Yes"; "falsestr" := "No" ]}
                         "Yes" "Yes")) "Yes" H2 H3).
Defined.

Lemma add_method_fills_help_and_description_witness :
  ({[ "help" := "Cycles through the outputs" ]} : gmap string string)
    !! "description" = None /\
  add_method_kwargs {[ "help" := "Cycles through the outputs" ]}
    !! "description"
  = add_method_kwargs {[ "help" := "Cycles through the outputs" ]} !! "help" /\
  (∅ : gmap string string) !! "help" = None /\
  add_method_kwargs ∅ !! "help" = Some "".
Proof.
  assert (H1 : ({[ "help" := "Cycles through the outputs" ]}
                  : gmap string string) !! "description" = None)
    by (vm_compute; reflexivity).
  assert (H2 : (∅ : gmap string string) !! "help" = None) by reflexivity.
  pose proof (add_method_fills_help_and_description
                {[ "help" := "Cycles through the outputs" ]})
    as (_ & _ & _ & _ & Hd & _).
  pose proof (add_method_fills_help_and_description ∅)
    as (_ & _ & _ & Hh & _).
  split; [exact H1|]. split; [exact (Hd H1)|]. given. exact (Hh H2).
Defined.

Lemma add_argument_resolves_type_codes_witness :
  ({[ "type" := KStr "int"; "metavar" := KOther "INCR" ]}
     : gmap string kwarg) !! "type" = Some (KStr "int") /\
  lookup_type "int" DBUS_TYPES = None /\
  add_argument_kwargs {[ "type" := KStr "int"; "metavar" := KOther "INCR" ]}
  = inl "int".
Proof.
  assert (H1 : ({[ "type" := KStr "int"; "metavar" := KOther "INCR" ]}
                  : gmap string kwarg) !! "type" = Some (KStr "int"))
    by (vm_compute; reflexivity).
  assert (H2 : lookup_type "int" DBUS_TYPES = None) by reflexivity.
  given.
  exact (proj2 (proj1 (add_argument_resolves_type_codes
                         {[ "type" := KStr "int";
                            "metavar" := KOther "INCR" ]}) "int")
           (conj H1 H2)).
Defined.

Lemma actions_collect_in_order_witness :
  ({[ "method_args" := Items [] ]} : gmap string (attr Z)) !! "method_args"
  = Some (Items []) /\
  Forall (fun a : string * Z => fst a <> "method_args")
    [("amt", 5); ("amt", 10)] /\
  exists ns',
    run_actions [("amt", 5); ("amt", 10)] {[ "method_args" := Items [] ]}
    = inr ns' /\
    ns' !! "method_args" = Some (Items [5; 10]) /\
    ns' !! "amt" = Some (Item 10).
Proof.
  assert (H1 : ({[ "method_args" := Items [] ]} : gmap string (attr Z))
                 !! "method_args" = Some (Items []))
    by (vm_compute; reflexivity).
  assert (H2 : Forall (fun a : string * Z => fst a <> "method_args")
                 [("amt", 5); ("amt", 10)]).
  { apply Forall_cons. split; [discriminate|].
    apply Forall_cons. split; [discriminate|]. apply Forall_nil. exact I. }
  split; [exact H1|]. split; [exact H2|].
  destruct (proj1 (actions_collect_in_order [("amt", 5); ("amt", 10)]
                     {[ "method_args" := Items [] ]}) [] H1 H2)
    as (ns' & Hrun & Hargs & Hlast & _).
  exists ns'. split; [exact Hrun|]. split; [exact Hargs|].
  apply (Hlast [("amt", 5)] [] "amt" 10); [reflexivity|].
  intros v' H. exact H.
Defined.

Import Desk.

Lemma desk_distinct : NoDup outputs.
Proof. apply (bool_decide_unpack _). vm_compute. exact I. Defined.

Lemma desk_playable : playable (mixers quiet) outputs.
Proof.
  apply Forall_cons. split.
  { exists [1; 1]. split; [vm_compute; reflexivity | discriminate]. }
  apply Forall_cons. split; [|apply Forall_nil; exact I].
  exists [1; 1]. split; [vm_compute; reflexivity | discriminate].
Defined.

Lemma cycle_leaves_one_output_active_witness :
  Forall (fun o => is_Some (mixers quiet !! o)) outputs /\
  fst (cycle_outputs answering outputs quiet) = inr tt /\
  mixers (snd (cycle_outputs answering outputs quiet)) !! "PCM"
  = mixers quiet !! "PCM".
Proof.
  assert (H1 : Forall (fun o => is_Some (mixers quiet !! o)) outputs).
  { apply Forall_cons. split; [exists [1; 1]; vm_compute; reflexivity|].
    apply Forall_cons. split; [exists [1; 1]; vm_compute; reflexivity|].
    apply Forall_nil. exact I. }
  split; [exact H1|].
  destruct (cycle_leaves_one_output_active answering outputs quiet H1)
    as (Hr & _ & Hother & _).
  split; [exact Hr|]. apply Hother.
  intros [H | [H | []]]; discriminate H.
Defined.

Lemma cycle_moves_to_the_next_output_witness :
  NoDup outputs /\
  playable (mixers quiet) outputs /\
  current (mixers (cycled answering outputs quiet)) outputs = Some 0%nat /\
  active_in (mixers (cycled answering outputs quiet)) "Speaker" = true.
Proof.
  pose proof desk_distinct as H1. pose proof desk_playable as H2.
  assert (H3 : following outputs (current (mixers quiet) outputs)
               = Some 0%nat) by (vm_compute; reflexivity).
  split; [exact H1|]. split; [exact H2|].
  destruct (cycle_moves_to_the_next_output answering outputs quiet H1 H2)
    as (Hc & Ha).
  split; [exact (eq_trans Hc H3)|].
  apply (Ha "Speaker"); [left; reflexivity|].
  exists 0%nat. split; [exact H3 | reflexivity].
Defined.

Lemma cycle_gives_each_output_a_turn_witness :
  NoDup outputs /\
  playable (mixers quiet) outputs /\
  current (mixers quiet) outputs = None /\
  (1 < length outputs)%nat /\
  current (mixers (Nat.iter 2 (cycled answering outputs) quiet)) outputs
  = Some 1%nat /\
  current (mixers (Nat.iter 3 (cycled answering outputs) quiet)) outputs
  = current (mixers quiet) outputs.
Proof.
  pose proof desk_distinct as H1. pose proof desk_playable as H2.
  assert (H3 : current (mixers quiet) outputs = None)
    by (vm_compute; reflexivity).
  assert (H4 : (1 < length outputs)%nat) by (vm_compute; lia).
  split; [exact H1|]. split; [exact H2|].
  split; [exact H3|]. split; [exact H4|].
  destruct (cycle_gives_each_output_a_turn answering outputs quiet H1 H2)
    as (_ & Hp & Hk).
  split; [exact (Hk H3 1%nat H4) | exact Hp].
Defined.

Lemma cycle_notifies_the_active_output_witness :
  NoDup outputs /\
  playable (mixers quiet) outputs /\
  answering (nnotify quiet) = Some 7 /\
  sent (cycled answering outputs quiet) = [(0, "Speaker")] /\
  output_notif_id (cycled answering outputs quiet) = 7 /\
  deaf (nnotify quiet) = None /\
  sent (cycled deaf outputs quiet) = [] /\
  logged (cycled deaf outputs quiet) = [DBusException].
Proof.
  pose proof desk_distinct as H1. pose proof desk_playable as H2.
  assert (H3 : answering (nnotify quiet) = Some 7) by reflexivity.
  assert (H4 : deaf (nnotify quiet) = None) by reflexivity.
  split; [exact H1|]. split; [exact H2|]. split; [exact H3|].
  destruct (proj1 (cycle_notifies_the_active_output answering outputs quiet
                     H1 H2) 7 H3) as (Hs & Hi & _).
  destruct (proj2 (cycle_notifies_the_active_output deaf outputs quiet
                     H1 H2) H4) as (Hs' & _ & Hl & _).
  split; [exact Hs|]. split; [exact Hi|]. split; [exact H4|].
  split; [exact Hs' | exact Hl].
Defined.

Lemma cycle_with_a_missing_output_witness :
  (exists o, In o outputs /\ mixers unplugged !! o = None) /\
  active_in (mixers unplugged) "Speaker" = true /\
  fst (cycle_outputs answering outputs unplugged) = inr tt /\
  sent (cycled answering outputs unplugged) = sent unplugged /\
  exists o, logged (cycled answering outputs unplugged)
            = (logged unplugged ++ [ALSAAudioError o])%list.
Proof.
  assert (H1 : exists o, In o outputs /\ mixers unplugged !! o = None).
  { exists "Headphone". split; [right; left; reflexivity|].
    vm_compute. reflexivity. }
  assert (H2 : active_in (mixers unplugged) "Speaker" = true)
    by (vm_compute; reflexivity).
  split; [exact H1|]. split; [exact H2|].
  destruct (cycle_with_a_missing_output answering outputs unplugged H1)
    as (Hr & _ & Hs & _ & _ & o & Hl & _).
  split; [exact Hr|]. split; [exact Hs|]. exists o. exact Hl.
Defined.

Lemma index_when_stops_at_the_first_match_witness :
  (forall x, In x ["Speaker"] -> is_active x plugged = (inr false, plugged)) /\
  is_active "Headphone" plugged = (inr true, plugged) /\
  index_when ["Speaker"; "Headphone"; "PCM"; "Line"] is_active plugged
  = (inr (Some 1%nat), plugged).
Proof.
  assert (H1 : forall x, In x ["Speaker"] ->
                         is_active x plugged = (inr false, plugged)).
  { intros x [<- | []].
    exact (is_active_there plugged "Speaker"
             (ex_intro _ [1; 1] eq_refl)). }
  assert (H2 : is_active "Headphone" plugged = (inr true, plugged)).
  { exact (is_active_there plugged "Headphone"
             (ex_intro _ [0; 0] eq_refl)). }
  split; [exact H1|]. split; [exact H2|].
  exact (proj1 (index_when_stops_at_the_first_match is_active plugged
                  ["Speaker"] ["PCM"; "Line"] "Headphone" H1) H2).
Defined.

Lemma stop_touches_only_the_pidfile_witness :
  "/etc/motd" <> pidfile_at soundctld stale /\
  exists k : nat,
    nsleeps (world_of (stop detach 5 soundctld stale))
    = (nsleeps stale + k)%nat /\
    fs (world_of (stop detach 5 soundctld stale)) !! "/etc/motd"
    = others_during detach (nsleeps stale) k (fs stale) !! "/etc/motd" /\
    nforks (world_of (stop detach 5 soundctld stale)) = nforks stale.
Proof.
  assert (H1 : "/etc/motd" <> pidfile_at soundctld stale) by discriminate.
  split; [exact H1|].
  destruct (stop_touches_only_the_pidfile detach soundctld 5 stale)
    as (k & Hk & Hfs & _ & _ & _ & _ & _ & Hf).
  exists k. split; [exact Hk|]. split; [exact (Hfs _ H1) | exact Hf].
Defined.

Lemma bounded_accepts_within_bounds_witness :
  (exists n, int_cast "300" = inr n /\ ~ (0 <= n <= 255) /\
             ValueErrorClass = default ValueErrorClass None /\
             out_of_bounds 0 255 300 = out_of_bounds 0 255 n) /\
  bounded str_of_str int_cast 0 255 None "300"
  = Rejected ValueErrorClass (out_of_bounds 0 255 300).
Proof.
  assert (H1 : exists n, int_cast "300" = inr n /\ ~ (0 <= n <= 255) /\
                 ValueErrorClass = default ValueErrorClass None /\
                 out_of_bounds 0 255 300 = out_of_bounds 0 255 n).
  { exists 300. split; [vm_compute; reflexivity|]. split; [lia|].
    split; reflexivity. }
  split; [exact H1|].
  exact (proj2 (proj1 (proj2 (proj2 (bounded_accepts_within_bounds
                                       str_of_str int_cast 0 255 None
                                       "300")))
                  ValueErrorClass (out_of_bounds 0 255 300)) H1).
Defined.

Lemma mixer_list_splits_at_colons_witness :
  In "Headphone" (mixer_list "Speaker:Headphone") /\
  forallb (fun c => negb (Ascii.eqb c ":"))
    (list_ascii_of_string "Headphone") = true /\
  PyText.join ":" (mixer_list "Speaker:Headphone") = "Speaker:Headphone".
Proof.
  assert (H1 : In "Headphone" (mixer_list "Speaker:Headphone"))
    by (right; left; reflexivity).
  split; [exact H1|].
  destruct (mixer_list_splits_at_colons "Speaker:Headphone")
    as (_ & Hn & _ & Hj).
  split; [exact (Hn _ H1) | exact Hj].
Defined.
